(** * SoloPay backend: a shallow embedding of index.js and its two sibling
    versions, with the properties of its handlers.

    The backend is an Express application.  Each handler is an async
    function whose body sits in one [try { ... } catch]; it reads and writes
    a directory of temporary PDF files, calls a PDF library, a text
    generation service and [JSON.parse], and answers with one HTTP response.

    Layout of this development:
    - JavaScript strings as sequences of UTF-16 code units, with the
      [String.prototype] members the handlers call;
    - JSON values, truthiness, [||] and property reads;
    - the host interface (libraries and services the code calls), and the
      conversions [ToString] and [ToNumber] over it;
    - a state-and-exception monad for the bodies of the async functions;
    - the temporary file store, the prompt builders, the handlers and the
      report renderer of index.js;
    - [Part000] and [Part001]: the places where the two other versions of
      the file differ;
    - the theorems. *)

From Stdlib Require Import ZArith NArith String Ascii DecimalString DecimalPos Lia Floats.
From stdpp Require Import strings gmap list.

Local Open Scope Z_scope.

(* ===================================================================== *)
(** ** JavaScript strings *)
(* ===================================================================== *)

(** A JavaScript string is a finite sequence of UTF-16 code units;
    [length], [substring] and the regular expressions count code units. *)
Abbreviation code_unit := N (only parsing).
Abbreviation jsstring := (list N) (only parsing).

(** A string literal of the source whose characters are all ASCII. *)
Definition lit (s : string) : jsstring :=
  List.map N_of_ascii (list_ascii_of_string s).

(** The long prompt templates are full of double quotes; they are written
    here with [~] (which no template contains) in place of each one. *)
Definition tpl (s : string) : jsstring :=
  List.map (fun c => if (c =? 126)%N then 34%N else c) (lit s).

(** U+20B9, the rupee sign. *)
Definition rupee : code_unit := 8377%N.

(** [s.length] *)
Definition jslength (s : jsstring) : Z := Z.of_nat (length s).

(** [s.substring(a, b)]: both indices are clamped to [0, s.length] and
    swapped when out of order; [s.substring(a)] runs to the end. *)
Definition clamp (len x : Z) : Z := Z.max 0 (Z.min x len).

Definition substring (s : jsstring) (a : Z) (b : option Z) : jsstring :=
  let len := jslength s in
  let a' := clamp len a in
  let b' := match b with Some b => clamp len b | None => len end in
  let from := Z.min a' b' in
  let to := Z.max a' b' in
  firstn (Z.to_nat (to - from)) (skipn (Z.to_nat from) s).

(** [s.substr(start, count)] for a non-negative [start]. *)
Definition substr (s : jsstring) (start count : Z) : jsstring :=
  firstn (Z.to_nat count) (skipn (Z.to_nat start) s).

(** Is [pat] a prefix of [s]? *)
Fixpoint starts_with (pat s : jsstring) : bool :=
  match pat, s with
  | [], _ => true
  | _ :: _, [] => false
  | p :: pat', c :: s' => (p =? c)%N && starts_with pat' s'
  end.

(** The leftmost occurrence of [pat] in [s]: what stands before it and
    what follows it. *)
Fixpoint find_first (pat s : jsstring) {struct s} : option (jsstring * jsstring) :=
  if starts_with pat s then Some ([], skipn (length pat) s)
  else match s with
       | [] => None
       | c :: s' =>
           match find_first pat s' with
           | Some (pre, post) => Some (c :: pre, post)
           | None => None
           end
       end.

(** [s.includes(pat)] *)
Definition includes (pat s : jsstring) : bool :=
  match find_first pat s with Some _ => true | None => false end.

(** The rightmost occurrence of [pat] in [s]. *)
Definition find_last (pat s : jsstring) : option (jsstring * jsstring) :=
  match find_first (rev pat) (rev s) with
  | Some (rpost, rpre) => Some (rev rpre, rev rpost)
  | None => None
  end.

(** WhiteSpace and LineTerminator code units, as [trim] strips them. *)
Definition is_space (c : code_unit) : bool :=
  ((9 <=? c) && (c <=? 13) || (c =? 32) || (c =? 160) || (c =? 5760)
   || (8192 <=? c) && (c <=? 8202) || (c =? 8232) || (c =? 8233)
   || (c =? 8239) || (c =? 8287) || (c =? 12288) || (c =? 65279))%N.

Fixpoint trimStart (s : jsstring) : jsstring :=
  match s with
  | c :: s' => if is_space c then trimStart s' else s
  | [] => []
  end.

(** [s.trim()] *)
Definition trim (s : jsstring) : jsstring := rev (trimStart (rev (trimStart s))).

(** Decimal digits of an integer, as [String(n)] prints an integer. *)
Definition decimal (n : Z) : jsstring :=
  match n with
  | Z0 => lit "0"
  | Zpos p => lit (NilZero.string_of_uint (Pos.to_uint p))
  | Zneg p => lit "-" ++ lit (NilZero.string_of_uint (Pos.to_uint p))
  end.

(** [parts.join(sep)] *)
Fixpoint join (sep : jsstring) (parts : list jsstring) : jsstring :=
  match parts with
  | [] => []
  | [p] => p
  | p :: rest => p ++ sep ++ join sep rest
  end.

(** *** The three regular expressions of the source, as searches *)

(** [/```json([\s\S]*?)```/]: a match starts at the leftmost [```json]
    that has a [```] somewhere after it, and the lazy group stops at the
    first such [```].  A later [```json] would itself close the first one,
    so either the leftmost [```json] starts the match or nothing matches.
    The result is capture group 1. *)
Definition fence_open : jsstring := lit "```json".
Definition fence_close : jsstring := lit "```".

Definition match_fenced (text : jsstring) : option jsstring :=
  match find_first fence_open text with
  | Some (_, rest) =>
      match find_first fence_close rest with
      | Some (cap, _) => Some cap
      | None => None
      end
  | None => None
  end.

(** [/\{[\s\S]*\}/]: from the leftmost [{] to the last [}] after it (the
    star is greedy).  The result is the whole match. *)
Definition brace_open : jsstring := lit "{".
Definition brace_close : jsstring := lit "}".

Definition match_braces (text : jsstring) : option jsstring :=
  match find_first brace_open text with
  | Some (_, rest) =>
      match find_last brace_close rest with
      | Some (mid, _) => Some (brace_open ++ mid ++ brace_close)
      | None => None
      end
  | None => None
  end.

(** [(text.match(/\d{2}\/\d{2}\/\d{4}/g) || []).length]: the number of
    non-overlapping dd/dd/dddd matches, scanning from the left. *)
Definition is_digit (c : code_unit) : bool := ((48 <=? c) && (c <=? 57))%N.

Definition date_here (s : jsstring) : bool :=
  match s with
  | d1 :: d2 :: s1 :: d3 :: d4 :: s2 :: d5 :: d6 :: d7 :: d8 :: _ =>
      is_digit d1 && is_digit d2 && (s1 =? 47)%N && is_digit d3 && is_digit d4
      && (s2 =? 47)%N && is_digit d5 && is_digit d6 && is_digit d7 && is_digit d8
  | _ => false
  end.

Fixpoint count_dates_from (skip : nat) (s : jsstring) : Z :=
  match s with
  | [] => 0
  | _ :: s' =>
      match skip with
      | S k => count_dates_from k s'
      | O => if date_here s then 1 + count_dates_from 9 s' else count_dates_from 0 s'
      end
  end.

Definition count_dates (s : jsstring) : Z := count_dates_from 0 s.

(* ===================================================================== *)
(** ** JSON values *)
(* ===================================================================== *)

(** What [JSON.parse] and the body parser hand to the handlers, plus
    [undefined] for a property that is not there.  An object lists its own
    properties in enumeration order.  A Number is an IEEE 754 binary64
    value, the primitive [float]. *)
Abbreviation Number := float (only parsing).

#[warnings="-register-all"]
Inductive Json : Type :=
| JUndefined
| JNull
| JBool (b : bool)
| JNum (n : Number)
| JStr (s : jsstring)
| JArr (items : list Json)
| JObj (props : list (jsstring * Json)).

(** The Number of an integer, rounded to the nearest binary64 value as
    JavaScript rounds; lengths and sizes are below 2^53 and are not
    rounded at all. *)
Definition Number_of_Z (z : Z) : Number :=
  SF2Prim (binary_normalize prec emax z 0 false).

(** The Number value of a length or of an integer literal, as a JSON
    value. *)
Definition num (z : Z) : Json := JNum (Number_of_Z z).

(** ToBoolean: [+0], [-0] and [NaN] are the falsy Numbers. *)
Definition truthy (v : Json) : bool :=
  match v with
  | JUndefined | JNull => false
  | JBool b => b
  | JNum n => negb (is_zero n || is_nan n)
  | JStr s => match s with [] => false | _ => true end
  | JArr _ | JObj _ => true
  end.

(** [a || b] *)
Definition jor (a b : Json) : Json := if truthy a then a else b.

(** [v === 'literal'] *)
Definition strict_eq_str (v : Json) (s : jsstring) : bool :=
  match v with JStr s' => bool_decide (s' = s) | _ => false end.

(** An own property of an object. *)
Fixpoint assoc (k : jsstring) (props : list (jsstring * Json)) : option Json :=
  match props with
  | [] => None
  | (k', v) :: rest => if bool_decide (k' = k) then Some v else assoc k rest
  end.

Definition own (v : Json) (k : jsstring) : option Json :=
  match v with JObj props => assoc k props | _ => None end.

(** [Object.entries(v)] of a value that is neither [null] nor [undefined]:
    the own properties of an object, the indexed elements of an array, the
    indexed characters of a string, nothing for a number or a boolean. *)
Definition indexed {A} (f : A -> Json) (l : list A) : list (jsstring * Json) :=
  imap (fun i x => (decimal (Z.of_nat i), f x)) l.

Definition Object_entries (v : Json) : list (jsstring * Json) :=
  match v with
  | JObj props => props
  | JArr items => indexed (fun x => x) items
  | JStr s => indexed (fun c => JStr [c]) s
  | _ => []
  end.

(* ===================================================================== *)
(** ** Exceptions *)
(* ===================================================================== *)

(** A thrown value, as far as the handlers look at it: its [message]. *)
Record Error : Type := mkError { message : option jsstring }.

Definition new_Error (msg : string) : Error := mkError (Some (lit msg)).

(** [TypeError: Cannot read properties of null (reading 'k')] *)
Definition TypeError (what k : string) : Error :=
  mkError (Some (lit "Cannot read properties of " ++ lit what ++ lit " (reading '"
                 ++ lit k ++ lit "')")).

(** [TypeError: Cannot convert object to primitive value] *)
Definition cannot_convert : Error :=
  new_Error "Cannot convert object to primitive value".

(** [TypeError: text.match is not a function] *)
Definition not_a_function (callee : string) : Error :=
  mkError (Some (lit callee ++ lit " is not a function")).

(** How an expression or a call completes. *)
Inductive Completion (A : Type) : Type :=
| Normal (a : A)
| Throw (e : Error).
Arguments Normal {A} a.
Arguments Throw {A} e.

Definition cbind {A B} (c : Completion A) (k : A -> Completion B) : Completion B :=
  match c with
  | Normal a => k a
  | Throw e => Throw e
  end.

Declare Scope completion_scope.
Delimit Scope completion_scope with completion.
Notation "x <~ c ;; k" := (cbind c (fun x => k))
  (at level 100, c at next level, right associativity) : completion_scope.

(** [v.k]: reading a property of [null] or [undefined] throws; the names
    the handlers read ([transactions], [summary], [total], ...) are own
    properties of objects only, so every other value gives [undefined]. *)
Definition prop (v : Json) (k : string) : Completion Json :=
  match v with
  | JUndefined => Throw (TypeError "undefined" k)
  | JNull => Throw (TypeError "null" k)
  | _ => Normal (match own v (lit k) with Some x => x | None => JUndefined end)
  end.

(** [for each x of l, f(x)], collecting what [f] produces; the first throw
    ends the loop. *)
Fixpoint cmap {A B} (f : A -> Completion B) (l : list A) : Completion (list B) :=
  match l with
  | [] => Normal []
  | x :: rest =>
      (y <~ f x ;; ys <~ cmap f rest ;; Normal (y :: ys))%completion
  end.

(* ===================================================================== *)
(** ** The host: libraries and services the backend calls *)
(* ===================================================================== *)

(** A [Buffer] of bytes. *)
Abbreviation Buffer := (list Byte.byte) (only parsing).

(** An ExcelJS worksheet: its name, [columns], and the values given to
    [addRow], in order. *)
Record Column : Type := mkColumn { header : jsstring; key : jsstring; width : Z }.

Record Worksheet : Type := mkWorksheet {
  name : jsstring;
  columns : list Column;
  rows : list Json
}.

Abbreviation Workbook := (list Worksheet) (only parsing).

(** The [fs/promises] calls of the file store. *)
Inductive FsOp : Type := Mkdir | WriteFile | ReadFile | Unlink.

(** [getGenerativeModel({ model, generationConfig })]; the temperature is
    kept as the decimal literal of the source. *)
Record ModelConfig : Type := mkModelConfig {
  model : jsstring;
  maxOutputTokens : option Z;
  temperature : option string
}.

(** None of these is code of the repository; the handlers are stated over
    any behaviour of theirs.  Each call either returns or throws.
    [Date.now()] and [Math.random()] are read at a tick of the request's
    world, so that two reads need not agree. *)
Class Host : Type := {
  (** pdf-lib: a loaded document, [PDFDocument.load(bytes, options)] with
      the [password] option when one is passed, and [pdfDoc.save()] *)
  PdfDoc : Type;
  PDFDocument_load : Buffer -> option Json -> Completion PdfDoc;
  PdfDoc_save : PdfDoc -> Completion Buffer;
  (** pdf-parse: [(await pdf(bytes)).text] *)
  pdf : Buffer -> Completion jsstring;
  (** Gemini: [(await model.generateContent(prompt)).response.text()] *)
  generateContent : ModelConfig -> jsstring -> Completion jsstring;
  (** OpenAI: [completion.choices[0].message.content] of a chat completion
      asked for with the fixed system message and [prompt] as user message *)
  chat_completion : jsstring -> Completion jsstring;
  JSON_parse : jsstring -> Completion Json;
  (** [path.join(__dirname, ...)] *)
  path_join_dirname : list jsstring -> jsstring;
  (** a file system call on a path may fail for a reason of the disk's own *)
  disk_fault : FsOp -> jsstring -> option Error;
  (** ExcelJS: [workbook.xlsx.writeBuffer()] of a workbook with these
      sheets; the library checks the cell values when it writes them *)
  writeBuffer : Workbook -> Completion Buffer;
  Date_now : nat -> Z;
  (** [Math.random().toString(36)] *)
  Math_random_toString36 : nat -> jsstring;
  (** [s.toUpperCase()] *)
  toUpperCase : jsstring -> jsstring;
  (** Number::toString, the digits a template literal prints for a Number *)
  Number_toString : Number -> jsstring;
  (** StringToNumber, the Number a string is read as ([NaN] when it is not
      a numeric literal) *)
  StringToNumber : jsstring -> Number
}.

(* ===================================================================== *)
(** ** Conversions *)
(* ===================================================================== *)

Section Conversions.
Context {host : Host}.

Local Open Scope completion_scope.

(** ToString, as a template literal applies it to a JSON value.  An array
    prints through [join], which prints its elements in turn.  An object
    prints as [[object Object]] through [Object.prototype.toString], unless
    it has an own property [toString]: a property of a parsed object is
    never callable, [Object.prototype.valueOf] returns the object itself,
    and the conversion throws. *)
Fixpoint ToString (v : Json) : Completion jsstring :=
  match v with
  | JUndefined => Normal (lit "undefined")
  | JNull => Normal (lit "null")
  | JBool true => Normal (lit "true")
  | JBool false => Normal (lit "false")
  | JNum n => Normal (Number_toString n)
  | JStr s => Normal s
  | JArr items =>
      parts <~ cmap (fun x => match x with
                              | JUndefined | JNull => Normal []
                              | _ => ToString x
                              end) items ;;
      Normal (join (lit ",") parts)
  | JObj props =>
      match assoc (lit "toString") props with
      | Some _ => Throw cannot_convert
      | None => Normal (lit "[object Object]")
      end
  end.

(** ToNumber.  An array or an object is first made a primitive; with the
    hint [number] that is the string [ToString] gives, or its throw. *)
Definition ToNumber (v : Json) : Completion Number :=
  match v with
  | JUndefined => Normal nan
  | JNull => Normal 0%float
  | JBool b => Normal (if b then 1%float else 0%float)
  | JNum n => Normal n
  | JStr s => Normal (StringToNumber s)
  | JArr _ | JObj _ => s <~ ToString v ;; Normal (StringToNumber s)
  end.

(** [v > n] for a Number [n]; a comparison with [NaN] is false. *)
Definition greater_than (v : Json) (n : Number) : Completion bool :=
  x <~ ToNumber v ;; Normal (n <? x)%float.

(** [v.length]: the number of code units of a string, the number of
    elements of an array, the own property of an object, and [undefined]
    for a Number or a boolean. *)
Definition length_of (v : Json) : Completion Json :=
  match v with
  | JStr s => Normal (num (jslength s))
  | JArr items => Normal (num (Z.of_nat (length items)))
  | _ => prop v "length"
  end.

(** [v.length > n] for an integer literal [n].  The length of a string is
    an integer below 2^53, and the comparison is one of integers. *)
Definition longer_than (v : Json) (n : Z) : Completion bool :=
  match v with
  | JStr s => Normal (n <? jslength s)
  | _ => len <~ length_of v ;; greater_than len (Number_of_Z n)
  end.

End Conversions.

(* ===================================================================== *)
(** ** State and exceptions *)
(* ===================================================================== *)

(** One argument of a [console.error] call after its label. *)
Inductive Logged : Type :=
| LogError (e : Error)
| LogValue (v : Json).

(** The world a request runs in: the files of the temp directory by path,
    what was written with [console.error], and the tick of the clock.
    ([console.log] lines are progress notes and are left out.) *)
Record World : Type := mkWorld {
  files : gmap (list N) (list Byte.byte);
  errors_logged : list (jsstring * Logged);
  tick : nat
}.

Definition with_files (w : World) (f : gmap (list N) (list Byte.byte)) : World :=
  mkWorld f (errors_logged w) (tick w).

(** The body of an async function: it runs from a world to a completion
    and the world it leaves; a throw keeps the effects made before it. *)
Definition M (A : Type) : Type := World -> Completion A * World.

Definition ret {A} (a : A) : M A := fun w => (Normal a, w).

Definition throw {A} (e : Error) : M A := fun w => (Throw e, w).

Definition bind {A B} (m : M A) (k : A -> M B) : M B :=
  fun w => match m w with
           | (Normal a, w') => k a w'
           | (Throw e, w') => (Throw e, w')
           end.

(** [try { body } catch (error) { handler }] *)
Definition try_catch {A} (body : M A) (handler : Error -> M A) : M A :=
  fun w => match body w with
           | (Normal a, w') => (Normal a, w')
           | (Throw e, w') => handler e w'
           end.

(** [await] of a host call. *)
Definition await {A} (c : Completion A) : M A := fun w => (c, w).

Declare Scope js_scope.
Delimit Scope js_scope with js.
Notation "x <- m ;; k" := (bind m (fun x => k))
  (at level 100, m at next level, right associativity) : js_scope.
Notation "m ;; k" := (bind m (fun _ => k))
  (at level 100, right associativity) : js_scope.
Local Open Scope js_scope.

(** [console.error(label, arg)] *)
Definition console_error (label : string) (arg : Logged) : M unit :=
  fun w => (Normal tt, mkWorld (files w) (errors_logged w ++ [(lit label, arg)]) (tick w)).

(** Reading the clock or the random source moves the tick on. *)
Definition next_tick : M nat :=
  fun w => (Normal (tick w), mkWorld (files w) (errors_logged w) (S (tick w))).

(** *** [fs/promises] *)

Definition ENOENT : Error := new_Error "ENOENT: no such file or directory".

Section FileSystem.
Context {host : Host}.

Definition fs_call {A} (op : FsOp) (path : jsstring) (run : M A) : M A :=
  match disk_fault op path with
  | Some e => throw e
  | None => run
  end.

(** [fs.mkdir(dir, { recursive: true })]: directories are not files of
    the store, so a successful call changes nothing. *)
Definition fs_mkdir (dir : jsstring) : M unit :=
  fs_call Mkdir dir (ret tt).

Definition fs_writeFile (path : jsstring) (data : Buffer) : M unit :=
  fs_call WriteFile path
    (fun w => (Normal tt, with_files w (<[path := data]> (files w)))).

Definition fs_readFile (path : jsstring) : M Buffer :=
  fs_call ReadFile path
    (fun w => match files w !! path with
              | Some data => (Normal data, w)
              | None => (Throw ENOENT, w)
              end).

Definition fs_unlink (path : jsstring) : M unit :=
  fs_call Unlink path
    (fun w => match files w !! path with
              | Some _ => (Normal tt, with_files w (delete path (files w)))
              | None => (Throw ENOENT, w)
              end).

(* =================================================================== *)
(** ** The temporary file store (index.js, Helper Functions) *)
(* =================================================================== *)

(** [path.join(__dirname, 'temp', name + '.pdf')] *)
Definition temp_path (name : jsstring) : jsstring :=
  path_join_dirname [lit "temp"; name ++ lit ".pdf"].

(** [path.join(__dirname, 'temp', `${sessionId}.pdf`)]: the template
    literal prints the session id, or throws. *)
Definition tempFile (sessionId : Json) : Completion jsstring :=
  cbind (ToString sessionId) (fun name => Normal (temp_path name)).

(** [`session_${Date.now()}_${Math.random().toString(36).substr(2, 9)}`]
    with the clock and the random source read at tick [t] *)
Definition session_id_at (t : nat) : jsstring :=
  lit "session_" ++ decimal (Date_now t) ++ lit "_"
  ++ substr (Math_random_toString36 t) 2 9.

Definition generateSessionId : M jsstring :=
  t <- next_tick ;;
  ret (session_id_at t).

Definition saveTemporaryFile (sessionId : Json) (buffer : Buffer) : M unit :=
  fs_mkdir (path_join_dirname [lit "temp"]) ;;
  filePath <- await (tempFile sessionId) ;;
  fs_writeFile filePath buffer.

Definition getTemporaryFile (sessionId : Json) : M (option Buffer) :=
  try_catch
    (filePath <- await (tempFile sessionId) ;;
     data <- fs_readFile filePath ;;
     ret (Some data))
    (fun error =>
       console_error "File not found:" (LogValue sessionId) ;;
       ret None).

Definition deleteTemporaryFile (sessionId : Json) : M unit :=
  try_catch
    (filePath <- await (tempFile sessionId) ;;
     fs_unlink filePath)
    (fun error => console_error "Error deleting temp file:" (LogError error)).

End FileSystem.

(* ===================================================================== *)
(** ** The prompt builders (index.js) *)
(* ===================================================================== *)

(** The fixed text of the two template literals, cut at their
    interpolations. *)
Definition bank_template_1 : jsstring :=
  tpl "
    You are an expert financial analyst. Analyze this bank statement with high precision.
    
    CRITICAL RULES:
    1. Return ONLY valid JSON - no markdown, no extra text, no code blocks
    2. All numbers must be numeric values without currency symbols (e.g., 1500.50, not ~" ++ [rupee] ++ tpl "1,500.50~)
    3. All dates should be in DD/MM/YYYY format
    4. For transactions array: ".

Definition bank_template_2 : jsstring :=
  tpl "
    5. If returning JSON in code blocks, wrap it in ```json and ```
    
    TASK BREAKDOWN:
    Step 1: Extract account details (bank name, account number, period, opening/closing balance)
    Step 2: Count and sum all transactions (total deposits, withdrawals, transaction count)
    Step 3: Categorize transactions:
       - UPI: Any transaction with ~UPI~ in description (except ONECARD)
       - NEFT: Transactions with ~NEFT~
       - ATM: ATM withdrawals
       - CreditCard: Credit card payments including ONECARD
       - achTransfers: ACH debits/credits (ETMONEY, etc)
       - Others: Everything else
    Step 4: Identify patterns (recurring payments, highest spending month if multi-month)
    
    EXPECTED JSON OUTPUT:
    {
      ~accountInfo~: {
        ~bankName~: ~extract bank name~,
        ~accountNumber~: ~extract account number~,
        ~period~: ~extract statement period~,
        ~openingBalance~: extract_opening_balance_as_number,
        ~closingBalance~: extract_closing_balance_as_number
      },
      ~summary~: {
        ~totalDeposits~: sum_all_credits,
        ~totalWithdrawals~: sum_all_debits,
        ~netFlow~: deposits_minus_withdrawals,
        ~transactionCount~: total_number_of_transactions,
        ~avgDailySpending~: average_daily_debit_amount
      },
      ~categories~: {
        ~upi~: { ~total~: sum_upi_transactions, ~count~: count_upi_transactions, ~percentage~: percent_of_total },
        ~neft~: { ~total~: sum_neft, ~count~: count_neft, ~percentage~: percent },
        ~atm~: { ~total~: sum_atm, ~count~: count_atm, ~percentage~: percent },
        ~creditCard~: { ~total~: sum_cc, ~count~: count_cc, ~percentage~: percent },
        ~achTransfers~: { ~total~: sum_ach, ~count~: count_ach, ~percentage~: percent },
        ~others~: { ~total~: sum_others, ~count~: count_others, ~percentage~: percent }
      },
      ~monthlyPatterns~: {
        ~highestSpendingMonth~: ~month_name_with_year~,
        ~lowestSpendingMonth~: ~month_name_with_year~,
        ~averageMonthlySpending~: average_per_month
      },
      ~recurringPayments~: [
        { ~description~: ~merchant_name~, ~amount~: recurring_amount, ~frequency~: ~monthly/weekly~ }
      ],
      ~topTransactions~: [
        { ~date~: ~DD/MM/YYYY~, ~description~: ~transaction_description~, ~amount~: amount, ~type~: ~debit/credit~ }
      ],
      ~alerts~: [
        ~High UPI transaction volume detected~,
        ~Multiple ACH debits on same day~
      ],
      ~transactions~: [
        { ~date~: ~DD/MM/YYYY~, ~description~: ~full_description~, ~debit~: debit_amount_or_0, ~credit~: credit_amount_or_0, ~balance~: balance_after }
      ]
    }
    
    Bank Statement Text:
    ".

Definition bank_template_3 : jsstring :=
  tpl "
  ".

Definition credit_template_1 : jsstring :=
  tpl "
    You are a financial analyst. Analyze this credit card statement and extract ALL information.
    
    CRITICAL RULES:
    1. Return ONLY valid JSON - no markdown, no extra text, no code blocks
    2. All numbers must be numeric values without currency symbols (e.g., 550.75, not ~$550.75~)
    3. All dates should be in DD/MM/YYYY format
    4. If returning JSON in code blocks, wrap it in ```json and ```
    
    TASK BREAKDOWN:
    1. Extract all transactions with date, merchant, and amount
    2. Identify ALL subscriptions (Netflix, Spotify, ChatGPT, etc.)
    3. Categorize spending by type
    4. Find expensive transactions
    5. Calculate total spending
    
    Return this EXACT JSON structure:
    {
      ~cardInfo~: {
        ~bankName~: ~string~,
        ~cardNumber~: ~string~,
        ~statementPeriod~: ~string~,
        ~creditLimit~: number,
        ~availableCredit~: number
      },
      ~summary~: {
        ~totalSpent~: number,
        ~paymentMade~: number,
        ~minimumDue~: number,
        ~dueDate~: ~string~,
        ~outstandingBalance~: number
      },
      ~subscriptions~: [
        { 
          ~merchant~: ~string~, 
          ~amount~: number, 
          ~category~: ~string~,
          ~frequency~: ~monthly/annual~
        }
      ],
      ~categories~: {
        ~dining~: { ~total~: number, ~count~: number, ~percentage~: number },
        ~shopping~: { ~total~: number, ~count~: number, ~percentage~: number },
        ~travel~: { ~total~: number, ~count~: number, ~percentage~: number },
        ~entertainment~: { ~total~: number, ~count~: number, ~percentage~: number },
        ~utilities~: { ~total~: number, ~count~: number, ~percentage~: number },
        ~others~: { ~total~: number, ~count~: number, ~percentage~: number }
      },
      ~expensiveTransactions~: [
        { ~date~: ~string~, ~merchant~: ~string~, ~amount~: number }
      ],
      ~alerts~: [~string~],
      ~transactions~: [
        { ~date~: ~string~, ~merchant~: ~string~, ~amount~: number, ~category~: ~string~ }
      ]
    }
    
    Credit Card Statement Text:
    ".

Definition credit_template_2 : jsstring :=
  tpl "
  ".

Definition newline : jsstring := [10%N].

Definition omission_marker : jsstring :=
  lit "...[MIDDLE SECTION OMITTED FOR LENGTH]...".

(** The [textToAnalyze] both builders compute: the text itself, or its
    first and last 100000 code units around the marker when it is longer
    than 500000. *)
Definition textToAnalyze (text : jsstring) : jsstring :=
  if 500000 <? jslength text then
    let first := substring text 0 (Some 100000) in
    let last := substring text (jslength text - 100000) None in
    first ++ (newline ++ omission_marker ++ newline) ++ last
  else text.

Definition getBankStatementPrompt (text : jsstring) : jsstring :=
  let transactionCount := count_dates text in
  let isLargeStatement := (200 <? transactionCount) || (100000 <? jslength text) in
  bank_template_1
  ++ (if isLargeStatement then lit "Include ONLY the 50 largest transactions"
      else lit "Include ALL transactions")
  ++ bank_template_2 ++ textToAnalyze text ++ bank_template_3.

Definition getCreditCardPrompt (text : jsstring) : jsstring :=
  credit_template_1 ++ textToAnalyze text ++ credit_template_2.

(** The builders are also called with the [text] of a request body, which
    need not be a string.  [getBankStatementPrompt] begins with
    [text.match(...)], which no other value has as a method.
    [getCreditCardPrompt] reads [text.length], calls [text.substring] when
    that is greater than 500000, and prints the value into the template
    otherwise. *)
Section PromptsOfAnyValue.
Context {host : Host}.

Definition getBankStatementPrompt_js (text : Json) : Completion jsstring :=
  match text with
  | JStr s => Normal (getBankStatementPrompt s)
  | JUndefined => Throw (TypeError "undefined" "match")
  | JNull => Throw (TypeError "null" "match")
  | _ => Throw (not_a_function "text.match")
  end.

Definition getCreditCardPrompt_js (text : Json) : Completion jsstring :=
  match text with
  | JStr s => Normal (getCreditCardPrompt s)
  | _ =>
      cbind (longer_than text 500000) (fun oversized =>
        if oversized : bool then Throw (not_a_function "text.substring")
        else cbind (ToString text) (fun printed =>
               Normal (credit_template_1 ++ printed ++ credit_template_2)))
  end.

End PromptsOfAnyValue.

(* ===================================================================== *)
(** ** Requests, responses and workbooks *)
(* ===================================================================== *)

(** [req.body]: the fields the handlers destructure, [JUndefined] when the
    request has none. *)
Record Body : Type := mkBody {
  text : Json;
  documentType : Json;
  sessionId : Json;
  password : Json;
  type : Json;
  analysis : Json
}.

(** [req.file] as multer leaves it. *)
Record UploadedFile : Type := mkUploadedFile {
  originalname : jsstring;
  size : Number;
  buffer : list Byte.byte
}.

(** What a handler sends: the object given to [res.json], or the buffer
    of [workbook.xlsx.writeBuffer()] given to [res.send] after the
    [Content-Disposition] header has named the file. *)
Inductive Sent : Type :=
| SentJson (v : Json)
| SentWorkbook (filename : jsstring) (buffer : list Byte.byte).

Record Response : Type := mkResponse { statusCode : Z; sent : Sent }.

(** [res.status(code).json({...})]; [res.json] alone answers 200. *)
Definition json (code : Z) (fields : list (string * Json)) : Response :=
  mkResponse code (SentJson (JObj (List.map (fun '(k, v) => (lit k, v)) fields))).

Definition str (s : string) : Json := JStr (lit s).

(** [error.message] as a property value. *)
Definition message_of (e : Error) : Json :=
  match message e with Some m => JStr m | None => JUndefined end.

(** [error.message] appended to a string with [+]. *)
Definition message_text (e : Error) : jsstring :=
  match message e with Some m => m | None => lit "undefined" end.

(** [error.message && error.message.includes(word)] *)
Definition message_includes (e : Error) (word : string) : bool :=
  match message e with Some m => includes (lit word) m | None => false end.

(** The [catch] that closes every handler: log, answer 500. *)
Definition handler (label failure : string) (body : M Response) (w : World)
  : Response * World :=
  match body w with
  | (Normal r, w') => (r, w')
  | (Throw error, w') =>
      (json 500 [("error", str failure); ("details", message_of error)],
       mkWorld (files w') (errors_logged w' ++ [(lit label, LogError error)]) (tick w'))
  end.

(* ===================================================================== *)
(** ** The report renderer (index.js) *)
(* ===================================================================== *)

Local Open Scope completion_scope.

Definition obj (fields : list (string * Json)) : Json :=
  JObj (List.map (fun '(k, v) => (lit k, v)) fields).

Definition col (h k : string) (w : Z) : Column := mkColumn (lit h) (lit k) w.

(** [{ date: t.date || '', ..., category: t.category || '' }] *)
Definition bank_row (t : Json) : Completion Json :=
  date <~ prop t "date" ;;
  description <~ prop t "description" ;;
  debit <~ prop t "debit" ;;
  credit <~ prop t "credit" ;;
  balance <~ prop t "balance" ;;
  category <~ prop t "category" ;;
  Normal (obj [("date", jor date (str ""));
               ("description", jor description (str ""));
               ("debit", jor debit (JNum 0));
               ("credit", jor credit (JNum 0));
               ("balance", jor balance (JNum 0));
               ("category", jor category (str ""))]).

(** [{ metric: label, value: summary.field || 0 }] *)
Definition metric_row (label : string) (summary : Json) (field : string)
  : Completion Json :=
  v <~ prop summary field ;;
  Normal (obj [("metric", str label); ("value", jor v (JNum 0))]).

Section Renderer.
Context {host : Host}.

(** One row of the category breakdown; the template literal prints the
    total and the count. *)
Definition category_row (entry : jsstring * Json) : Completion Json :=
  let '(cat, data) := entry in
  total <~ prop data "total" ;;
  printed_total <~ ToString (jor total (JNum 0)) ;;
  count <~ prop data "count" ;;
  printed_count <~ ToString (jor count (JNum 0)) ;;
  Normal (JObj [(lit "metric", JStr (toUpperCase cat));
                (lit "value",
                 JStr ([rupee] ++ printed_total ++ lit " ("
                       ++ printed_count ++ lit " transactions)"))]).

Definition createBankStatementExcel (workbook : Workbook) (analysis : Json)
  : Completion Workbook :=
  transactions <~ prop analysis "transactions" ;;
  raw_rows <~ (match transactions with
               | JArr items => cmap bank_row items
               | _ => Normal []
               end) ;;
  let rawSheet :=
    mkWorksheet (lit "All Transactions")
      [col "Date" "date" 15; col "Description" "description" 40;
       col "Debit" "debit" 15; col "Credit" "credit" 15;
       col "Balance" "balance" 15; col "Category" "category" 15]
      raw_rows in
  summary <~ prop analysis "summary" ;;
  summary_rows <~ (if truthy summary then
                     r1 <~ metric_row "Total Deposits" summary "totalDeposits" ;;
                     r2 <~ metric_row "Total Withdrawals" summary "totalWithdrawals" ;;
                     r3 <~ metric_row "Net Flow" summary "netFlow" ;;
                     r4 <~ metric_row "Transaction Count" summary "transactionCount" ;;
                     r5 <~ metric_row "Average Daily Spending" summary "avgDailySpending" ;;
                     Normal [r1; r2; r3; r4; r5]
                   else Normal []) ;;
  let fixed_rows :=
    [obj [("metric", str ""); ("value", str "")];
     obj [("metric", str "Category Breakdown"); ("value", str "")]] in
  categories <~ prop analysis "categories" ;;
  category_rows <~ (if truthy categories
                    then cmap category_row (Object_entries categories)
                    else Normal []) ;;
  let summarySheet :=
    mkWorksheet (lit "Summary")
      [col "Metric" "metric" 30; col "Value" "value" 20]
      (summary_rows ++ fixed_rows ++ category_rows) in
  Normal (workbook ++ [rawSheet; summarySheet]).

(** [array.forEach(x => sheet.addRow(x))] under its guard
    [array && Array.isArray(array)]. *)
Definition rows_of (v : Json) : list Json :=
  match v with JArr items => items | _ => [] end.

Definition createCreditCardExcel (workbook : Workbook) (analysis : Json)
  : Completion Workbook :=
  transactions <~ prop analysis "transactions" ;;
  let transSheet :=
    mkWorksheet (lit "Transactions")
      [col "Date" "date" 15; col "Merchant" "merchant" 35;
       col "Amount" "amount" 15; col "Category" "category" 20]
      (rows_of transactions) in
  subscriptions <~ prop analysis "subscriptions" ;;
  let subSheet :=
    mkWorksheet (lit "Subscriptions")
      [col "Service" "merchant" 30; col "Amount" "amount" 15;
       col "Frequency" "frequency" 15; col "Category" "category" 20]
      (rows_of subscriptions) in
  summary <~ prop analysis "summary" ;;
  summary_rows <~ (if truthy summary then
                     r1 <~ metric_row "Total Spent" summary "totalSpent" ;;
                     r2 <~ metric_row "Payment Made" summary "paymentMade" ;;
                     r3 <~ metric_row "Outstanding Balance" summary "outstandingBalance" ;;
                     Normal [r1; r2; r3]
                   else Normal []) ;;
  let summarySheet :=
    mkWorksheet (lit "Summary")
      [col "Metric" "metric" 30; col "Value" "value" 20]
      summary_rows in
  Normal (workbook ++ [transSheet; subSheet; summarySheet]).

End Renderer.

Local Close Scope completion_scope.

(* ===================================================================== *)
(** ** The handlers (index.js) *)
(* ===================================================================== *)

Section Handlers.
Context {host : Host}.

(** The model is chosen by the outcome of [text.length > 150000]. *)
Definition model_config (large : bool) : ModelConfig :=
  mkModelConfig
    (if large then lit "gemini-2.5-pro" else lit "gemini-2.5-flash")
    (Some 8192) (Some "0.1"%string).

(** The model for a text that is a string of this length. *)
Definition gemini_model (length_of_text : Z) : ModelConfig :=
  model_config (150000 <? length_of_text).

(** [documentType === 'bank' ? getBankStatementPrompt(text)
                             : getCreditCardPrompt(text)], for a text that
    is a string and for any value *)
Definition choose_prompt (documentType : Json) (text : jsstring) : jsstring :=
  if strict_eq_str documentType (lit "bank")
  then getBankStatementPrompt text
  else getCreditCardPrompt text.

Definition choose_prompt_js (documentType text : Json) : Completion jsstring :=
  if strict_eq_str documentType (lit "bank")
  then getBankStatementPrompt_js text
  else getCreditCardPrompt_js text.

(** The [try] block that reads the model's answer: the fenced block when
    the first expression matches with a non-empty group, the brace span
    otherwise, and a throw when neither is there. *)
Definition parse_response (analysisText : jsstring) : Completion Json :=
  match match_fenced analysisText with
  | Some (c :: cap) => JSON_parse (trim (c :: cap))
  | _ =>
      match match_braces analysisText with
      | Some span => JSON_parse span
      | None => Throw (new_Error "No JSON found in response")
      end
  end.

Definition log_parse_failure (analysisText : jsstring) : M unit :=
  console_error "Failed to parse Gemini response:"
    (LogValue (JStr (substring analysisText 0 (Some 500)))).

(** *** POST /api/analyze-text *)

Definition analyze_text_fallback (analysisText : jsstring) : Json :=
  obj [("summary", obj [("totalDeposits", JNum 0);
                        ("totalWithdrawals", JNum 0);
                        ("netFlow", JNum 0);
                        ("error", str "Analysis completed but formatting failed")]);
       ("categories", obj []);
       ("alerts", JArr [str "Analysis completed but data formatting failed"]);
       ("rawResponse", JStr (substring analysisText 0 (Some 1000)))].

(** The [text] of the body is whatever the request holds.  The handler
    reads [text.length] for its log lines (the second prints it in a
    template literal), compares it with 150000, builds the prompt, and
    echoes [text.length] in its answer. *)
Definition analyze_text_body (body : Body) : M Response :=
  let text := text body in
  if negb (truthy text) then
    ret (json 400 [("error", str "No text provided for analysis")])
  else
    textLength <- await (length_of text) ;;
    large <- await (longer_than text 150000) ;;
    await (ToString textLength) ;;
    let model := model_config large in
    prompt <- await (choose_prompt_js (documentType body) text) ;;
    analysisText <- await (generateContent model prompt) ;;
    analysis <- try_catch
                  (await (parse_response analysisText))
                  (fun parseError =>
                     log_parse_failure analysisText ;;
                     ret (analyze_text_fallback analysisText)) ;;
    ret (json 200 [("status", str "success");
                   ("analysis", analysis);
                   ("documentType", documentType body);
                   ("textLength", textLength)]).

Definition analyze_text (body : Body) : World -> Response * World :=
  handler "Error analyzing text:" "Failed to analyze document"
    (analyze_text_body body).

(** *** POST /api/check-pdf *)

Definition check_pdf_body (file : option UploadedFile) : M Response :=
  match file with
  | None => ret (json 400 [("error", str "No file uploaded")])
  | Some file =>
      let pdfBuffer := buffer file in
      try_catch
        (pdfDoc <- await (PDFDocument_load pdfBuffer None) ;;
         sessionId <- generateSessionId ;;
         saveTemporaryFile (JStr sessionId) pdfBuffer ;;
         ret (json 200 [("status", str "success");
                        ("passwordRequired", JBool false);
                        ("message", str "No password required. Click to continue.");
                        ("fileName", JStr (originalname file));
                        ("fileSize", JNum (size file));
                        ("sessionId", JStr sessionId)]))
        (fun error =>
           if message_includes error "encrypted" then
             sessionId <- generateSessionId ;;
             saveTemporaryFile (JStr sessionId) pdfBuffer ;;
             ret (json 200 [("status", str "password_required");
                            ("passwordRequired", JBool true);
                            ("message", str "This PDF is password protected. Please enter the password.");
                            ("fileName", JStr (originalname file));
                            ("fileSize", JNum (size file));
                            ("sessionId", JStr sessionId)])
           else throw error)
  end.

Definition check_pdf (file : option UploadedFile) : World -> Response * World :=
  handler "Error checking PDF:" "Failed to check PDF" (check_pdf_body file).

(** *** POST /api/unlock-pdf *)

(** [`${sessionId}_unlocked`], for a session id that prints as [name] and
    for any value *)
Definition unlocked (name : jsstring) : jsstring := name ++ lit "_unlocked".

Definition unlocked_id (sessionId : Json) : Completion jsstring :=
  cbind (ToString sessionId) (fun name => Normal (unlocked name)).

Definition unlock_pdf_body (body : Body) : M Response :=
  if negb (truthy (sessionId body)) || negb (truthy (password body)) then
    ret (json 400 [("error", str "Session ID and password are required")])
  else
    pdfBuffer <- getTemporaryFile (sessionId body) ;;
    match pdfBuffer with
    | None => ret (json 404 [("error", str "Session expired or file not found")])
    | Some pdfBuffer =>
        try_catch
          (pdfDoc <- await (PDFDocument_load pdfBuffer (Some (password body))) ;;
           unlockedPdfBytes <- await (PdfDoc_save pdfDoc) ;;
           unlockedId <- await (unlocked_id (sessionId body)) ;;
           saveTemporaryFile (JStr unlockedId) unlockedPdfBytes ;;
           answeredId <- await (unlocked_id (sessionId body)) ;;
           ret (json 200 [("status", str "success");
                          ("message", str "PDF unlocked successfully! Processing...");
                          ("sessionId", JStr answeredId)]))
          (fun error =>
             if message_includes error "password" then
               ret (json 401 [("status", str "invalid_password");
                              ("error", str "Incorrect password. Please try again.")])
             else throw error)
    end.

Definition unlock_pdf (body : Body) : World -> Response * World :=
  handler "Error unlocking PDF:" "Failed to unlock PDF" (unlock_pdf_body body).

(** *** POST /api/process-pdf *)

Definition process_pdf_fallback (analysisText : jsstring) : Json :=
  obj [("summary", obj [("error", str "Analysis completed but formatting failed")]);
       ("rawResponse", JStr (substring analysisText 0 (Some 1000)))].

Definition process_pdf_body (body : Body) : M Response :=
  pdfBuffer <- getTemporaryFile (sessionId body) ;;
  match pdfBuffer with
  | None => ret (json 404 [("error", str "Session expired or file not found")])
  | Some pdfBuffer =>
      extractedText <- await (pdf pdfBuffer) ;;
      deleteTemporaryFile (sessionId body) ;;
      let model := gemini_model (jslength extractedText) in
      let prompt := choose_prompt (type body) extractedText in
      analysisText <- await (generateContent model prompt) ;;
      analysis <- try_catch
                    (await (parse_response analysisText))
                    (fun parseError =>
                       log_parse_failure analysisText ;;
                       ret (process_pdf_fallback analysisText)) ;;
      ret (json 200 [("status", str "success");
                     ("analysis", analysis);
                     ("documentType", type body);
                     ("textLength", num (jslength extractedText))])
  end.

Definition process_pdf (body : Body) : World -> Response * World :=
  handler "Error processing PDF:" "Failed to process PDF" (process_pdf_body body).

(** *** POST /api/generate-report *)

Definition generate_report_body (body : Body) : M Response :=
  if negb (truthy (analysis body)) then
    ret (json 400 [("error", str "Analysis data is required")])
  else
    workbook <- await (if strict_eq_str (documentType body) (lit "bank")
                       then createBankStatementExcel [] (analysis body)
                       else createCreditCardExcel [] (analysis body)) ;;
    buffer <- await (writeBuffer workbook) ;;
    t <- next_tick ;;
    ret (mkResponse 200
           (SentWorkbook (lit "statement_analysis_" ++ decimal (Date_now t) ++ lit ".xlsx")
              buffer)).

Definition generate_report (body : Body) : World -> Response * World :=
  handler "Error generating report:" "Failed to generate report"
    (generate_report_body body).

End Handlers.

(* ===================================================================== *)
(** ** The routes and the timer that stand beside the handlers (index.js) *)
(* ===================================================================== *)

(** *** POST /api/check-pdf-url *)

(** What [fetch] resolves to, as far as the route reads it: [response.ok]
    and the bytes of [await response.arrayBuffer()]. *)
Record FetchResponse : Type := mkFetchResponse {
  ok : bool;
  arrayBuffer : Completion (list Byte.byte)
}.

(** [req.body] of the route, [JUndefined] for a field that is not there. *)
Record UrlBody : Type := mkUrlBody {
  pdfUrl : Json;
  fileName : Json;
  fileSize : Json
}.

(** The network is no code of the repository either: [fetch(url)] returns
    a response or throws. *)
Class Network : Type := {
  fetch : Json -> Completion FetchResponse
}.

Section CheckPdfUrl.
Context {host : Host} {network : Network}.

Definition check_pdf_url_body (body : UrlBody) : M Response :=
  if negb (truthy (pdfUrl body)) then
    ret (json 400 [("error", str "No PDF URL provided")])
  else
    response <- await (fetch (pdfUrl body)) ;;
    if negb (ok response) then
      throw (new_Error "Failed to download PDF from Firebase")
    else
      pdfBuffer <- await (arrayBuffer response) ;;
      try_catch
        (pdfDoc <- await (PDFDocument_load pdfBuffer None) ;;
         sessionId <- generateSessionId ;;
         saveTemporaryFile (JStr sessionId) pdfBuffer ;;
         ret (json 200 [("status", str "success");
                        ("passwordRequired", JBool false);
                        ("message", str "No password required. Click to continue.");
                        ("fileName", fileName body);
                        ("fileSize", fileSize body);
                        ("sessionId", JStr sessionId)]))
        (fun error =>
           if message_includes error "encrypted" then
             sessionId <- generateSessionId ;;
             saveTemporaryFile (JStr sessionId) pdfBuffer ;;
             ret (json 200 [("status", str "password_required");
                            ("passwordRequired", JBool true);
                            ("message", str "This PDF is password protected. Please enter the password.");
                            ("fileName", fileName body);
                            ("fileSize", fileSize body);
                            ("sessionId", JStr sessionId)])
           else throw error).

Definition check_pdf_url (body : UrlBody) : World -> Response * World :=
  handler "Error checking PDF from URL:" "Failed to check PDF" (check_pdf_url_body body).

End CheckPdfUrl.

(** *** The hourly sweep of the temp directory *)

(** What the sweep asks of the directory beyond the calls of the store:
    [path.join(dir, name)], the names [fs.readdir(dir)] lists in a world,
    and [(await fs.stat(path)).mtimeMs] of a file that is there, rounded
    down to a whole millisecond (the age is compared with a whole number).
    The last two may reject. *)
Class Directory : Type := {
  path_join : jsstring -> jsstring -> jsstring;
  readdir : World -> jsstring -> Completion (list jsstring);
  mtimeMs : jsstring -> Completion Z
}.

Section Sweep.
Context {host : Host} {directory : Directory}.

(** [fs.stat(path)] rejects for a path that is not there. *)
Definition fs_stat (path : jsstring) : M Z :=
  fun w => match files w !! path with
           | Some _ => (mtimeMs path, w)
           | None => (Throw ENOENT, w)
           end.

(** The body of [for (const file of files)]. *)
Fixpoint sweep_files (tempDir : jsstring) (now : Z) (listing : list jsstring) : M unit :=
  match listing with
  | [] => ret tt
  | file :: rest =>
      let filePath := path_join tempDir file in
      mtime <- fs_stat filePath ;;
      let age := now - mtime in
      (if 3600000 <? age then fs_unlink filePath else ret tt) ;;
      sweep_files tempDir now rest
  end.

(** The callback given to [setInterval]; [readdir(...).catch(() => [])]
    turns a rejected listing into an empty one. *)
Definition sweep : M unit :=
  try_catch
    (let tempDir := path_join_dirname [lit "temp"] in
     listing <- (fun w => (match readdir w tempDir with
                           | Normal names => Normal names
                           | Throw _ => Normal []
                           end, w)) ;;
     t <- next_tick ;;
     sweep_files tempDir (Date_now t) listing)
    (fun error => console_error "Cleanup error:" (LogError error)).

End Sweep.

(* ===================================================================== *)
(** ** The first sibling version (Gemini 1.5): what differs *)
(* ===================================================================== *)

(** This version of the file has the same store and renderer.  Its
    analysis handlers call the model [gemini-1.5-flash] without generation
    config and read the answer through the brace expression alone; its
    prompt builders cut the text after 50000 code units. *)
Module Part000.

Definition bank_template_1 : jsstring :=
  tpl "
    You are a financial analyst. Analyze this bank statement and extract ALL information.
    
    IMPORTANT: Return ONLY valid JSON with no additional text or formatting.
    
    Extract and analyze:
    1. All transactions with date, description, debit/credit amounts, and balance
    2. Categorize each transaction (UPI, NEFT, ATM, Credit Card, etc.)
    3. Calculate total money in and out
    4. Find patterns in spending
    5. Identify all recurring payments
    
    Return this exact JSON structure:
    {
      ~accountInfo~: {
        ~bankName~: ~string~,
        ~accountNumber~: ~string~,
        ~period~: ~string~,
        ~openingBalance~: number,
        ~closingBalance~: number
      },
      ~summary~: {
        ~totalDeposits~: number,
        ~totalWithdrawals~: number,
        ~netFlow~: number,
        ~transactionCount~: number,
        ~avgDailySpending~: number
      },
      ~categories~: {
        ~upi~: { ~total~: number, ~count~: number, ~percentage~: number },
        ~neft~: { ~total~: number, ~count~: number, ~percentage~: number },
        ~atm~: { ~total~: number, ~count~: number, ~percentage~: number },
        ~creditCard~: { ~total~: number, ~count~: number, ~percentage~: number },
        ~others~: { ~total~: number, ~count~: number, ~percentage~: number }
      },
      ~monthlyPatterns~: {
        ~highestSpendingMonth~: ~string~,
        ~lowestSpendingMonth~: ~string~,
        ~averageMonthlySpending~: number
      },
      ~recurringPayments~: [
        { ~description~: ~string~, ~amount~: number, ~frequency~: ~string~ }
      ],
      ~topTransactions~: [
        { ~date~: ~string~, ~description~: ~string~, ~amount~: number, ~type~: ~string~ }
      ],
      ~alerts~: [~string~],
      ~transactions~: [
        { ~date~: ~string~, ~description~: ~string~, ~debit~: number, ~credit~: number, ~balance~: number, ~category~: ~string~ }
      ]
    }
    
    Bank Statement Text:
    ".

Definition bank_template_2 : jsstring :=
  tpl " // Limit text to avoid token limits
  ".

Definition credit_template_1 : jsstring :=
  tpl "
    You are a financial analyst. Analyze this credit card statement and extract ALL information.
    
    IMPORTANT: Return ONLY valid JSON with no additional text or formatting.
    
    Extract and analyze:
    1. All transactions with date, merchant, and amount
    2. Identify ALL subscriptions (Netflix, Spotify, ChatGPT, etc.)
    3. Categorize spending by type
    4. Find expensive transactions
    5. Calculate total spending
    
    Return this exact JSON structure:
    {
      ~cardInfo~: {
        ~bankName~: ~string~,
        ~cardNumber~: ~string~,
        ~statementPeriod~: ~string~,
        ~creditLimit~: number,
        ~availableCredit~: number
      },
      ~summary~: {
        ~totalSpent~: number,
        ~paymentMade~: number,
        ~minimumDue~: number,
        ~dueDate~: ~string~,
        ~outstandingBalance~: number
      },
      ~subscriptions~: [
        { 
          ~merchant~: ~string~, 
          ~amount~: number, 
          ~category~: ~string~,
          ~frequency~: ~monthly/annual~
        }
      ],
      ~categories~: {
        ~dining~: { ~total~: number, ~count~: number, ~percentage~: number },
        ~shopping~: { ~total~: number, ~count~: number, ~percentage~: number },
        ~travel~: { ~total~: number, ~count~: number, ~percentage~: number },
        ~entertainment~: { ~total~: number, ~count~: number, ~percentage~: number },
        ~utilities~: { ~total~: number, ~count~: number, ~percentage~: number },
        ~others~: { ~total~: number, ~count~: number, ~percentage~: number }
      },
      ~expensiveTransactions~: [
        { ~date~: ~string~, ~merchant~: ~string~, ~amount~: number }
      ],
      ~alerts~: [~string~],
      ~transactions~: [
        { ~date~: ~string~, ~merchant~: ~string~, ~amount~: number, ~category~: ~string~ }
      ]
    }
    
    Credit Card Statement Text:
    ".

Definition credit_template_2 : jsstring :=
  tpl " // Limit text to avoid token limits
  ".

(** [`... ${text.substring(0, 50000)} // Limit text to avoid token limits`] *)
Definition getBankStatementPrompt (text : jsstring) : jsstring :=
  bank_template_1 ++ substring text 0 (Some 50000) ++ bank_template_2.

Definition getCreditCardPrompt (text : jsstring) : jsstring :=
  credit_template_1 ++ substring text 0 (Some 50000) ++ credit_template_2.

Section Handlers.
Context {host : Host}.

Definition parse_response (analysisText : jsstring) : Completion Json :=
  match match_braces analysisText with
  | Some span => JSON_parse span
  | None => Throw (new_Error "No JSON found in response")
  end.

End Handlers.

End Part000.

(* ===================================================================== *)
(** ** The second sibling version (OpenAI): what differs *)
(* ===================================================================== *)

(** This version asks an OpenAI chat completion for a JSON object, parses
    the whole answer, and answers with status [partial] when the call or
    the parse throws.  Its prompt builders keep 30000 code units at each
    end of a text longer than 100000. *)
Module Part001.

Definition bank_template_1 : jsstring :=
  tpl "
    Analyze this bank statement and extract ALL information.
    
    Extract the following from the bank statement:
    1. Account information (bank name, account number, period)
    2. Opening and closing balances - MUST be accurate numbers
    3. Total deposits and withdrawals - MUST sum all transactions accurately
    4. Transaction categorization (UPI, NEFT, ATM, etc.)
    5. Top 5 highest transactions
    6. Monthly spending patterns if multi-month
    7. For large statements (>100 transactions), include summary only, not all transactions
    
    CRITICAL: All balance and transaction amounts must be accurate. Double-check calculations.
    
    Return this EXACT JSON structure:
    {
      ~accountInfo~: {
        ~bankName~: ~string~,
        ~accountNumber~: ~string~,
        ~period~: ~string~,
        ~openingBalance~: number,
        ~closingBalance~: number
      },
      ~summary~: {
        ~totalDeposits~: number,
        ~totalWithdrawals~: number,
        ~netFlow~: number,
        ~transactionCount~: number,
        ~avgDailySpending~: number
      },
      ~categories~: {
        ~upi~: { ~total~: number, ~count~: number, ~percentage~: number },
        ~neft~: { ~total~: number, ~count~: number, ~percentage~: number },
        ~atm~: { ~total~: number, ~count~: number, ~percentage~: number },
        ~creditCard~: { ~total~: number, ~count~: number, ~percentage~: number },
        ~others~: { ~total~: number, ~count~: number, ~percentage~: number }
      },
      ~monthlyPatterns~: {
        ~highestSpendingMonth~: ~string~,
        ~lowestSpendingMonth~: ~string~,
        ~averageMonthlySpending~: number
      },
      ~recurringPayments~: [
        { ~description~: ~string~, ~amount~: number, ~frequency~: ~string~ }
      ],
      ~topTransactions~: [
        { ~date~: ~string~, ~description~: ~string~, ~amount~: number, ~type~: ~debit/credit~ }
      ],
      ~alerts~: [~string~],
      ~transactions~: []
    }
    
    Bank Statement Text:
    ".

Definition bank_template_2 : jsstring :=
  tpl "
  ".

Definition credit_template_1 : jsstring :=
  tpl "
    Analyze this credit card statement and extract ALL information.
    
    Extract:
    1. All transactions with date, merchant, and amount
    2. Identify ALL subscriptions (Netflix, Spotify, ChatGPT, etc.)
    3. Categorize spending by type
    4. Find expensive transactions
    5. Calculate total spending - MUST be accurate
    
    Return this EXACT JSON structure:
    {
      ~cardInfo~: {
        ~bankName~: ~string~,
        ~cardNumber~: ~string~,
        ~statementPeriod~: ~string~,
        ~creditLimit~: number,
        ~availableCredit~: number
      },
      ~summary~: {
        ~totalSpent~: number,
        ~paymentMade~: number,
        ~minimumDue~: number,
        ~dueDate~: ~string~,
        ~outstandingBalance~: number
      },
      ~subscriptions~: [
        { 
          ~merchant~: ~string~, 
          ~amount~: number, 
          ~category~: ~string~,
          ~frequency~: ~monthly/annual~
        }
      ],
      ~categories~: {
        ~dining~: { ~total~: number, ~count~: number, ~percentage~: number },
        ~shopping~: { ~total~: number, ~count~: number, ~percentage~: number },
        ~travel~: { ~total~: number, ~count~: number, ~percentage~: number },
        ~entertainment~: { ~total~: number, ~count~: number, ~percentage~: number },
        ~utilities~: { ~total~: number, ~count~: number, ~percentage~: number },
        ~others~: { ~total~: number, ~count~: number, ~percentage~: number }
      },
      ~expensiveTransactions~: [
        { ~date~: ~string~, ~merchant~: ~string~, ~amount~: number }
      ],
      ~alerts~: [~string~],
      ~transactions~: []
    }
    
    Credit Card Statement Text:
    ".

Definition credit_template_2 : jsstring :=
  tpl "
  ".

Definition textToAnalyze (text : jsstring) : jsstring :=
  if 100000 <? jslength text then
    let first := substring text 0 (Some 30000) in
    let last := substring text (jslength text - 30000) None in
    first ++ (newline ++ omission_marker ++ newline) ++ last
  else text.

Definition getBankStatementPrompt (text : jsstring) : jsstring :=
  bank_template_1 ++ textToAnalyze text ++ bank_template_2.

Definition getCreditCardPrompt (text : jsstring) : jsstring :=
  credit_template_1 ++ textToAnalyze text ++ credit_template_2.

(** On a value that is not a string both builders of this version read
    [text.length], call [text.substring] when that is greater than 100000,
    and print the value into the template otherwise. *)
Section PromptsOfAnyValue.
Context {host : Host}.

Definition prompt_of_any_value (before after : jsstring) (text : Json)
  : Completion jsstring :=
  cbind (longer_than text 100000) (fun oversized =>
    if oversized : bool then Throw (not_a_function "text.substring")
    else cbind (ToString text) (fun printed => Normal (before ++ printed ++ after))).

Definition getBankStatementPrompt_js (text : Json) : Completion jsstring :=
  match text with
  | JStr s => Normal (getBankStatementPrompt s)
  | _ => prompt_of_any_value bank_template_1 bank_template_2 text
  end.

Definition getCreditCardPrompt_js (text : Json) : Completion jsstring :=
  match text with
  | JStr s => Normal (getCreditCardPrompt s)
  | _ => prompt_of_any_value credit_template_1 credit_template_2 text
  end.

End PromptsOfAnyValue.

Section Handlers.
Context {host : Host}.

Definition choose_prompt (documentType : Json) (text : jsstring) : jsstring :=
  if strict_eq_str documentType (lit "bank")
  then getBankStatementPrompt text
  else getCreditCardPrompt text.

Definition choose_prompt_js (documentType text : Json) : Completion jsstring :=
  if strict_eq_str documentType (lit "bank")
  then getBankStatementPrompt_js text
  else getCreditCardPrompt_js text.

(** ['Analysis failed - ' + openaiError.message] *)
Definition analyze_text_fallback (openaiError : Error) : Json :=
  obj [("summary", obj [("totalDeposits", JNum 0);
                        ("totalWithdrawals", JNum 0);
                        ("netFlow", JNum 0);
                        ("error", JStr (lit "Analysis failed - "
                                        ++ message_text openaiError))]);
       ("categories", obj []);
       ("alerts", JArr [str "Analysis could not be completed"])].

(** The prompt is built before the inner [try]: a throw of the builder
    reaches the outer [catch]. *)
Definition analyze_text_body (body : Body) : M Response :=
  let text := text body in
  if negb (truthy text) then
    ret (json 400 [("error", str "No text provided for analysis")])
  else
    textLength <- await (length_of text) ;;
    prompt <- await (choose_prompt_js (documentType body) text) ;;
    try_catch
      (analysisText <- await (chat_completion prompt) ;;
       analysis <- await (JSON_parse analysisText) ;;
       ret (json 200 [("status", str "success");
                      ("analysis", analysis);
                      ("documentType", documentType body);
                      ("textLength", textLength)]))
      (fun openaiError =>
         console_error "OpenAI API error:" (LogError openaiError) ;;
         ret (json 200 [("status", str "partial");
                        ("analysis", analyze_text_fallback openaiError);
                        ("documentType", documentType body);
                        ("textLength", textLength)])).

Definition analyze_text (body : Body) : World -> Response * World :=
  handler "Error analyzing text:" "Failed to analyze document"
    (analyze_text_body body).

Definition process_pdf_fallback (openaiError : Error) : Json :=
  obj [("summary", obj [("error", JStr (lit "Analysis failed - "
                                        ++ message_text openaiError))]);
       ("rawResponse", str "OpenAI processing failed")].

Definition process_pdf_body (body : Body) : M Response :=
  pdfBuffer <- getTemporaryFile (sessionId body) ;;
  match pdfBuffer with
  | None => ret (json 404 [("error", str "Session expired or file not found")])
  | Some pdfBuffer =>
      extractedText <- await (pdf pdfBuffer) ;;
      deleteTemporaryFile (sessionId body) ;;
      let prompt := choose_prompt (type body) extractedText in
      try_catch
        (analysisText <- await (chat_completion prompt) ;;
         analysis <- await (JSON_parse analysisText) ;;
         ret (json 200 [("status", str "success");
                        ("analysis", analysis);
                        ("documentType", type body);
                        ("textLength", num (jslength extractedText))]))
        (fun openaiError =>
           console_error "OpenAI API error:" (LogError openaiError) ;;
           ret (json 200 [("status", str "partial");
                          ("analysis", process_pdf_fallback openaiError);
                          ("documentType", type body);
                          ("textLength", num (jslength extractedText))]))
  end.

Definition process_pdf (body : Body) : World -> Response * World :=
  handler "Error processing PDF:" "Failed to process PDF" (process_pdf_body body).

End Handlers.

End Part001.

(* ===================================================================== *)
(** ** Vocabulary of the statements, sample hosts and sample inputs *)
(* ===================================================================== *)

(** [w] occurs in [s]. *)
Definition contains (s w : jsstring) : Prop :=
  exists pre post, s = pre ++ w ++ post.

(** [pat] occurs in [s] after [pre], and nowhere further left. *)
Definition leftmost (pat s pre post : jsstring) : Prop :=
  s = pre ++ pat ++ post /\
  forall pre' post', s = pre' ++ pat ++ post' -> (length pre <= length pre')%nat.

(** [pat] occurs in [s] after [pre], and nowhere further right. *)
Definition rightmost (pat s pre post : jsstring) : Prop :=
  s = pre ++ pat ++ post /\
  forall pre' post', s = pre' ++ pat ++ post' -> (length pre' <= length pre)%nat.

(** A text of 500001 code units: 250001 times [x], then 250000 times [~],
    a code unit that stands in no template. *)
Definition oversized_sample : jsstring :=
  repeat 120%N (Z.to_nat 250001) ++ repeat 126%N (Z.to_nat 250000).

(** Upper case of the ASCII letters, for the sample hosts. *)
Definition ascii_upper (c : code_unit) : code_unit :=
  if ((97 <=? c) && (c <=? 122))%N then (c - 32)%N else c.

(** The digits of a Number on the sample hosts: the exact decimal
    expansion of its value, which is what JavaScript prints for an integer
    below 1e21 and for a fraction such as 1500.5 whose expansion is short. *)
Fixpoint fraction_digits (steps : nat) (part unit : Z) : jsstring :=
  match steps with
  | O => []
  | S steps' =>
      if part =? 0 then []
      else Z.to_N (48 + part * 10 / unit)
           :: fraction_digits steps' (part * 10 mod unit) unit
  end.

Definition sample_Number_toString (n : Number) : jsstring :=
  match Prim2SF n with
  | S754_nan => lit "NaN"
  | S754_infinity s => if s then lit "-Infinity" else lit "Infinity"
  | S754_zero _ => lit "0"
  | S754_finite s m e =>
      let sign := if s then lit "-" else [] in
      if 0 <=? e then sign ++ decimal (Zpos m * 2 ^ e)
      else
        let unit := 2 ^ (- e) in
        if Zpos m mod unit =? 0 then sign ++ decimal (Zpos m / unit)
        else sign ++ decimal (Zpos m / unit) ++ lit "."
             ++ fraction_digits (Z.to_nat (- e)) (Zpos m mod unit) unit
  end.

(** The Number of a string on the sample hosts: the empty string is 0, a
    string of decimal digits is the integer it spells, every other string
    is [NaN]. *)
Definition sample_StringToNumber (s : jsstring) : Number :=
  if forallb is_digit s
  then Number_of_Z (fold_left (fun acc c => acc * 10 + (Z.of_N c - 48)) s 0)
  else nan.

(** The bytes the sample hosts write for every workbook. *)
Definition sample_xlsx : list Byte.byte := [Byte.x50; Byte.x4b; Byte.x03; Byte.x04].

(** A host whose PDF library, model and parser are given, on a disk with
    the given faults; paths are joined under [/app]. *)
Definition sample_host
    (load : list Byte.byte -> option Json -> Completion (list Byte.byte))
    (extract : list Byte.byte -> Completion jsstring)
    (answer : Completion jsstring)
    (parse : jsstring -> Completion Json)
    (fault : FsOp -> jsstring -> option Error) : Host :=
  {| PdfDoc := list Byte.byte;
     PDFDocument_load := load;
     PdfDoc_save := fun doc => Normal doc;
     pdf := extract;
     generateContent := fun _ _ => answer;
     chat_completion := fun _ => answer;
     JSON_parse := parse;
     path_join_dirname := fun parts => join (lit "/") (lit "/app" :: parts);
     disk_fault := fault;
     writeBuffer := fun _ => Normal sample_xlsx;
     Date_now := fun t => 1700000000000 + Z.of_nat t;
     Math_random_toString36 := fun _ => lit "0.4fzyo82mvyr";
     toUpperCase := List.map ascii_upper;
     Number_toString := sample_Number_toString;
     StringToNumber := sample_StringToNumber |}.

Definition healthy_disk : FsOp -> jsstring -> option Error := fun _ _ => None.

(** A parser that accepts the empty object and nothing else. *)
Definition parse_empty_object (s : jsstring) : Completion Json :=
  if bool_decide (s = lit "{}") then Normal (JObj [])
  else Throw (new_Error "Unexpected token in JSON").

(** A parser that hands back the very string it was given, to see which
    part of the answer reaches [JSON.parse]. *)
Definition parse_echo (s : jsstring) : Completion Json := Normal (JStr s).

(** A host whose library opens every PDF, whose model answers with an
    empty object and whose parser is the echo. *)
Definition echo_host : Host :=
  sample_host (fun bytes _ => Normal bytes) (fun _ => Normal (lit "01/02/2024 COFFEE 120"))
    (Normal (lit "{}")) parse_echo healthy_disk.

(** The world with no file, no log and the clock at tick 0. *)
Definition empty_world : World := mkWorld ∅ [] 0.

(** The world after one [console.error(label, arg)]. *)
Definition logged (w : World) (label : string) (arg : Logged) : World :=
  mkWorld (files w) (errors_logged w ++ [(lit label, arg)]) (tick w).

Definition EPERM : Error := new_Error "EPERM: operation not permitted".

(** A disk that refuses every [unlink]. *)
Definition no_unlink_disk : FsOp -> jsstring -> option Error :=
  fun op _ => match op with Unlink => Some EPERM | _ => None end.

Definition no_unlink_host : Host :=
  sample_host (fun bytes _ => Normal bytes) (fun _ => Normal (lit "01/02/2024 COFFEE 120"))
    (Normal (lit "{}")) parse_empty_object no_unlink_disk.

Definition sample_pdf : list Byte.byte := [Byte.x25; Byte.x50; Byte.x44; Byte.x46].

(** A world that holds [sample_pdf] under the session id [s1]. *)
Definition world_with_s1 : World :=
  mkWorld {[ lit "/app/temp/s1.pdf" := sample_pdf ]} [] 0.

(** The world after one read of the clock. *)
Definition ticked (w : World) : World :=
  mkWorld (files w) (errors_logged w) (S (tick w)).

(** The disk accepts a file for the session id that prints as [name]. *)
Definition can_save {host : Host} (name : jsstring) : Prop :=
  disk_fault Mkdir (path_join_dirname [lit "temp"]) = None /\
  disk_fault WriteFile (temp_path name) = None.

(** The body of the two 200 answers of [/api/check-pdf]. *)
Definition check_pdf_answer (status : string) (passwordRequired : bool)
    (message : string) (file : UploadedFile) (sessionId : jsstring) : Response :=
  json 200 [("status", str status);
            ("passwordRequired", JBool passwordRequired);
            ("message", str message);
            ("fileName", JStr (originalname file));
            ("fileSize", JNum (size file));
            ("sessionId", JStr sessionId)].

(** The message of a PDF library without password support: it refuses
    every encrypted document with it, whatever options it is given. *)
Definition encrypted_error : Error :=
  new_Error "Input document to `PDFDocument.load` is encrypted. You can use `PDFDocument.load(..., { ignoreEncryption: true })` if you wish to load the document anyways.".

(** A host with that library. *)
Definition encrypted_pdf_host : Host :=
  sample_host (fun _ _ => Throw encrypted_error)
    (fun _ => Normal (lit "01/02/2024 COFFEE 120"))
    (Normal (lit "{}")) parse_empty_object healthy_disk.

Definition sample_upload : UploadedFile :=
  mkUploadedFile (lit "statement.pdf") 4 sample_pdf.

(** Opening with the password and serialising again: one of the two
    library calls of the [try] block throws [error]. *)
Definition unlock_fails {host : Host} (data : list Byte.byte) (password : Json)
    (error : Error) : Prop :=
  PDFDocument_load data (Some password) = Throw error \/
  exists doc, PDFDocument_load data (Some password) = Normal doc /\
              PdfDoc_save doc = Throw error.

Definition unlock_request (sessionId password : string) : Body :=
  mkBody JUndefined JUndefined (str sessionId) (str password) JUndefined JUndefined.

(** The session id of the request prints as [name], the session file is
    there, can be read and unlinked, and the text extractor returns
    [extractedText]. *)
Definition session_ready {host : Host} (body : Body) (w : World)
    (name extractedText : jsstring) : Prop :=
  ToString (sessionId body) = Normal name /\
  exists pdfBuffer,
    files w !! temp_path name = Some pdfBuffer /\
    disk_fault ReadFile (temp_path name) = None /\
    disk_fault Unlink (temp_path name) = None /\
    pdf pdfBuffer = Normal extractedText.

(** The world once the file of the session that prints as [name] is
    deleted. *)
Definition consumed {host : Host} (name : jsstring) (w : World) : World :=
  with_files w (delete (temp_path name) (files w)).

(** The model's answer to the prompt of the request. *)
Definition model_answer {host : Host} (documentType : Json) (text : jsstring)
  : Completion jsstring :=
  generateContent (gemini_model (jslength text)) (choose_prompt documentType text).

(** The 200 answer of the two analysis handlers. *)
Definition success_body (analysis documentType : Json) (text : jsstring) : Response :=
  json 200 [("status", str "success");
            ("analysis", analysis);
            ("documentType", documentType);
            ("textLength", num (jslength text))].

(** The world after the parse failure is logged. *)
Definition parse_failure_logged (w : World) (analysisText : jsstring) : World :=
  logged w "Failed to parse Gemini response:"
    (LogValue (JStr (substring analysisText 0 (Some 500)))).

(** A host whose model cannot be reached. *)
Definition offline_host : Host :=
  sample_host (fun bytes _ => Normal bytes)
    (fun _ => Normal (lit "01/02/2024 COFFEE 120"))
    (Throw (new_Error "fetch failed")) parse_empty_object healthy_disk.


(** A host whose model answers with an empty object in a fenced block. *)
Definition fenced_host : Host :=
  sample_host (fun bytes _ => Normal bytes)
    (fun _ => Normal (lit "01/02/2024 COFFEE 120"))
    (Normal ((lit "Here it is: ```json" ++ newline ++ lit "{}" ++ newline ++ lit "```")))
    parse_empty_object healthy_disk.

Definition process_request (sessionId : string) (type : Json) : Body :=
  mkBody JUndefined JUndefined (str sessionId) JUndefined type JUndefined.




(** The same for the second sibling version, which does not compare the
    length and does not print it. *)
Definition part001_text_ready {host : Host} (body : Body) (textLength : Json)
    (prompt : jsstring) : Prop :=
  truthy (text body) = true /\
  length_of (text body) = Normal textLength /\
  Part001.choose_prompt_js (documentType body) (text body) = Normal prompt.

Definition set_documentType (body : Body) (documentType : Json) : Body :=
  mkBody (text body) documentType (sessionId body) (password body) (type body)
    (analysis body).

Definition set_type (body : Body) (type : Json) : Body :=
  mkBody (text body) (documentType body) (sessionId body) (password body) type
    (analysis body).

(** A response with the [documentType] it echoes replaced. *)
Definition echoing (documentType : Json) (r : Response) : Response :=
  match sent r with
  | SentJson (JObj props) =>
      mkResponse (statusCode r)
        (SentJson (JObj (List.map (fun '(k, v) =>
                                     if bool_decide (k = lit "documentType")
                                     then (k, documentType) else (k, v)) props)))
  | _ => r
  end.


(** [v.k] of a readable value. *)
Definition field (v : Json) (k : string) : Json :=
  match own v (lit k) with Some x => x | None => JUndefined end.






(** A value the template literal can print: [ToString] does not throw on
    it.  (It throws on an object with an own property [toString], and on
    an array that holds one.) *)
Definition printable {host : Host} (v : Json) : Prop :=
  exists printed, ToString v = Normal printed.






(* ===================================================================== *)
(** ** Vocabulary of the further properties *)
(* ===================================================================== *)

(** A field of the object a handler answers with. *)
Definition sent_field (r : Response) (k : string) : option Json :=
  match sent r with
  | SentJson v => own v (lit k)
  | SentWorkbook _ _ => None
  end.

(** The body of a request that names a session. *)
Definition session_request (sessionId password type : Json) : Body :=
  mkBody JUndefined JUndefined sessionId password type JUndefined.

(** The disk lets the file of the session that prints as [name] be
    written, read and unlinked. *)
Definition session_disk_ok {host : Host} (name : jsstring) : Prop :=
  can_save name /\
  disk_fault ReadFile (temp_path name) = None /\
  disk_fault Unlink (temp_path name) = None.

(** A host whose library refuses the sample PDF without a password and
    opens it with any, and whose model answers in a fenced block. *)
Definition locked_pdf_host : Host :=
  sample_host
    (fun bytes password => match password with
                           | None => Throw encrypted_error
                           | Some _ => Normal bytes
                           end)
    (fun _ => Normal (lit "01/02/2024 COFFEE 120"))
    (Normal ((lit "Here it is: ```json" ++ newline ++ lit "{}" ++ newline ++ lit "```")))
    parse_empty_object healthy_disk.


Definition backtick : code_unit := 96%N.
Definition left_brace : code_unit := 123%N.
Definition right_brace : code_unit := 125%N.

(** Only white space, as [trim] strips it. *)
Definition blank (s : jsstring) : Prop := Forall (fun c => is_space c = true) s.

(** Not empty, and no white space at either end. *)
Definition tight (s : jsstring) : Prop :=
  match s, rev s with
  | a :: _, z :: _ => is_space a = false /\ is_space z = false
  | _, _ => False
  end.


(** The file at [path] was last written more than an hour before [now]. *)
Definition expired {directory : Directory} (now : Z) (path : jsstring) : bool :=
  match mtimeMs path with
  | Normal mtime => 3600000 <? now - mtime
  | Throw _ => false
  end.

(** The paths of the names a listing holds. *)
Definition listed {directory : Directory} (tempDir : jsstring) (listing : list jsstring)
  : list jsstring :=
  List.map (path_join tempDir) listing.

(** The sweep cannot get past this path: it is listed but no longer
    there, or its [stat] rejects, or it is expired and its [unlink]
    rejects. *)
Definition blocks_sweep {host : Host} {directory : Directory} (w : World) (now : Z)
    (path : jsstring) : Prop :=
  files w !! path = None
  \/ (exists error, mtimeMs path = Throw error)
  \/ (expired now path = true /\ exists error, disk_fault Unlink path = Some error).

(** The temp directory as [path.join(__dirname, 'temp')] names it. *)
Definition temp_dir {host : Host} : jsstring := path_join_dirname [lit "temp"].

(** A directory that lists the given names, joins paths with [/], and
    reports the file [old.pdf] as written at the epoch and every other
    file as written a minute before tick 0 of the sample hosts. *)
Definition sample_directory (names : list jsstring) : Directory :=
  {| path_join := fun dir file => dir ++ lit "/" ++ file;
     readdir := fun _ _ => Normal names;
     mtimeMs := fun path =>
       if bool_decide (path = lit "/app/temp/old.pdf") then Normal 0
       else Normal (1700000000000 - 60000) |}.

(** A world that holds an old and a new file. *)
Definition world_with_two : World :=
  mkWorld {[ lit "/app/temp/old.pdf" := sample_pdf; lit "/app/temp/new.pdf" := sample_pdf ]}
    [] 0.


(** A host whose text extractor rejects every file. *)
Definition broken_pdf_host : Host :=
  sample_host (fun bytes _ => Normal bytes) (fun _ => Throw (new_Error "Invalid PDF structure"))
    (Normal (lit "{}")) parse_empty_object healthy_disk.

(** A network on which every download gives the sample PDF. *)
Definition sample_network : Network :=
  {| fetch := fun _ => Normal (mkFetchResponse true (Normal sample_pdf)) |}.

Definition sample_url_body : UrlBody :=
  mkUrlBody (str "https://storage.example/statement.pdf") (str "statement.pdf") (JNum 4).


(** The answer of the sample hosts that answer in a fenced block. *)
Definition fenced_answer : jsstring :=
  lit "Here it is: ```json" ++ newline ++ lit "{}" ++ newline ++ lit "```".


(* ===================================================================== *)
(** ** Proof steps *)
(* ===================================================================== *)

(** One step of unfolding for a handler body, and a case split on
    whatever the body branches on next. *)
Ltac unfold_js :=
  unfold handler, log_parse_failure, generateSessionId;
  unfold bind, try_catch, await, ret, throw, console_error, next_tick.

Ltac split_next :=
  match goal with
  | |- context [match ?x with _ => _ end] =>
      lazymatch x with
      | context [match _ with _ => _ end] => fail
      | _ => destruct x eqn:?
      end
  | |- context [if ?x then _ else _] =>
      lazymatch x with
      | context [match _ with _ => _ end] => fail
      | _ => destruct x eqn:?
      end
  end.

Ltac cases := repeat (progress cbn beta iota || split_next).

(** The same, printing the session ids that are strings on the way. *)
Ltac cases_printed := repeat (progress cbn [ToString] || split_next).

Ltac unfold_store :=
  unfold getTemporaryFile, saveTemporaryFile, deleteTemporaryFile, tempFile,
    fs_readFile, fs_writeFile, fs_unlink, fs_mkdir, fs_call.

Ltac same_file :=
  cbn [fst snd files with_files tick];
  rewrite ?lookup_insert_ne, ?lookup_delete_ne by congruence;
  try reflexivity.

(** A decidable statement about sample data, by evaluation. *)
Ltac decided :=
  match goal with
  | |- ?P => apply (@bool_decide_unpack P _); vm_compute; exact I
  end.

(* ===================================================================== *)
(** ** Facts about strings and searches *)
(* ===================================================================== *)

Lemma starts_with_true (pat s : jsstring) :
  starts_with pat s = true <-> exists post, s = pat ++ post.
Proof.
  revert s. induction pat as [|p pat IH]; intros s; simpl.
  - split; [intros _; exists s; reflexivity | reflexivity].
  - destruct s as [|c s].
    + split; [discriminate | intros [post H]; discriminate].
    + rewrite andb_true_iff, N.eqb_eq, IH. split.
      * intros [-> [post ->]]. exists post. reflexivity.
      * intros [post H]. injection H as -> ->. eauto.
Qed.

Lemma starts_with_skipn (pat s : jsstring) :
  starts_with pat s = true -> s = pat ++ skipn (length pat) s.
Proof.
  intros H. apply starts_with_true in H as [post ->].
  rewrite skipn_app, skipn_all, Nat.sub_diag. reflexivity.
Qed.

Lemma find_first_leftmost (pat s pre post : jsstring) :
  find_first pat s = Some (pre, post) -> leftmost pat s pre post.
Proof.
  revert pre post. induction s as [|c s IH]; intros pre post; simpl.
  - destruct (starts_with pat []) eqn:E; [|discriminate].
    intros [= <- <-]. split.
    + apply (starts_with_skipn pat []), E.
    + intros; simpl; lia.
  - destruct (starts_with pat (c :: s)) eqn:E.
    + intros [= <- <-]. split.
      * apply (starts_with_skipn pat (c :: s)), E.
      * intros; simpl; lia.
    + destruct (find_first pat s) as [[pre0 post0]|] eqn:F; [|discriminate].
      intros [= <- <-]. destruct (IH _ _ eq_refl) as [Hs Hmin]. split.
      * simpl. f_equal. exact Hs.
      * intros pre' post' H. destruct pre' as [|c' pre'].
        -- exfalso. assert (starts_with pat (c :: s) = true) as E'
             by (apply starts_with_true; exists post'; exact H).
           congruence.
        -- injection H as _ H. specialize (Hmin _ _ H). simpl. lia.
Qed.

Lemma find_first_found (pat s pre post : jsstring) :
  s = pre ++ pat ++ post -> exists pre0 post0, find_first pat s = Some (pre0, post0).
Proof.
  revert s. induction pre as [|c pre IH]; intros s ->; simpl.
  - assert (starts_with pat (pat ++ post) = true) as E
      by (apply starts_with_true; eauto).
    destruct (pat ++ post) eqn:P; simpl; rewrite E; eauto.
  - destruct (starts_with pat (c :: pre ++ pat ++ post)); [eauto|].
    destruct (IH _ eq_refl) as (pre0 & post0 & ->). eauto.
Qed.

Lemma find_first_None (pat s : jsstring) :
  find_first pat s = None <-> ~ contains s pat.
Proof.
  split.
  - intros H (pre & post & Hs).
    destruct (find_first_found _ _ _ _ Hs) as (? & ? & ?). congruence.
  - intros H. destruct (find_first pat s) as [[pre post]|] eqn:F; [|reflexivity].
    exfalso. apply H. exists pre, post. apply (find_first_leftmost _ _ _ _ F).
Qed.

(** [includes] decides [contains]. *)
Lemma includes_true (pat s : jsstring) :
  includes pat s = true <-> contains s pat.
Proof.
  unfold includes. destruct (find_first pat s) as [[pre post]|] eqn:F.
  - split; [|reflexivity]. intros _. exists pre, post.
    apply (find_first_leftmost _ _ _ _ F).
  - apply find_first_None in F. split; [discriminate | tauto].
Qed.

Lemma includes_false (pat s : jsstring) :
  includes pat s = false <-> ~ contains s pat.
Proof.
  rewrite <- includes_true. destruct (includes pat s); split; congruence.
Qed.

Lemma find_last_rightmost (pat s pre post : jsstring) :
  find_last pat s = Some (pre, post) -> rightmost pat s pre post.
Proof.
  unfold find_last.
  destruct (find_first (rev pat) (rev s)) as [[rpost rpre]|] eqn:F; [|discriminate].
  intros [= <- <-]. apply find_first_leftmost in F as [Hs Hmin]. split.
  - rewrite <- (rev_involutive s), Hs, !rev_app_distr, rev_involutive, <- app_assoc.
    reflexivity.
  - intros pre' post' H.
    assert (rev s = rev post' ++ rev pat ++ rev pre') as H'
      by (rewrite H, !rev_app_distr, <- app_assoc; reflexivity).
    specialize (Hmin _ _ H').
    assert (length s = length s) as L by reflexivity.
    rewrite H in L at 1. rewrite <- (rev_involutive s), Hs in L.
    rewrite !length_rev, !length_app, !length_rev in *. lia.
Qed.

Lemma find_last_None (pat s : jsstring) :
  find_last pat s = None <-> ~ contains s pat.
Proof.
  unfold find_last. split.
  - destruct (find_first (rev pat) (rev s)) as [[rpost rpre]|] eqn:F; [discriminate|].
    intros _ (pre & post & Hs). apply find_first_None in F. apply F.
    exists (rev post), (rev pre).
    rewrite Hs, !rev_app_distr, <- app_assoc. reflexivity.
  - intros H. destruct (find_first (rev pat) (rev s)) as [[rpost rpre]|] eqn:F;
      [|reflexivity].
    exfalso. apply H. apply find_first_leftmost in F as [Hs _].
    exists (rev rpre), (rev rpost).
    rewrite <- (rev_involutive s), Hs, !rev_app_distr, rev_involutive, <- app_assoc.
    reflexivity.
Qed.

(** A string cannot hold a longer one. *)
Lemma contains_length (s w : jsstring) :
  contains s w -> jslength w <= jslength s.
Proof.
  intros (pre & post & ->). unfold jslength. rewrite !length_app. lia.
Qed.

(** [substring] at the two places the prompt builders use it. *)
Lemma substring_head (s : jsstring) (n : Z) :
  0 <= n <= jslength s -> substring s 0 (Some n) = firstn (Z.to_nat n) s.
Proof.
  intros H. unfold substring, clamp.
  replace (Z.max 0 (Z.min 0 (jslength s))) with 0 by lia.
  replace (Z.max 0 (Z.min n (jslength s))) with n by lia.
  replace (Z.min 0 n) with 0 by lia. replace (Z.max 0 n - 0) with n by lia.
  reflexivity.
Qed.

Lemma substring_tail (s : jsstring) (n : Z) :
  0 <= n <= jslength s -> substring s n None = skipn (Z.to_nat n) s.
Proof.
  intros H. unfold substring, clamp.
  replace (Z.max 0 (Z.min n (jslength s))) with n by lia.
  replace (Z.min n (jslength s)) with n by lia.
  replace (Z.max n (jslength s) - n) with (jslength s - n) by lia.
  apply firstn_all2. rewrite length_skipn. unfold jslength in *. lia.
Qed.

Lemma jslength_app (s t : jsstring) : jslength (s ++ t) = jslength s + jslength t.
Proof. unfold jslength. rewrite length_app. lia. Qed.

(* ===================================================================== *)
(** ** The prompt builders on oversized text *)
(* ===================================================================== *)

Lemma template_lengths :
  jslength bank_template_1 = 370 /\ jslength bank_template_2 = 2709 /\
  jslength bank_template_3 = 3 /\ jslength credit_template_1 = 2105 /\
  jslength credit_template_2 = 3 /\
  jslength (lit "Include ONLY the 50 largest transactions") = 40 /\
  jslength (newline ++ omission_marker ++ newline) = 43.
Proof. vm_compute. repeat split. Qed.

Lemma part000_template_lengths :
  jslength Part000.bank_template_1 = 1951 /\ jslength Part000.bank_template_2 = 39 /\
  jslength Part000.credit_template_1 = 1871 /\ jslength Part000.credit_template_2 = 39.
Proof. vm_compute. repeat split. Qed.

Lemma jslength_firstn (s : jsstring) (n : Z) :
  0 <= n <= jslength s -> jslength (firstn (Z.to_nat n) s) = n.
Proof. unfold jslength. intros H. rewrite length_firstn. lia. Qed.

Lemma jslength_skipn (s : jsstring) (n : Z) :
  0 <= n <= jslength s -> jslength (skipn (Z.to_nat n) s) = jslength s - n.
Proof. unfold jslength. intros H. rewrite length_skipn. lia. Qed.

(** On a text longer than 500000, [textToAnalyze] is the head window, the
    marker between two newlines, and the tail window. *)
Lemma textToAnalyze_oversized (text : jsstring) :
  500000 < jslength text ->
  textToAnalyze text =
    firstn (Z.to_nat 100000) text
    ++ (newline ++ omission_marker ++ newline)
    ++ skipn (Z.to_nat (jslength text - 100000)) text
  /\ jslength (textToAnalyze text) = 200043.
Proof.
  intros H. unfold textToAnalyze.
  assert ((500000 <? jslength text) = true) as -> by lia.
  rewrite substring_head, substring_tail by lia. split; [reflexivity|].
  rewrite !jslength_app, jslength_firstn, jslength_skipn by lia.
  destruct template_lengths as (_ & _ & _ & _ & _ & _ & E).
  rewrite !jslength_app in E. lia.
Qed.

Lemma textToAnalyze_small (text : jsstring) :
  jslength text <= 500000 -> textToAnalyze text = text.
Proof.
  intros H. unfold textToAnalyze.
  assert ((500000 <? jslength text) = false) as -> by lia. reflexivity.
Qed.

(** Whatever surrounds it, a prompt built around [textToAnalyze text]
    shows the two windows and the marker of an oversized [text]. *)
Lemma windows_in_prompt (before after text : jsstring) :
  500000 < jslength text ->
  let prompt := before ++ textToAnalyze text ++ after in
  contains prompt (substring text 0 (Some 100000)) /\
  contains prompt omission_marker /\
  contains prompt (substring text (jslength text - 100000) None).
Proof.
  intros H prompt. subst prompt.
  destruct (textToAnalyze_oversized text H) as [-> _].
  rewrite substring_head, substring_tail by lia.
  set (hd := firstn _ text). set (tl := skipn _ text).
  repeat split.
  - exists before, ((newline ++ omission_marker ++ newline) ++ tl ++ after).
    rewrite <- !app_assoc. reflexivity.
  - exists (before ++ hd ++ newline), (newline ++ tl ++ after).
    rewrite <- !app_assoc. reflexivity.
  - exists (before ++ hd ++ newline ++ omission_marker ++ newline), after.
    rewrite <- !app_assoc. reflexivity.
Qed.

Lemma oversized_sample_length : jslength oversized_sample = 500001.
Proof.
  unfold oversized_sample, jslength. rewrite length_app, !repeat_length. lia.
Qed.

(** C4 (as it holds on the code).  For every text longer than 500000 code
    units, the two prompt builders of index.js return a fixed function of
    the text: the template around the first 100000 code units, the marker
    and the last 100000 code units.  The prompt contains the head window,
    the omission marker and the tail window, and it does not contain the
    text.  The builders of the first sibling version have no windows: they
    put the first 50000 code units of the text between the two halves of
    the template, and such a text is not contained in the prompt either. *)
Theorem oversized_prompt_has_windows (text : jsstring) :
  500000 < jslength text ->
  (getBankStatementPrompt text =
     bank_template_1 ++ lit "Include ONLY the 50 largest transactions"
     ++ bank_template_2
     ++ (substring text 0 (Some 100000)
         ++ (newline ++ omission_marker ++ newline)
         ++ substring text (jslength text - 100000) None)
     ++ bank_template_3
   /\ getCreditCardPrompt text =
     credit_template_1
     ++ (substring text 0 (Some 100000)
         ++ (newline ++ omission_marker ++ newline)
         ++ substring text (jslength text - 100000) None)
     ++ credit_template_2)
  /\ (forall prompt,
        prompt = getBankStatementPrompt text \/ prompt = getCreditCardPrompt text ->
        contains prompt (substring text 0 (Some 100000)) /\
        contains prompt omission_marker /\
        contains prompt (substring text (jslength text - 100000) None) /\
        ~ contains prompt text)
  /\ (forall prompt,
        prompt = Part000.getBankStatementPrompt text
        \/ prompt = Part000.getCreditCardPrompt text ->
        (exists before after,
            prompt = before ++ substring text 0 (Some 50000) ++ after
            /\ jslength before + jslength after < 2000)
        /\ ~ contains prompt text).
Proof.
  intros H.
  destruct template_lengths as (L1 & L2 & L3 & L4 & L5 & L6 & L7).
  destruct part000_template_lengths as (P1 & P2 & P3 & P4).
  destruct (textToAnalyze_oversized text H) as [E EL].
  assert (getBankStatementPrompt text =
          (bank_template_1 ++ lit "Include ONLY the 50 largest transactions"
           ++ bank_template_2) ++ textToAnalyze text ++ bank_template_3) as EB.
  { unfold getBankStatementPrompt.
    assert ((100000 <? jslength text) = true) as -> by lia.
    rewrite orb_true_r, <- !app_assoc. reflexivity. }
  assert (getCreditCardPrompt text =
          credit_template_1 ++ textToAnalyze text ++ credit_template_2) as EC
    by reflexivity.
  split; [|split].
  - rewrite EB, EC, E, substring_head, substring_tail, <- !app_assoc by lia.
    split; reflexivity.
  - intros prompt [-> | ->].
    + rewrite EB.
      destruct (windows_in_prompt
                  (bank_template_1 ++ lit "Include ONLY the 50 largest transactions"
                   ++ bank_template_2) bank_template_3 text H) as (A & B & C).
      repeat split; try assumption.
      intros Hc. apply contains_length in Hc.
      rewrite !jslength_app in Hc. lia.
    + rewrite EC.
      destruct (windows_in_prompt credit_template_1 credit_template_2 text H)
        as (A & B & C).
      repeat split; try assumption.
      intros Hc. apply contains_length in Hc.
      rewrite !jslength_app in Hc. lia.
  - intros prompt [-> | ->].
    + split.
      * exists Part000.bank_template_1, Part000.bank_template_2.
        split; [reflexivity | lia].
      * intros Hc. apply contains_length in Hc.
        unfold Part000.getBankStatementPrompt in Hc.
        rewrite substring_head, !jslength_app, jslength_firstn in Hc by lia. lia.
    + split.
      * exists Part000.credit_template_1, Part000.credit_template_2.
        split; [reflexivity | lia].
      * intros Hc. apply contains_length in Hc.
        unfold Part000.getCreditCardPrompt in Hc.
        rewrite substring_head, !jslength_app, jslength_firstn in Hc by lia. lia.
Qed.

(** The theorem at the sample text: index.js shows both windows and the
    marker, and neither version's prompt contains the sample. *)
Lemma oversized_prompt_has_windows_witness :
  500000 < jslength oversized_sample /\
  contains (getBankStatementPrompt oversized_sample) omission_marker /\
  contains (getCreditCardPrompt oversized_sample)
    (substring oversized_sample (jslength oversized_sample - 100000) None) /\
  ~ contains (Part000.getCreditCardPrompt oversized_sample) oversized_sample.
Proof.
  assert (500000 < jslength oversized_sample) as H
    by (rewrite oversized_sample_length; lia).
  split; [exact H|].
  destruct (oversized_prompt_has_windows oversized_sample H) as (_ & W & P).
  split; [apply (W _ (or_introl eq_refl))|].
  split; [apply (W _ (or_intror eq_refl))|].
  apply (P _ (or_intror eq_refl)).
Defined.

(** C4 as stated fails on the first sibling version: on the sample text,
    longer than every threshold, its bank-statement prompt holds neither
    the omission marker nor the last code unit of the text, so it shows no
    tail window of any size. *)
Lemma part000_prompt_lacks_marker_and_tail :
  500000 < jslength oversized_sample /\
  includes omission_marker (Part000.getBankStatementPrompt oversized_sample) = false /\
  last oversized_sample = Some 126%N /\
  includes [126%N] (Part000.getBankStatementPrompt oversized_sample) = false.
Proof.
  split; [rewrite oversized_sample_length; lia|].
  vm_compute. repeat split.
Qed.

(* ===================================================================== *)
(** ** Reading the model's answer *)
(* ===================================================================== *)

Lemma leftmost_not_before (pat s pre post : jsstring) :
  pat <> [] -> leftmost pat s pre post -> ~ contains pre pat.
Proof.
  intros Hpat [Hs Hmin] (a & b & Hpre). subst pre.
  assert (s = a ++ pat ++ (b ++ pat ++ post)) as H
    by (rewrite Hs, <- !app_assoc; reflexivity).
  specialize (Hmin _ _ H). rewrite !length_app in Hmin.
  destruct pat; [congruence | simpl in Hmin; lia].
Qed.

(** What begins no later than an occurrence of [w] still has it. *)
Lemma contains_after (s a rest b w post : jsstring) :
  s = a ++ rest -> s = b ++ w ++ post -> (length a <= length b)%nat ->
  contains rest w.
Proof.
  intros Ha Hb Hlen.
  assert (rest = skipn (length a) s) as ->
    by (rewrite Ha, skipn_app, skipn_all, Nat.sub_diag; reflexivity).
  rewrite Hb, skipn_app.
  replace (length a - length b)%nat with 0%nat by lia. simpl.
  exists (skipn (length a) b), post. reflexivity.
Qed.

(** The first expression matches exactly when the text has a fenced
    block, and its group is the content of the first one: what stands
    between the leftmost opening fence and the first closing fence after
    it. *)
Lemma match_fenced_first_block (text cap : jsstring) :
  match_fenced text = Some cap ->
  exists pre post,
    leftmost fence_open text pre (cap ++ fence_close ++ post) /\
    leftmost fence_close (cap ++ fence_close ++ post) cap post.
Proof.
  unfold match_fenced.
  destruct (find_first fence_open text) as [[pre rest]|] eqn:F; [|discriminate].
  destruct (find_first fence_close rest) as [[cap0 post]|] eqn:G; [|discriminate].
  intros [= <-]. exists pre, post.
  apply find_first_leftmost in G. pose proof G as [Hrest _].
  apply find_first_leftmost in F. rewrite <- Hrest. split; assumption.
Qed.

Lemma match_fenced_found (text pre cap post : jsstring) :
  text = pre ++ fence_open ++ cap ++ fence_close ++ post ->
  exists cap0, match_fenced text = Some cap0.
Proof.
  intros H. unfold match_fenced.
  destruct (find_first_found _ _ _ _ H) as (pre0 & rest0 & F). rewrite F.
  apply find_first_leftmost in F as [Hs Hmin]. specialize (Hmin _ _ H).
  assert (contains rest0 fence_close) as (a & b & Hc).
  { apply (contains_after text (pre0 ++ fence_open) rest0
             (pre ++ fence_open ++ cap) fence_close post).
    - rewrite Hs, <- app_assoc. reflexivity.
    - rewrite H, <- !app_assoc. reflexivity.
    - rewrite !length_app. lia. }
  destruct (find_first_found _ _ _ _ Hc) as (cap0 & post0 & ->). eauto.
Qed.

Lemma match_fenced_None (text : jsstring) :
  match_fenced text = None ->
  forall pre cap post, text <> pre ++ fence_open ++ cap ++ fence_close ++ post.
Proof.
  intros H pre cap post Hs.
  destruct (match_fenced_found _ _ _ _ Hs) as (cap0 & E). congruence.
Qed.

(** The second expression matches exactly when a [}] follows the first
    [{]; the match starts at that [{] and ends with the last [}]. *)
Lemma match_braces_span (text span : jsstring) :
  match_braces text = Some span ->
  exists pre mid post,
    span = brace_open ++ mid ++ brace_close /\
    text = pre ++ span ++ post /\
    ~ contains pre brace_open /\ ~ contains post brace_close.
Proof.
  unfold match_braces.
  destruct (find_first brace_open text) as [[pre rest]|] eqn:F; [|discriminate].
  destruct (find_last brace_close rest) as [[mid post]|] eqn:G; [|discriminate].
  intros E. assert (span = brace_open ++ mid ++ brace_close) as -> by congruence.
  clear E. exists pre, mid, post.
  apply find_first_leftmost in F. apply find_last_rightmost in G as [Hrest Hmax].
  split; [reflexivity|]. split; [|split].
  - destruct F as [-> _]. rewrite Hrest, <- !app_assoc. reflexivity.
  - apply (leftmost_not_before brace_open text pre rest);
      [vm_compute; discriminate | exact F].
  - intros (a & b & Hpost).
    specialize (Hmax (mid ++ brace_close ++ a) b).
    rewrite Hrest, Hpost, <- !app_assoc in Hmax. specialize (Hmax eq_refl).
    rewrite !length_app in Hmax. simpl in Hmax. lia.
Qed.

Lemma match_braces_found (text pre mid post : jsstring) :
  text = pre ++ brace_open ++ mid ++ brace_close ++ post ->
  exists span, match_braces text = Some span.
Proof.
  intros H. unfold match_braces.
  destruct (find_first_found _ _ _ _ H) as (pre0 & rest0 & F). rewrite F.
  apply find_first_leftmost in F as [Hs Hmin]. specialize (Hmin _ _ H).
  assert (contains rest0 brace_close) as Hc.
  { apply (contains_after text (pre0 ++ brace_open) rest0
             (pre ++ brace_open ++ mid) brace_close post).
    - rewrite Hs, <- app_assoc. reflexivity.
    - rewrite H, <- !app_assoc. reflexivity.
    - rewrite !length_app. lia. }
  destruct (find_last brace_close rest0) as [[m p]|] eqn:G; [eauto|].
  apply find_last_None in G. contradiction.
Qed.

(** C3 (as it holds on the code).  In index.js, when the answer has a
    fenced block, the first expression matches the content of the first
    one (leftmost opening fence, first closing fence after it); when that
    content is not empty, [JSON.parse] is given the trimmed content and
    nothing else, whatever braces stand around it.  When the answer has no
    fenced block, or the first block is empty, the answer is read as the
    first sibling version reads every answer: [JSON.parse] is given a span
    that starts at the first [{] of the text and ends with a [}], and
    without such a span the step throws. *)
Theorem fenced_block_is_preferred {host : Host} (text : jsstring) :
  (forall pre cap post,
      text = pre ++ fence_open ++ cap ++ fence_close ++ post ->
      exists pre0 cap0 post0,
        leftmost fence_open text pre0 (cap0 ++ fence_close ++ post0) /\
        leftmost fence_close (cap0 ++ fence_close ++ post0) cap0 post0 /\
        (cap0 <> [] -> parse_response text = JSON_parse (trim cap0)) /\
        (cap0 = [] -> parse_response text = Part000.parse_response text))
  /\ ((forall pre cap post,
          text <> pre ++ fence_open ++ cap ++ fence_close ++ post) ->
      parse_response text = Part000.parse_response text)
  /\ (forall pre mid post,
        text = pre ++ brace_open ++ mid ++ brace_close ++ post ->
        exists pre0 mid0 post0,
          text = pre0 ++ (brace_open ++ mid0 ++ brace_close) ++ post0 /\
          ~ contains pre0 brace_open /\
          Part000.parse_response text = JSON_parse (brace_open ++ mid0 ++ brace_close))
  /\ ((forall pre mid post,
          text <> pre ++ brace_open ++ mid ++ brace_close ++ post) ->
      Part000.parse_response text = Throw (new_Error "No JSON found in response")).
Proof.
  split; [|split; [|split]].
  - intros pre cap post H.
    destruct (match_fenced_found _ _ _ _ H) as (cap0 & E).
    destruct (match_fenced_first_block _ _ E) as (pre0 & post0 & L1 & L2).
    exists pre0, cap0, post0. split; [exact L1|]. split; [exact L2|].
    unfold parse_response, Part000.parse_response. rewrite E.
    split; intros Hc; destruct cap0; congruence.
  - intros H. unfold parse_response, Part000.parse_response.
    destruct (match_fenced text) as [cap0|] eqn:E; [|reflexivity].
    destruct (match_fenced_first_block _ _ E) as (pre0 & post0 & [L1 _] & _).
    exfalso. apply (H _ _ _ L1).
  - intros pre mid post H.
    destruct (match_braces_found _ _ _ _ H) as (span & E).
    destruct (match_braces_span _ _ E) as (pre0 & mid0 & post0 & -> & Ht & Hn & _).
    exists pre0, mid0, post0. split; [exact Ht|]. split; [exact Hn|].
    unfold Part000.parse_response. rewrite E. reflexivity.
  - intros H. unfold Part000.parse_response.
    destruct (match_braces text) as [span|] eqn:E; [|reflexivity].
    destruct (match_braces_span _ _ E) as (pre0 & mid0 & post0 & -> & Ht & _).
    exfalso. apply (H pre0 mid0 post0). rewrite Ht, <- !app_assoc. reflexivity.
Qed.

(** The theorem at an answer that wraps its fenced JSON in prose with
    braces of its own: the parser is given the fenced content. *)
Lemma fenced_block_is_preferred_witness :
  exists pre0 cap0 post0,
    leftmost fence_open (tpl "see {x} ```json {~a~:1} ``` {y}") pre0
      (cap0 ++ fence_close ++ post0) /\
    leftmost fence_close (cap0 ++ fence_close ++ post0) cap0 post0 /\
    (cap0 <> [] ->
     @parse_response echo_host (tpl "see {x} ```json {~a~:1} ``` {y}")
     = @JSON_parse echo_host (trim cap0)) /\
    (cap0 = [] ->
     @parse_response echo_host (tpl "see {x} ```json {~a~:1} ``` {y}")
     = @Part000.parse_response echo_host (tpl "see {x} ```json {~a~:1} ``` {y}")).
Proof.
  apply (proj1 (@fenced_block_is_preferred echo_host
                  (tpl "see {x} ```json {~a~:1} ``` {y}"))
           (tpl "see {x} ") (tpl " {~a~:1} ") (tpl " {y}")).
  reflexivity.
Defined.

(** C3 as stated fails in two places.  In index.js an empty fenced block
    does not stop the brace span from being parsed; and the first sibling
    version parses the brace span of a text that has a fenced block (here
    from the first [{] to the last [}], across the opening fence), where
    index.js parses the fenced content. *)
Lemma fenced_block_not_always_parsed :
  match_fenced (tpl "```json```{~a~:1}") = Some []
  /\ @parse_response echo_host (tpl "```json```{~a~:1}")
     = Normal (JStr (tpl "{~a~:1}"))
  /\ match_fenced (tpl "{~x~:0} ```json {~a~:1} ```") = Some (tpl " {~a~:1} ")
  /\ @parse_response echo_host (tpl "{~x~:0} ```json {~a~:1} ```")
     = Normal (JStr (tpl "{~a~:1}"))
  /\ @Part000.parse_response echo_host (tpl "{~x~:0} ```json {~a~:1} ```")
     = Normal (JStr (tpl "{~x~:0} ```json {~a~:1}")).
Proof. vm_compute. repeat split. Qed.

(** The brace expression is greedy: with two objects in the text, the
    span handed to the parser runs from the first [{] to the last [}]. *)
Example brace_span_runs_to_last_brace :
  match_braces (tpl "a {~x~:1} b {~y~:2} c") = Some (tpl "{~x~:1} b {~y~:2}")
  /\ @parse_response echo_host (tpl "a {~x~:1} b {~y~:2} c")
     = Normal (JStr (tpl "{~x~:1} b {~y~:2}")).
Proof. vm_compute. split; reflexivity. Qed.

(* ===================================================================== *)
(** ** The temporary file store *)
(* ===================================================================== *)

Lemma tempFile_prints {host : Host} (sessionId : Json) (name : jsstring) :
  ToString sessionId = Normal name -> tempFile sessionId = Normal (temp_path name).
Proof. unfold tempFile. intros ->. reflexivity. Qed.

Lemma tempFile_throws {host : Host} (sessionId : Json) (error : Error) :
  ToString sessionId = Throw error -> tempFile sessionId = Throw error.
Proof. unfold tempFile. intros ->. reflexivity. Qed.

Lemma getTemporaryFile_unprintable {host : Host} (sessionId : Json) (w : World)
    (error : Error) :
  ToString sessionId = Throw error ->
  getTemporaryFile sessionId w
  = (Normal None, logged w "File not found:" (LogValue sessionId)).
Proof.
  intros H. unfold getTemporaryFile, try_catch, bind, await.
  rewrite (tempFile_throws _ _ H). reflexivity.
Qed.

Lemma getTemporaryFile_absent {host : Host} (sessionId : Json) (name : jsstring)
    (w : World) :
  ToString sessionId = Normal name ->
  files w !! temp_path name = None ->
  getTemporaryFile sessionId w
  = (Normal None, logged w "File not found:" (LogValue sessionId)).
Proof.
  intros Hn H.
  unfold getTemporaryFile, try_catch, bind, await, fs_readFile, fs_call, console_error,
    logged, ret, throw.
  rewrite (tempFile_prints _ _ Hn).
  destruct (disk_fault ReadFile (temp_path name)); [reflexivity|].
  rewrite H. reflexivity.
Qed.

Lemma getTemporaryFile_present {host : Host} (sessionId : Json) (name : jsstring)
    (w : World) (data : list Byte.byte) :
  ToString sessionId = Normal name ->
  disk_fault ReadFile (temp_path name) = None ->
  files w !! temp_path name = Some data ->
  getTemporaryFile sessionId w = (Normal (Some data), w).
Proof.
  intros Hn Hd H.
  unfold getTemporaryFile, try_catch, bind, await, fs_readFile, fs_call, ret.
  rewrite (tempFile_prints _ _ Hn), Hd, H. reflexivity.
Qed.

Lemma deleteTemporaryFile_present {host : Host} (sessionId : Json) (name : jsstring)
    (w : World) (data : list Byte.byte) :
  ToString sessionId = Normal name ->
  disk_fault Unlink (temp_path name) = None ->
  files w !! temp_path name = Some data ->
  deleteTemporaryFile sessionId w
  = (Normal tt, with_files w (delete (temp_path name) (files w))).
Proof.
  intros Hn Hd H.
  unfold deleteTemporaryFile, try_catch, bind, await, fs_unlink, fs_call.
  rewrite (tempFile_prints _ _ Hn), Hd, H. reflexivity.
Qed.

(** C8.  For every session id and every world, [deleteTemporaryFile]
    completes normally.  When the file is there and the disk lets it go,
    it is removed and nothing is logged; when the file is already gone, or
    the disk refuses, or the session id cannot be printed into a file
    name, the files stay as they were and the error is logged once.
    [getTemporaryFile] completes normally too, leaves the files as they
    were, and returns [null] when no file is stored under the id. *)
Theorem store_cleanup_never_throws {host : Host} (sessionId : Json) (w : World) :
  (exists w', deleteTemporaryFile sessionId w = (Normal tt, w'))
  /\ (forall name,
        ToString sessionId = Normal name ->
        (forall data,
            disk_fault Unlink (temp_path name) = None ->
            files w !! temp_path name = Some data ->
            deleteTemporaryFile sessionId w
            = (Normal tt, with_files w (delete (temp_path name) (files w))))
        /\ (disk_fault Unlink (temp_path name) = None ->
            files w !! temp_path name = None ->
            deleteTemporaryFile sessionId w
            = (Normal tt, logged w "Error deleting temp file:" (LogError ENOENT)))
        /\ (forall e,
              disk_fault Unlink (temp_path name) = Some e ->
              deleteTemporaryFile sessionId w
              = (Normal tt, logged w "Error deleting temp file:" (LogError e)))
        /\ (files w !! temp_path name = None ->
            getTemporaryFile sessionId w
            = (Normal None, logged w "File not found:" (LogValue sessionId))))
  /\ (forall error,
        ToString sessionId = Throw error ->
        deleteTemporaryFile sessionId w
        = (Normal tt, logged w "Error deleting temp file:" (LogError error))
        /\ getTemporaryFile sessionId w
           = (Normal None, logged w "File not found:" (LogValue sessionId)))
  /\ (exists found w',
        getTemporaryFile sessionId w = (Normal found, w') /\ files w' = files w).
Proof.
  unfold deleteTemporaryFile, getTemporaryFile, tempFile, try_catch, bind, await,
    fs_unlink, fs_readFile, fs_call, console_error, logged, ret, throw, cbind.
  destruct (ToString sessionId) as [name|error] eqn:EN.
  - destruct (disk_fault Unlink (temp_path name)) as [e|] eqn:FU;
      destruct (disk_fault ReadFile (temp_path name)) as [e'|] eqn:FR;
      destruct (files w !! temp_path name) as [data|] eqn:L;
      (split; [eauto|]);
      (split; [intros name' [= <-]; rewrite ?FU, ?L;
               repeat split; intros; congruence |]);
      (split; [intros; discriminate | eauto]).
  - split; [eauto|]. split; [intros; discriminate|].
    split; [intros error' [= <-]; split; reflexivity | eauto].
Qed.

(** The theorem on a disk that refuses to unlink a stored file, on a
    store that has no file for the id, and for a session id that cannot be
    printed. *)
Lemma store_cleanup_never_throws_witness :
  @deleteTemporaryFile no_unlink_host (str "s1") world_with_s1
  = (Normal tt, logged world_with_s1 "Error deleting temp file:" (LogError EPERM))
  /\ @getTemporaryFile echo_host (str "s1") empty_world
     = (Normal None, logged empty_world "File not found:" (LogValue (str "s1")))
  /\ @deleteTemporaryFile echo_host (obj [("toString", JNum 1)]) world_with_s1
     = (Normal tt,
        logged world_with_s1 "Error deleting temp file:" (LogError cannot_convert)).
Proof.
  split; [|split].
  - destruct (@store_cleanup_never_throws no_unlink_host (str "s1") world_with_s1)
      as (_ & N & _).
    destruct (N (lit "s1") eq_refl) as (_ & _ & D & _).
    apply D. reflexivity.
  - destruct (@store_cleanup_never_throws echo_host (str "s1") empty_world)
      as (_ & N & _).
    destruct (N (lit "s1") eq_refl) as (_ & _ & _ & F).
    apply F. reflexivity.
  - destruct (@store_cleanup_never_throws echo_host (obj [("toString", JNum 1)])
                world_with_s1) as (_ & _ & T & _).
    destruct (T cannot_convert eq_refl) as (D & _). exact D.
Defined.

(* ===================================================================== *)
(** ** POST /api/check-pdf *)
(* ===================================================================== *)

Lemma generateSessionId_run {host : Host} (w : World) :
  generateSessionId w = (Normal (session_id_at (tick w)), ticked w).
Proof. reflexivity. Qed.

Lemma saveTemporaryFile_ok {host : Host} (sessionId : Json) (name : jsstring)
    (data : list Byte.byte) (w : World) :
  ToString sessionId = Normal name ->
  can_save name ->
  saveTemporaryFile sessionId data w
  = (Normal tt, with_files w (<[temp_path name := data]> (files w))).
Proof.
  intros Hn [Hm Hw].
  unfold saveTemporaryFile, bind, await, fs_mkdir, fs_writeFile, fs_call.
  rewrite Hm, (tempFile_prints _ _ Hn). cbn beta iota. rewrite Hw. reflexivity.
Qed.

Lemma saveTemporaryFile_string {host : Host} (id : jsstring) (data : list Byte.byte)
    (w : World) :
  can_save id ->
  saveTemporaryFile (JStr id) data w
  = (Normal tt, with_files w (<[temp_path id := data]> (files w))).
Proof. apply saveTemporaryFile_ok. reflexivity. Qed.



(* ===================================================================== *)
(** ** POST /api/unlock-pdf *)
(* ===================================================================== *)

(** C2 (as it holds on the code).  A request without a truthy session id
    or password is answered 400.  Otherwise, when no file is stored under
    the session id, or the session id cannot be printed into a file name,
    the answer is 404.  When the file is there and can be read: if the
    library opens it with the password and serialises it, and the disk
    accepts the result, the answer is 200 with [status: 'success'] and the
    session id [<sessionId>_unlocked], under which the new bytes are
    stored; if the library throws an error whose message includes
    [password], the answer is 401 with [status: 'invalid_password'] and
    nothing changes; if it throws any other error, the answer is the 500 of
    the handler. *)
Theorem unlock_pdf_outcomes {host : Host} (body : Body) (w : World) :
  (truthy (sessionId body) && truthy (password body) = false ->
   unlock_pdf body w
   = (json 400 [("error", str "Session ID and password are required")], w))
  /\ (truthy (sessionId body) && truthy (password body) = true ->
      (forall error,
          ToString (sessionId body) = Throw error ->
          unlock_pdf body w
          = (json 404 [("error", str "Session expired or file not found")],
             logged w "File not found:" (LogValue (sessionId body))))
      /\ (forall name,
            ToString (sessionId body) = Normal name ->
            (files w !! temp_path name = None ->
             unlock_pdf body w
             = (json 404 [("error", str "Session expired or file not found")],
                logged w "File not found:" (LogValue (sessionId body))))
            /\ (forall data,
                  files w !! temp_path name = Some data ->
                  disk_fault ReadFile (temp_path name) = None ->
                  (forall doc unlockedPdfBytes,
                      PDFDocument_load data (Some (password body)) = Normal doc ->
                      PdfDoc_save doc = Normal unlockedPdfBytes ->
                      can_save (unlocked name) ->
                      unlock_pdf body w
                      = (json 200 [("status", str "success");
                                   ("message",
                                    str "PDF unlocked successfully! Processing...");
                                   ("sessionId", JStr (unlocked name))],
                         with_files w
                           (<[temp_path (unlocked name) := unlockedPdfBytes]>
                              (files w))))
                  /\ (forall error,
                        unlock_fails data (password body) error ->
                        message_includes error "password" = true ->
                        unlock_pdf body w
                        = (json 401 [("status", str "invalid_password");
                                     ("error",
                                      str "Incorrect password. Please try again.")],
                           w))
                  /\ (forall error,
                        unlock_fails data (password body) error ->
                        message_includes error "password" = false ->
                        unlock_pdf body w
                        = (json 500 [("error", str "Failed to unlock PDF");
                                     ("details", message_of error)],
                           logged w "Error unlocking PDF:" (LogError error)))))).
Proof.
  unfold unlock_pdf, handler, unlock_pdf_body.
  split.
  - intros H. apply andb_false_iff in H.
    destruct H as [-> | ->]; cbn [negb orb]; rewrite ?orb_true_r; reflexivity.
  - intros H. apply andb_true_iff in H as [-> ->]. cbn [negb orb].
    unfold bind.
    split; [|intros name Hname; split].
    + intros error Hthrow. rewrite (getTemporaryFile_unprintable _ _ _ Hthrow).
      reflexivity.
    + intros Hnone. rewrite (getTemporaryFile_absent _ _ _ Hname Hnone). reflexivity.
    + intros data Hfile Hread.
      rewrite (getTemporaryFile_present _ _ _ _ Hname Hread Hfile).
      unfold try_catch, bind, await, unlocked_id. rewrite Hname. cbn [cbind].
      split; [|split].
      * intros doc unlockedPdfBytes Hload Hsave Hdisk. rewrite Hload, Hsave.
        rewrite (saveTemporaryFile_string _ _ _ Hdisk). reflexivity.
      * intros error [Hload | (doc & Hload & Hsave)] Hmsg;
          rewrite Hload, ?Hsave, Hmsg; reflexivity.
      * intros error [Hload | (doc & Hload & Hsave)] Hmsg;
          rewrite Hload, ?Hsave, Hmsg; reflexivity.
Qed.

(** The theorem at a stored file that the library opens with the password
    it is given. *)
Lemma unlock_pdf_outcomes_witness :
  @unlock_pdf echo_host (unlock_request "s1" "secret") world_with_s1
  = (json 200 [("status", str "success");
               ("message", str "PDF unlocked successfully! Processing...");
               ("sessionId", str "s1_unlocked")],
     mkWorld {[ lit "/app/temp/s1.pdf" := sample_pdf;
                lit "/app/temp/s1_unlocked.pdf" := sample_pdf ]} [] 0).
Proof.
  destruct (@unlock_pdf_outcomes echo_host (unlock_request "s1" "secret") world_with_s1)
    as (_ & B).
  destruct (B eq_refl) as (_ & N).
  destruct (N (lit "s1") eq_refl) as (_ & C).
  destruct (C sample_pdf eq_refl eq_refl) as (D & _).
  exact (D sample_pdf sample_pdf eq_refl eq_refl (conj eq_refl eq_refl)).
Defined.

(** C2 as stated fails in two places.  With a library that reports an
    encrypted document without the word [password], a wrong password is
    answered with the generic 500; and an empty password is answered 400
    before the library is asked, although the library would open the file
    with it. *)
Lemma unlock_pdf_wrong_password_500 :
  @unlock_pdf encrypted_pdf_host (unlock_request "s1" "wrong") world_with_s1
  = (json 500 [("error", str "Failed to unlock PDF");
               ("details", message_of encrypted_error)],
     logged world_with_s1 "Error unlocking PDF:" (LogError encrypted_error))
  /\ @PDFDocument_load echo_host sample_pdf (Some (str "")) = Normal sample_pdf
  /\ @unlock_pdf echo_host (unlock_request "s1" "") world_with_s1
     = (json 400 [("error", str "Session ID and password are required")],
        world_with_s1).
Proof. repeat split. Qed.

(* ===================================================================== *)
(** ** POST /api/process-pdf *)
(* ===================================================================== *)

(** The handler, case by case, once the text is extracted. *)
Lemma process_pdf_run {host : Host} (body : Body) (w : World)
    (name extractedText : jsstring) :
  session_ready body w name extractedText ->
  process_pdf body w =
    match model_answer (type body) extractedText with
    | Normal analysisText =>
        match parse_response analysisText with
        | Normal analysis =>
            (success_body analysis (type body) extractedText, consumed name w)
        | Throw _ =>
            (success_body (process_pdf_fallback analysisText) (type body) extractedText,
             parse_failure_logged (consumed name w) analysisText)
        end
    | Throw error =>
        (json 500 [("error", str "Failed to process PDF");
                   ("details", message_of error)],
         logged (consumed name w) "Error processing PDF:" (LogError error))
    end.
Proof.
  intros (Hname & pdfBuffer & Hfile & Hread & Hunlink & Hpdf).
  unfold process_pdf, handler, process_pdf_body, bind, model_answer.
  rewrite (getTemporaryFile_present _ _ _ _ Hname Hread Hfile).
  unfold await at 1. rewrite Hpdf.
  rewrite (deleteTemporaryFile_present _ _ _ _ Hname Hunlink Hfile).
  fold (consumed name w). unfold await at 1.
  destruct (generateContent _ _) as [analysisText|error]; [|reflexivity].
  unfold try_catch, await, bind.
  destruct (parse_response analysisText); reflexivity.
Qed.

Lemma process_pdf_absent {host : Host} (body : Body) (name : jsstring) (w : World) :
  ToString (sessionId body) = Normal name ->
  files w !! temp_path name = None ->
  process_pdf body w
  = (json 404 [("error", str "Session expired or file not found")],
     logged w "File not found:" (LogValue (sessionId body))).
Proof.
  intros Hname H. unfold process_pdf, handler, process_pdf_body, bind.
  rewrite (getTemporaryFile_absent _ _ _ Hname H). reflexivity.
Qed.

(** C6.  For every request whose session file is stored and readable and
    whose text is extracted, the handler leaves a store from which the
    session file is removed, whatever the model then does; and when the
    model answers, the response is 200 with the body [{status: 'success',
    analysis, documentType, textLength}], where [analysis] is the parsed
    answer or the fallback object, [documentType] is the [type] field of
    the request and [textLength] the length of the extracted text. *)
Theorem process_pdf_consumes_session {host : Host} (body : Body) (w : World)
    (name extractedText : jsstring) :
  session_ready body w name extractedText ->
  files (snd (process_pdf body w)) = delete (temp_path name) (files w)
  /\ files (snd (process_pdf body w)) !! temp_path name = None
  /\ (forall analysisText,
        model_answer (type body) extractedText = Normal analysisText ->
        exists analysis,
          fst (process_pdf body w)
          = json 200 [("status", str "success");
                      ("analysis", analysis);
                      ("documentType", type body);
                      ("textLength", num (jslength extractedText))]
          /\ (parse_response analysisText = Normal analysis
              \/ (exists error, parse_response analysisText = Throw error)
                 /\ analysis = process_pdf_fallback analysisText)).
Proof.
  intros H. rewrite (process_pdf_run body w name extractedText H).
  assert (files (consumed name w) = delete (temp_path name) (files w))
    as Hfiles by reflexivity.
  destruct (model_answer (type body) extractedText) as [analysisText|error].
  - destruct (parse_response analysisText) as [analysis|e] eqn:P; simpl.
    + split; [exact Hfiles|]. split; [apply lookup_delete_eq|].
      intros ? [= <-]. exists analysis. rewrite P. split; [reflexivity | left; reflexivity].
    + split; [exact Hfiles|]. split; [apply lookup_delete_eq|].
      intros ? [= <-]. exists (process_pdf_fallback analysisText). rewrite P.
      split; [reflexivity | right; split; [eauto | reflexivity]].
  - simpl. split; [exact Hfiles|]. split; [apply lookup_delete_eq|].
    intros ? [=].
Qed.

(** C9.  For every request whose text is extracted and whose model call
    then throws, the answer is the 500 of the handler, the session file is
    already removed from the store, and the same request sent again is
    answered 404. *)
Theorem process_pdf_error_consumes_session {host : Host} (body : Body) (w : World)
    (name extractedText : jsstring) (error : Error) :
  session_ready body w name extractedText ->
  model_answer (type body) extractedText = Throw error ->
  process_pdf body w
  = (json 500 [("error", str "Failed to process PDF");
               ("details", message_of error)],
     logged (consumed name w) "Error processing PDF:" (LogError error))
  /\ files (snd (process_pdf body w)) !! temp_path name = None
  /\ fst (process_pdf body (snd (process_pdf body w)))
     = json 404 [("error", str "Session expired or file not found")].
Proof.
  intros H Hmodel. rewrite (process_pdf_run body w name extractedText H), Hmodel.
  split; [reflexivity|]. split; [apply lookup_delete_eq|].
  cbn [snd]. destruct H as (Hname & _).
  rewrite (process_pdf_absent _ name); [reflexivity | exact Hname | apply lookup_delete_eq].
Qed.

Lemma s1_ready (answer : Completion jsstring) :
  @session_ready
    (sample_host (fun bytes _ => Normal bytes)
       (fun _ => Normal (lit "01/02/2024 COFFEE 120")) answer
       parse_empty_object healthy_disk)
    (process_request "s1" (str "bank")) world_with_s1 (lit "s1")
    (lit "01/02/2024 COFFEE 120").
Proof. split; [reflexivity|]. exists sample_pdf. repeat split. Qed.

(** The theorem at a stored session and a model that answers in a fenced
    block. *)
Lemma process_pdf_consumes_session_witness :
  files (snd (@process_pdf fenced_host (process_request "s1" (str "bank")) world_with_s1))
    !! lit "/app/temp/s1.pdf" = None
  /\ exists analysis,
      fst (@process_pdf fenced_host (process_request "s1" (str "bank")) world_with_s1)
      = json 200 [("status", str "success");
                  ("analysis", analysis);
                  ("documentType", str "bank");
                  ("textLength", JNum 21)].
Proof.
  destruct (@process_pdf_consumes_session fenced_host
              (process_request "s1" (str "bank")) world_with_s1 (lit "s1")
              (lit "01/02/2024 COFFEE 120") (s1_ready _)) as (_ & G & R).
  split; [exact G|].
  destruct (R _ eq_refl) as (analysis & E & _).
  exists analysis. exact E.
Defined.

(** The theorem at a stored session and a model that cannot be reached. *)
Lemma process_pdf_error_consumes_session_witness :
  fst (@process_pdf offline_host (process_request "s1" (str "bank")) world_with_s1)
  = json 500 [("error", str "Failed to process PDF");
              ("details", str "fetch failed")]
  /\ @getTemporaryFile offline_host (str "s1")
       (snd (@process_pdf offline_host (process_request "s1" (str "bank")) world_with_s1))
     = (Normal None,
        logged (snd (@process_pdf offline_host (process_request "s1" (str "bank"))
                       world_with_s1))
          "File not found:" (LogValue (str "s1")))
  /\ fst (@process_pdf offline_host (process_request "s1" (str "bank"))
            (snd (@process_pdf offline_host (process_request "s1" (str "bank"))
                    world_with_s1)))
     = json 404 [("error", str "Session expired or file not found")].
Proof.
  destruct (@process_pdf_error_consumes_session offline_host
              (process_request "s1" (str "bank")) world_with_s1 (lit "s1")
              (lit "01/02/2024 COFFEE 120") (new_Error "fetch failed")
              (s1_ready _) eq_refl) as (E & G & R).
  split; [rewrite E; reflexivity|].
  split; [apply (getTemporaryFile_absent _ (lit "s1")); [reflexivity | exact G]
         | exact R].
Defined.

(** In the second sibling version the same failure is not a 500: with
    the text extracted and the chat completion throwing, the answer is 200
    with [status: 'partial'], and the session file is deleted all the
    same. *)
Lemma part001_process_pdf_run {host : Host} (body : Body) (w : World)
    (name extractedText : jsstring) :
  session_ready body w name extractedText ->
  Part001.process_pdf body w
  = match chat_completion (Part001.choose_prompt (type body) extractedText) with
    | Normal analysisText =>
        match JSON_parse analysisText with
        | Normal analysis =>
            (success_body analysis (type body) extractedText, consumed name w)
        | Throw error =>
            (json 200 [("status", str "partial");
                       ("analysis", Part001.process_pdf_fallback error);
                       ("documentType", type body);
                       ("textLength", num (jslength extractedText))],
             logged (consumed name w) "OpenAI API error:" (LogError error))
        end
    | Throw error =>
        (json 200 [("status", str "partial");
                   ("analysis", Part001.process_pdf_fallback error);
                   ("documentType", type body);
                   ("textLength", num (jslength extractedText))],
         logged (consumed name w) "OpenAI API error:" (LogError error))
    end.
Proof.
  intros (Hname & pdfBuffer & Hfile & Hread & Hunlink & Hpdf).
  unfold Part001.process_pdf, handler, Part001.process_pdf_body, bind.
  rewrite (getTemporaryFile_present _ _ _ _ Hname Hread Hfile).
  unfold await at 1. rewrite Hpdf.
  rewrite (deleteTemporaryFile_present _ _ _ _ Hname Hunlink Hfile).
  fold (consumed name w). unfold try_catch, bind, await.
  destruct (chat_completion _) as [analysisText|error]; [|reflexivity].
  destruct (JSON_parse analysisText); reflexivity.
Qed.

Remark part001_process_pdf_failure_is_partial {host : Host} (body : Body) (w : World)
    (name extractedText : jsstring) (error : Error) :
  session_ready body w name extractedText ->
  chat_completion (Part001.choose_prompt (type body) extractedText) = Throw error ->
  Part001.process_pdf body w
  = (json 200 [("status", str "partial");
               ("analysis", Part001.process_pdf_fallback error);
               ("documentType", type body);
               ("textLength", num (jslength extractedText))],
     logged (consumed name w) "OpenAI API error:" (LogError error)).
Proof.
  intros H Hchat. rewrite (part001_process_pdf_run _ _ _ _ H), Hchat. reflexivity.
Qed.

(** The handler reads the document type from the field [type]: a request
    that carries it as [documentType] is answered with no document type
    echoed. *)
Example process_pdf_reads_type_field :
  fst (@process_pdf fenced_host
         (mkBody JUndefined (str "bank") (str "s1") JUndefined JUndefined JUndefined)
         world_with_s1)
  = json 200 [("status", str "success");
              ("analysis", JObj []);
              ("documentType", JUndefined);
              ("textLength", JNum 21)].
Proof. vm_compute. reflexivity. Qed.

(* ===================================================================== *)
(** ** POST /api/analyze-text and the fallback analysis *)
(* ===================================================================== *)

Lemma choose_prompt_js_string {host : Host} (documentType : Json) (text : jsstring) :
  choose_prompt_js documentType (JStr text) = Normal (choose_prompt documentType text).
Proof.
  unfold choose_prompt_js, choose_prompt.
  destruct (strict_eq_str documentType (lit "bank")); reflexivity.
Qed.

Lemma part001_choose_prompt_js_string {host : Host} (documentType : Json)
    (text : jsstring) :
  Part001.choose_prompt_js documentType (JStr text)
  = Normal (Part001.choose_prompt documentType text).
Proof.
  unfold Part001.choose_prompt_js, Part001.choose_prompt.
  destruct (strict_eq_str documentType (lit "bank")); reflexivity.
Qed.




Lemma part001_text_ready_string {host : Host} (body : Body) (c : code_unit)
    (rest : jsstring) :
  text body = JStr (c :: rest) ->
  part001_text_ready body (num (jslength (c :: rest)))
    (Part001.choose_prompt (documentType body) (c :: rest)).
Proof.
  intros Htext. unfold part001_text_ready. rewrite Htext.
  split; [reflexivity|]. split; [reflexivity|]. apply part001_choose_prompt_js_string.
Qed.

(** The handler, case by case, on a text that is a non-empty string. *)
Lemma analyze_text_run {host : Host} (body : Body) (w : World) (c : code_unit)
    (rest : jsstring) :
  text body = JStr (c :: rest) ->
  analyze_text body w =
    match model_answer (documentType body) (c :: rest) with
    | Normal analysisText =>
        match parse_response analysisText with
        | Normal analysis =>
            (success_body analysis (documentType body) (c :: rest), w)
        | Throw _ =>
            (success_body (analyze_text_fallback analysisText) (documentType body)
               (c :: rest),
             parse_failure_logged w analysisText)
        end
    | Throw error =>
        (json 500 [("error", str "Failed to analyze document");
                   ("details", message_of error)],
         logged w "Error analyzing text:" (LogError error))
    end.
Proof.
  intros Htext.
  unfold analyze_text, handler, analyze_text_body, model_answer, gemini_model.
  rewrite Htext. cbn [truthy negb length_of longer_than ToString num].
  rewrite choose_prompt_js_string.
  unfold bind, await. cbn beta iota.
  destruct (generateContent _ _) as [analysisText|error]; [|reflexivity].
  unfold try_catch.
  destruct (parse_response analysisText); reflexivity.
Qed.

(** The handler of the second sibling version on a text that is a
    non-empty string. *)
Lemma part001_analyze_text_run {host : Host} (body : Body) (w : World) (c : code_unit)
    (rest : jsstring) :
  text body = JStr (c :: rest) ->
  Part001.analyze_text body w =
    match chat_completion (Part001.choose_prompt (documentType body) (c :: rest)) with
    | Normal analysisText =>
        match JSON_parse analysisText with
        | Normal analysis =>
            (success_body analysis (documentType body) (c :: rest), w)
        | Throw error =>
            (json 200 [("status", str "partial");
                       ("analysis", Part001.analyze_text_fallback error);
                       ("documentType", documentType body);
                       ("textLength", num (jslength (c :: rest)))],
             logged w "OpenAI API error:" (LogError error))
        end
    | Throw error =>
        (json 200 [("status", str "partial");
                   ("analysis", Part001.analyze_text_fallback error);
                   ("documentType", documentType body);
                   ("textLength", num (jslength (c :: rest)))],
         logged w "OpenAI API error:" (LogError error))
    end.
Proof.
  intros Htext.
  unfold Part001.analyze_text, handler, Part001.analyze_text_body.
  rewrite Htext. cbn [truthy negb length_of].
  rewrite part001_choose_prompt_js_string.
  unfold try_catch, bind, await. cbn beta iota.
  destruct (chat_completion _) as [analysisText|error]; [|reflexivity].
  destruct (JSON_parse analysisText); reflexivity.
Qed.

Lemma substring_prefix (s : jsstring) (n : Z) :
  0 <= n -> substring s 0 (Some n) = firstn (Z.to_nat n) s.
Proof.
  intros Hn. destruct (Z_le_gt_dec n (jslength s)) as [H|H].
  - apply substring_head. lia.
  - unfold substring, clamp.
    replace (Z.max 0 (Z.min 0 (jslength s))) with 0 by (unfold jslength; lia).
    replace (Z.max 0 (Z.min n (jslength s))) with (jslength s)
      by (unfold jslength in *; lia).
    replace (Z.min 0 (jslength s)) with 0 by (unfold jslength; lia).
    replace (Z.max 0 (jslength s) - 0) with (jslength s) by (unfold jslength; lia).
    change (skipn (Z.to_nat 0) s) with s.
    rewrite !firstn_all2; [reflexivity | |]; unfold jslength in *; lia.
Qed.




(* ===================================================================== *)
(** ** The document type *)
(* ===================================================================== *)

Lemma strict_eq_str_false (v : Json) (s : jsstring) :
  v <> JStr s -> strict_eq_str v s = false.
Proof.
  intros H. destruct v; try reflexivity. simpl.
  apply bool_decide_eq_false. congruence.
Qed.

Lemma choose_prompt_credit {host : Host} (documentType : Json) (text : jsstring) :
  documentType <> JStr (lit "bank") ->
  choose_prompt documentType text = getCreditCardPrompt text.
Proof.
  intros H. unfold choose_prompt. rewrite strict_eq_str_false by exact H.
  reflexivity.
Qed.

(** C10.  For every document type other than the string [bank], whatever
    kind of value it is: both analysis handlers send the model the
    credit-card prompt, and answer and act exactly as they do for
    [credit], but for the document type they echo; and
    [/api/generate-report] answers exactly as it does for [credit], with
    the credit-card workbook. *)
Theorem non_bank_type_is_credit {host : Host} (dt : Json) :
  dt <> JStr (lit "bank") ->
  (forall text, choose_prompt dt text = getCreditCardPrompt text)
  /\ (forall text, choose_prompt_js dt text = getCreditCardPrompt_js text)
  /\ (forall body w,
        analyze_text (set_documentType body dt) w
        = (echoing dt
             (fst (analyze_text (set_documentType body (str "credit")) w)),
           snd (analyze_text (set_documentType body (str "credit")) w)))
  /\ (forall body w,
        process_pdf (set_type body dt) w
        = (echoing dt (fst (process_pdf (set_type body (str "credit")) w)),
           snd (process_pdf (set_type body (str "credit")) w)))
  /\ (forall body w,
        generate_report (set_documentType body dt) w
        = generate_report (set_documentType body (str "credit")) w)
  /\ (forall body w,
        truthy (analysis body) = true ->
        generate_report (set_documentType body dt) w
        = handler "Error generating report:" "Failed to generate report"
            (workbook <- await (createCreditCardExcel [] (analysis body)) ;;
             buffer <- await (writeBuffer workbook) ;;
             t <- next_tick ;;
             ret (mkResponse 200
                    (SentWorkbook
                       (lit "statement_analysis_" ++ decimal (Date_now t) ++ lit ".xlsx")
                       buffer))) w).
Proof.
  intros H.
  assert (forall text, choose_prompt dt text = getCreditCardPrompt text)
    as Hprompt by (intros; apply choose_prompt_credit, H).
  assert (forall text, choose_prompt (str "credit") text = getCreditCardPrompt text)
    as Hcredit by (intros; apply choose_prompt_credit; discriminate).
  assert (forall text, choose_prompt_js dt text = getCreditCardPrompt_js text)
    as Hjs by (intros; unfold choose_prompt_js; rewrite strict_eq_str_false by exact H;
               reflexivity).
  split; [exact Hprompt|]. split; [exact Hjs|].
  split; [|split; [|split]].
  - intros body w.
    unfold analyze_text, handler, analyze_text_body.
    cbn [text documentType set_documentType]. rewrite Hjs.
    change (choose_prompt_js (str "credit") (text body))
      with (getCreditCardPrompt_js (text body)).
    destruct (truthy (text body)); [|reflexivity]. cbn [negb].
    unfold bind, await, try_catch, log_parse_failure, console_error, ret.
    destruct (length_of (text body)) as [textLength|e]; [|reflexivity].
    destruct (longer_than (text body) 150000) as [large|e]; [|reflexivity].
    destruct (ToString textLength) as [printed|e]; [|reflexivity].
    destruct (getCreditCardPrompt_js (text body)) as [prompt|e]; [|reflexivity].
    destruct (generateContent _ _) as [analysisText|error]; [|reflexivity].
    destruct (parse_response analysisText); reflexivity.
  - intros body w.
    unfold process_pdf, handler, process_pdf_body. cbn [sessionId type set_type].
    unfold bind at 1 7 13.
    destruct (getTemporaryFile (sessionId body) w) as [[[pdfBuffer|]|e] w1];
      try reflexivity.
    unfold bind at 1 6 11. unfold await at 1 4 7.
    destruct (pdf pdfBuffer) as [extractedText|e]; [|reflexivity].
    unfold bind at 1 5 9.
    destruct (deleteTemporaryFile (sessionId body) w1) as [[[]|e] w2]; [|reflexivity].
    rewrite (Hprompt extractedText), (Hcredit extractedText).
    unfold bind at 1 3 5. unfold await at 1 3 5.
    destruct (generateContent _ _) as [analysisText|error]; [|reflexivity].
    unfold try_catch, await, bind.
    destruct (parse_response analysisText); reflexivity.
  - intros body w. unfold generate_report, generate_report_body.
    cbn [analysis documentType set_documentType].
    rewrite strict_eq_str_false by exact H.
    rewrite strict_eq_str_false by discriminate. reflexivity.
  - intros body w Ht. unfold generate_report, generate_report_body.
    cbn [analysis documentType set_documentType].
    rewrite Ht, strict_eq_str_false by exact H. reflexivity.
Qed.

(** The theorem for a request without document type. *)
Lemma non_bank_type_is_credit_witness :
  @choose_prompt JUndefined (lit "01/02/2024 COFFEE 120")
  = getCreditCardPrompt (lit "01/02/2024 COFFEE 120")
  /\ @generate_report echo_host
       (mkBody JUndefined JUndefined JUndefined JUndefined JUndefined (obj []))
       empty_world
     = @generate_report echo_host
         (mkBody JUndefined (str "credit") JUndefined JUndefined JUndefined (obj []))
         empty_world.
Proof.
  destruct (@non_bank_type_is_credit echo_host JUndefined ltac:(discriminate))
    as (A & _ & _ & _ & D & _).
  split.
  - apply A.
  - apply (D (mkBody JUndefined JUndefined JUndefined JUndefined JUndefined (obj []))).
Defined.

(* ===================================================================== *)
(** ** The report renderer *)
(* ===================================================================== *)







Lemma cmap_total {A B} (f : A -> Completion B) (g : A -> B) (l : list A) :
  Forall (fun x => f x = Normal (g x)) l -> cmap f l = Normal (List.map g l).
Proof.
  induction 1 as [|x l Hx _ IH]; [reflexivity|].
  simpl. rewrite Hx. simpl. rewrite IH. reflexivity.
Qed.




Lemma printable_dec {host : Host} (v : Json) : printable v \/ ~ printable v.
Proof.
  unfold printable. destruct (ToString v) as [printed|e].
  - left. exists printed. reflexivity.
  - right. intros [printed H]. discriminate.
Qed.










(** A [null] among the transactions is not a missing field: reading its
    date throws, and [/api/generate-report] answers 500. *)
Example bank_renderer_throws_on_null_transaction :
  @createBankStatementExcel echo_host []
    (obj [("transactions", JArr [obj []; JNull])]) = Throw (TypeError "null" "date")
  /\ fst (@generate_report echo_host
            (mkBody JUndefined (str "bank") JUndefined JUndefined JUndefined
               (obj [("transactions", JArr [obj []; JNull])]))
            empty_world)
     = json 500 [("error", str "Failed to generate report");
                 ("details", str "Cannot read properties of null (reading 'date')")].
Proof. vm_compute. repeat split. Qed.

(** Nor is a category total that cannot be printed: an object with an own
    property [toString] makes the template literal throw, although no
    entry is [null]. *)
Example bank_renderer_throws_on_unprintable_total :
  @createBankStatementExcel echo_host []
    (obj [("categories", obj [("upi", obj [("total", obj [("toString", JNum 1)])])])])
  = Throw cannot_convert
  /\ @createBankStatementExcel echo_host []
       (obj [("categories", obj [("upi", obj [("total", JNum 1500.5);
                                              ("count", JNum 3)])])])
     = Normal [mkWorksheet (lit "All Transactions")
                 [col "Date" "date" 15; col "Description" "description" 40;
                  col "Debit" "debit" 15; col "Credit" "credit" 15;
                  col "Balance" "balance" 15; col "Category" "category" 15] [];
               mkWorksheet (lit "Summary")
                 [col "Metric" "metric" 30; col "Value" "value" 20]
                 [obj [("metric", str ""); ("value", str "")];
                  obj [("metric", str "Category Breakdown"); ("value", str "")];
                  JObj [(lit "metric", str "UPI");
                        (lit "value",
                         JStr ([rupee] ++ lit "1500.5 (3 transactions)"))]]].
Proof. vm_compute. repeat split. Qed.

(* ===================================================================== *)
(** ** Further properties of the store, the handlers and the timer *)
(* ===================================================================== *)

(* ===================================================================== *)
(** ** The file store: round trips and footprint *)
(* ===================================================================== *)

Lemma getTemporaryFile_keeps_files {host : Host} (sessionId : Json) (w : World) :
  files (snd (getTemporaryFile sessionId w)) = files w.
Proof.
  unfold getTemporaryFile, try_catch, bind, await, tempFile, cbind, fs_readFile, fs_call,
    console_error, ret, throw.
  destruct (ToString sessionId) as [name|error]; [|reflexivity].
  destruct (disk_fault ReadFile (temp_path name)); [reflexivity|].
  destruct (files w !! temp_path name); reflexivity.
Qed.

Lemma saveTemporaryFile_footprint {host : Host} (sessionId : Json)
    (data : list Byte.byte) (w : World) (path : jsstring) :
  (forall name, ToString sessionId = Normal name -> path <> temp_path name) ->
  files (snd (saveTemporaryFile sessionId data w)) !! path = files w !! path.
Proof.
  intros Hp.
  unfold saveTemporaryFile, bind, await, tempFile, cbind, fs_mkdir, fs_writeFile,
    fs_call, ret, throw.
  destruct (disk_fault Mkdir _); [reflexivity|].
  destruct (ToString sessionId) as [name|error]; [|reflexivity].
  destruct (disk_fault WriteFile _); [reflexivity|].
  cbn. apply lookup_insert_ne. specialize (Hp name eq_refl). congruence.
Qed.

Lemma deleteTemporaryFile_footprint {host : Host} (sessionId : Json) (w : World)
    (path : jsstring) :
  (forall name, ToString sessionId = Normal name -> path <> temp_path name) ->
  files (snd (deleteTemporaryFile sessionId w)) !! path = files w !! path.
Proof.
  intros Hp.
  unfold deleteTemporaryFile, try_catch, bind, await, tempFile, cbind, fs_unlink,
    fs_call, console_error, throw.
  destruct (ToString sessionId) as [name|error]; [|reflexivity].
  destruct (disk_fault Unlink _); [reflexivity|].
  destruct (files w !! temp_path name); [|reflexivity].
  cbn. apply lookup_delete_ne. specialize (Hp name eq_refl). congruence.
Qed.

(** X1.  On a disk that accepts the write and the read, a buffer saved
    under a session id is the buffer loaded under it, whatever was stored
    under the id before; nothing is logged, and a second save replaces the
    first.  The file is the one named after the printed session id. *)
Theorem saved_file_is_loaded {host : Host} (sessionId : Json) (name : jsstring)
    (data : list Byte.byte) (w : World) :
  ToString sessionId = Normal name ->
  can_save name ->
  disk_fault ReadFile (temp_path name) = None ->
  (saveTemporaryFile sessionId data ;; getTemporaryFile sessionId) w
  = (Normal (Some data), with_files w (<[temp_path name := data]> (files w)))
  /\ (forall older,
        (saveTemporaryFile sessionId older ;;
         saveTemporaryFile sessionId data ;;
         getTemporaryFile sessionId) w
        = (saveTemporaryFile sessionId data ;; getTemporaryFile sessionId) w).
Proof.
  intros Hname Hsave Hread.
  assert (forall d w0,
             (saveTemporaryFile sessionId d ;; getTemporaryFile sessionId) w0
             = (Normal (Some d),
                with_files w0 (<[temp_path name := d]> (files w0)))) as Hrt.
  { intros d w0. unfold bind at 1. rewrite (saveTemporaryFile_ok _ _ _ _ Hname Hsave).
    apply (getTemporaryFile_present _ name); [exact Hname | exact Hread |].
    apply lookup_insert_eq. }
  split; [apply Hrt|].
  intros older. unfold bind at 1. rewrite (saveTemporaryFile_ok _ _ _ _ Hname Hsave).
  rewrite !Hrt. f_equal. unfold with_files. cbn. f_equal.
  apply insert_insert_eq.
Qed.

(** X2.  The store works on one file at a time: saving or deleting under a
    session id leaves the file of every path other than the session's as it
    was, and loading leaves every file as it was, on any disk.  A session
    id that cannot be printed has no file, and then no file changes. *)
Theorem store_touches_one_file {host : Host} (sessionId : Json)
    (data : list Byte.byte) (w : World) :
  (forall path,
      (forall name, ToString sessionId = Normal name -> path <> temp_path name) ->
      files (snd (saveTemporaryFile sessionId data w)) !! path = files w !! path
      /\ files (snd (deleteTemporaryFile sessionId w)) !! path = files w !! path)
  /\ files (snd (getTemporaryFile sessionId w)) = files w.
Proof.
  split.
  - intros path Hp. split.
    + apply saveTemporaryFile_footprint, Hp.
    + apply deleteTemporaryFile_footprint, Hp.
  - apply getTemporaryFile_keeps_files.
Qed.

(** X3.  Once a stored file is deleted, loading it returns [null] (and
    logs that the file was not found), and deleting it again changes no
    file: the second call only logs the error of the missing file. *)
Theorem deleted_file_is_gone {host : Host} (sessionId : Json) (name : jsstring)
    (w : World) (data : list Byte.byte) :
  ToString sessionId = Normal name ->
  files w !! temp_path name = Some data ->
  disk_fault Unlink (temp_path name) = None ->
  (deleteTemporaryFile sessionId ;; getTemporaryFile sessionId) w
  = (Normal None,
     logged (with_files w (delete (temp_path name) (files w)))
       "File not found:" (LogValue sessionId))
  /\ (deleteTemporaryFile sessionId ;; deleteTemporaryFile sessionId) w
     = (Normal tt,
        logged (with_files w (delete (temp_path name) (files w)))
          "Error deleting temp file:" (LogError ENOENT)).
Proof.
  intros Hname Hfile Hunlink. unfold bind.
  rewrite (deleteTemporaryFile_present _ _ _ _ Hname Hunlink Hfile). split.
  - apply (getTemporaryFile_absent _ name); [exact Hname|]. apply lookup_delete_eq.
  - unfold deleteTemporaryFile, try_catch, bind, await, fs_unlink, fs_call.
    rewrite (tempFile_prints _ _ Hname), Hunlink.
    cbn [files with_files]. rewrite lookup_delete_eq. reflexivity.
Qed.

(* ===================================================================== *)
(** ** Session ids *)
(* ===================================================================== *)

Lemma lit_inj (s t : string) : lit s = lit t -> s = t.
Proof.
  unfold lit. intros H.
  rewrite <- (string_of_list_ascii_of_string s), <- (string_of_list_ascii_of_string t).
  f_equal. revert H. generalize (list_ascii_of_string s) (list_ascii_of_string t).
  induction l as [|a l IH]; intros [|b l']; simpl; intros H; try discriminate.
  - reflexivity.
  - injection H as Hab Hl. f_equal; [|apply IH, Hl].
    rewrite <- (ascii_N_embedding a), <- (ascii_N_embedding b), Hab. reflexivity.
Qed.

Lemma lit_app (s t : string) : lit (s ++ t) = lit s ++ lit t.
Proof.
  unfold lit. induction s as [|a s IH]; simpl; [reflexivity|].
  f_equal. exact IH.
Qed.

Lemma uint_digits (d : Decimal.uint) :
  Forall (fun c => is_digit c = true) (lit (NilEmpty.string_of_uint d)).
Proof. induction d; simpl; constructor; try reflexivity; assumption. Qed.

Lemma decimal_no_underscore (n : Z) : Forall (fun c => c <> 95%N) (decimal n).
Proof.
  assert (forall d, Forall (fun c => c <> 95%N) (lit (NilZero.string_of_uint d))) as H.
  { intros d. destruct d; try (repeat constructor; discriminate);
      (eapply Forall_impl; [apply uint_digits|]; intros c Hc ->; discriminate). }
  destruct n; simpl.
  - repeat constructor. discriminate.
  - apply H.
  - constructor; [discriminate | apply H].
Qed.

Lemma decimal_inj (n m : Z) : decimal n = decimal m -> n = m.
Proof.
  assert (forall p, NilZero.string_of_uint (Pos.to_uint p)
                    = NilEmpty.string_of_uint (Pos.to_uint p)) as Hz.
  { intros p. pose proof (Unsigned.to_uint_nonnil p).
    destruct (Pos.to_uint p); [contradiction | reflexivity..]. }
  assert (forall p d, lit (NilZero.string_of_uint (Pos.to_uint p))
                      = lit (NilEmpty.string_of_uint d) -> Pos.to_uint p = d) as Hback.
  { intros p d H. apply lit_inj in H. rewrite Hz in H.
    assert (Some (Pos.to_uint p) = Some d) as E
      by (rewrite <- !NilEmpty.usu, H; reflexivity).
    congruence. }
  assert (forall p, lit (NilZero.string_of_uint (Pos.to_uint p)) <> lit "0") as Hnz.
  { intros p H. apply (Unsigned.to_uint_nonzero p).
    apply (Hback p (Decimal.D0 Decimal.Nil)), H. }
  assert (forall p, exists c rest,
             lit (NilZero.string_of_uint (Pos.to_uint p)) = c :: rest
             /\ is_digit c = true) as Hhead.
  { intros p. rewrite Hz. pose proof (uint_digits (Pos.to_uint p)) as Hd.
    pose proof (Unsigned.to_uint_nonnil p).
    destruct (Pos.to_uint p); [contradiction|..];
      simpl in *; inversion Hd; subst; eauto. }
  destruct n as [|p|p], m as [|q|q]; simpl; intros H; try reflexivity.
  - exfalso. apply (Hnz q). symmetry. exact H.
  - discriminate.
  - exfalso. apply (Hnz p). exact H.
  - f_equal. apply Unsigned.to_uint_inj. apply Hback. rewrite H, Hz. reflexivity.
  - exfalso. destruct (Hhead p) as (c & rest & E & Hc). rewrite E in H.
    injection H as -> _. discriminate.
  - discriminate.
  - exfalso. destruct (Hhead q) as (c & rest & E & Hc). rewrite E in H.
    injection H as <- _. discriminate.
  - injection H as H. f_equal. apply Unsigned.to_uint_inj. apply Hback.
    rewrite H, Hz. reflexivity.
Qed.

(** A separator that stands in neither head splits in one way only. *)
Lemma split_at_separator (sep : code_unit) (a a' r r' : jsstring) :
  Forall (fun c => c <> sep) a -> Forall (fun c => c <> sep) a' ->
  a ++ sep :: r = a' ++ sep :: r' -> a = a' /\ r = r'.
Proof.
  intros Ha. revert a'. induction Ha as [|c a Hc _ IH]; intros a' Ha' H.
  - destruct Ha' as [|c' a' Hc' _]; simpl in H.
    + injection H as ->. split; reflexivity.
    + injection H as -> _. contradiction.
  - destruct Ha' as [|c' a' Hc' Ha']; simpl in H.
    + injection H as -> _. contradiction.
    + injection H as -> H. destruct (IH _ Ha' H) as [-> ->]. split; reflexivity.
Qed.

(** X4.  Two session ids are equal exactly when they were generated at
    the same millisecond with the same random suffix: the clock value and
    the suffix can be read back from the id.  The suffix has at most nine
    code units. *)
Theorem session_ids_collide_only_together {host : Host} (t1 t2 : nat) :
  (session_id_at t1 = session_id_at t2 <->
   Date_now t1 = Date_now t2 /\
   substr (Math_random_toString36 t1) 2 9 = substr (Math_random_toString36 t2) 2 9)
  /\ jslength (substr (Math_random_toString36 t1) 2 9) <= 9
  /\ starts_with (lit "session_") (session_id_at t1) = true.
Proof.
  split; [|split].
  - unfold session_id_at. split.
    + intros H. apply app_inv_head in H.
      change (lit "_") with [95%N] in H. cbn [app] in H.
      apply split_at_separator in H; try apply decimal_no_underscore.
      destruct H as [Hd Hr]. split; [apply decimal_inj, Hd | exact Hr].
    + intros [-> ->]. reflexivity.
  - unfold substr, jslength. rewrite length_firstn. lia.
  - apply starts_with_true. eexists. reflexivity.
Qed.

(* ===================================================================== *)
(** ** What the handlers answer and what they touch *)
(* ===================================================================== *)

(** X5.  Every handler answers with one of a few status codes, whatever
    the request, the world and the host do: 200, 400 or 500 for
    [/api/analyze-text], [/api/check-pdf] and [/api/generate-report]; 200,
    400, 401, 404 or 500 for [/api/unlock-pdf]; 200, 404 or 500 for
    [/api/process-pdf], which never answers 400. *)
Theorem handlers_status_codes {host : Host} (body : Body)
    (file : option UploadedFile) (w : World) :
  statusCode (fst (analyze_text body w)) ∈ [200; 400; 500]
  /\ statusCode (fst (check_pdf file w)) ∈ [200; 400; 500]
  /\ statusCode (fst (unlock_pdf body w)) ∈ [200; 400; 401; 404; 500]
  /\ statusCode (fst (process_pdf body w)) ∈ [200; 404; 500]
  /\ statusCode (fst (generate_report body w)) ∈ [200; 400; 500].
Proof.
  repeat apply conj.
  - unfold analyze_text, analyze_text_body. unfold_js.
    repeat split_next; cbn; set_solver.
  - unfold check_pdf, check_pdf_body. unfold_js.
    repeat split_next; cbn; set_solver.
  - unfold unlock_pdf, unlock_pdf_body. unfold_js.
    repeat split_next; cbn; set_solver.
  - unfold process_pdf, process_pdf_body. unfold_js.
    repeat split_next; cbn; set_solver.
  - unfold generate_report, generate_report_body. unfold_js.
    repeat split_next; cbn; set_solver.
Qed.

(** X6.  What each handler may change in the store, on any host and any
    disk: [/api/analyze-text] and [/api/generate-report] change no file;
    [/api/check-pdf] changes at most the file of the session id it
    generates (the one of the request's tick or, after a failed first
    save, of the next tick); [/api/unlock-pdf] changes at most the file of
    [<sessionId>_unlocked] and removes no file, so the locked original is
    still there, with the bytes it had whenever the two names are given
    different paths; [/api/process-pdf] changes at most the file of its
    session id.  A session id that cannot be printed has no file, and the
    two routes change nothing then. *)
Theorem handlers_footprint {host : Host} (body : Body)
    (file : option UploadedFile) (w : World) :
  files (snd (analyze_text body w)) = files w
  /\ files (snd (generate_report body w)) = files w
  /\ (forall path,
        path <> temp_path (session_id_at (tick w)) ->
        path <> temp_path (session_id_at (S (tick w))) ->
        files (snd (check_pdf file w)) !! path = files w !! path)
  /\ (forall path,
        (forall name, ToString (sessionId body) = Normal name ->
                      path <> temp_path (unlocked name)) ->
        files (snd (unlock_pdf body w)) !! path = files w !! path)
  /\ (forall path,
        is_Some (files w !! path) -> is_Some (files (snd (unlock_pdf body w)) !! path))
  /\ (forall name original,
        ToString (sessionId body) = Normal name ->
        temp_path name <> temp_path (unlocked name) ->
        files w !! temp_path name = Some original ->
        files (snd (unlock_pdf body w)) !! temp_path name = Some original)
  /\ (forall path,
        (forall name, ToString (sessionId body) = Normal name -> path <> temp_path name) ->
        files (snd (process_pdf body w)) !! path = files w !! path).
Proof.
  assert (forall path,
             (forall name, ToString (sessionId body) = Normal name ->
                           path <> temp_path (unlocked name)) ->
             files (snd (unlock_pdf body w)) !! path = files w !! path) as Hunlock.
  { intros path Hp. unfold unlock_pdf, unlock_pdf_body, unlocked_id. unfold_store.
    unfold cbind. unfold_js.
    destruct (ToString (sessionId body)) as [name|error] eqn:EN.
    - specialize (Hp name eq_refl). cases_printed; same_file.
    - cases_printed; same_file. }
  split; [|split; [|split; [|split; [|split; [|split]]]]].
  - unfold analyze_text, analyze_text_body. unfold_js. cases; reflexivity.
  - unfold generate_report, generate_report_body. unfold_js. cases; reflexivity.
  - intros path H0 H1. unfold check_pdf, check_pdf_body. unfold_store. unfold cbind.
    unfold_js. cbn [ToString]. cases_printed; same_file.
  - exact Hunlock.
  - intros path Hsome. unfold unlock_pdf, unlock_pdf_body, unlocked_id. unfold_store.
    unfold cbind. unfold_js.
    cases_printed; cbn [fst snd files with_files tick]; try exact Hsome.
    all: rewrite lookup_insert_is_Some;
      match goal with
      | |- ?key = ?p \/ _ =>
          destruct (decide (key = p)); [left; assumption | right; split; assumption]
      end.
  - intros name original Hname Hdistinct Hfile. rewrite Hunlock; [exact Hfile|].
    intros name' Hname'. rewrite Hname in Hname'. injection Hname' as <-. exact Hdistinct.
  - intros path Hp. unfold process_pdf, process_pdf_body. unfold_store. unfold cbind.
    unfold_js.
    destruct (ToString (sessionId body)) as [name|error] eqn:EN.
    + specialize (Hp name eq_refl). cases_printed; same_file.
    + cases_printed; same_file.
Qed.

(** X7.  [/api/check-pdf] never answers 200 without having stored the
    upload: on any host and any disk, a 200 answer carries a session id
    under which the uploaded bytes are in the store, and its
    [passwordRequired] flag agrees with its [status]. *)
Theorem check_pdf_200_means_stored {host : Host} (file : UploadedFile) (w : World) :
  statusCode (fst (check_pdf (Some file) w)) = 200 ->
  exists id required,
    sent_field (fst (check_pdf (Some file) w)) "sessionId" = Some (JStr id)
    /\ files (snd (check_pdf (Some file) w)) !! temp_path id = Some (buffer file)
    /\ sent_field (fst (check_pdf (Some file) w)) "passwordRequired"
       = Some (JBool required)
    /\ sent_field (fst (check_pdf (Some file) w)) "status"
       = Some (str (if required then "password_required" else "success")).
Proof.
  unfold check_pdf, check_pdf_body. unfold_store. unfold cbind. unfold_js.
  cbn [ToString].
  cases; cbn [fst snd statusCode json]; intros H; try discriminate H;
    eexists; eexists; (split; [reflexivity|]);
    (split; [cbn [files with_files tick]; apply lookup_insert_eq|]);
    split; reflexivity.
Qed.

(** X8.  Failures before the deletion do not consume the session: when
    the stored file cannot be read, [/api/process-pdf] answers 404 although
    the file is there, and when the text extractor throws it answers 500;
    in both cases every file is left as it was, so the request can be sent
    again. *)
Theorem process_pdf_early_failure_keeps_session {host : Host} (body : Body)
    (name : jsstring) (w : World) (pdfBuffer : list Byte.byte) :
  ToString (sessionId body) = Normal name ->
  files w !! temp_path name = Some pdfBuffer ->
  (forall fault,
      disk_fault ReadFile (temp_path name) = Some fault ->
      fst (process_pdf body w)
      = json 404 [("error", str "Session expired or file not found")]
      /\ files (snd (process_pdf body w)) = files w)
  /\ (forall error,
        disk_fault ReadFile (temp_path name) = None ->
        pdf pdfBuffer = Throw error ->
        process_pdf body w
        = (json 500 [("error", str "Failed to process PDF");
                     ("details", message_of error)],
           logged w "Error processing PDF:" (LogError error)))
  /\ (forall error,
        disk_fault ReadFile (temp_path name) = None ->
        pdf pdfBuffer = Throw error ->
        process_pdf body (snd (process_pdf body w)) = 
        (json 500 [("error", str "Failed to process PDF");
                   ("details", message_of error)],
         logged (logged w "Error processing PDF:" (LogError error))
           "Error processing PDF:" (LogError error))).
Proof.
  intros Hname Hfile.
  assert (forall error w0,
             files w0 !! temp_path name = Some pdfBuffer ->
             disk_fault ReadFile (temp_path name) = None ->
             pdf pdfBuffer = Throw error ->
             process_pdf body w0
             = (json 500 [("error", str "Failed to process PDF");
                          ("details", message_of error)],
                logged w0 "Error processing PDF:" (LogError error))) as Hpdf.
  { intros error w0 Hf Hread Herr. unfold process_pdf, handler, process_pdf_body, bind.
    rewrite (getTemporaryFile_present _ _ _ _ Hname Hread Hf).
    unfold await. rewrite Herr. reflexivity. }
  split; [|split].
  - intros fault Hfault. unfold process_pdf, process_pdf_body. unfold_store.
    unfold cbind. unfold_js.
    rewrite Hname, Hfault. split; reflexivity.
  - intros error Hread Herr. apply Hpdf; assumption.
  - intros error Hread Herr. rewrite (Hpdf error w Hfile Hread Herr). cbn [snd].
    apply Hpdf; assumption.
Qed.

(* ===================================================================== *)
(** ** The handlers in sequence *)
(* ===================================================================== *)

Lemma check_pdf_stores {host : Host} (file : UploadedFile) (w : World) doc :
  PDFDocument_load (buffer file) None = Normal doc ->
  can_save (session_id_at (tick w)) ->
  check_pdf (Some file) w
  = (check_pdf_answer "success" false "No password required. Click to continue."
       file (session_id_at (tick w)),
     with_files (ticked w)
       (<[temp_path (session_id_at (tick w)) := buffer file]> (files w))).
Proof.
  intros Hload Hsave. unfold check_pdf, handler, check_pdf_body, try_catch, bind, await.
  rewrite Hload, generateSessionId_run, (saveTemporaryFile_string _ _ _ Hsave).
  reflexivity.
Qed.

Lemma check_pdf_stores_encrypted {host : Host} (file : UploadedFile) (w : World) error :
  PDFDocument_load (buffer file) None = Throw error ->
  message_includes error "encrypted" = true ->
  can_save (session_id_at (tick w)) ->
  check_pdf (Some file) w
  = (check_pdf_answer "password_required" true
       "This PDF is password protected. Please enter the password."
       file (session_id_at (tick w)),
     with_files (ticked w)
       (<[temp_path (session_id_at (tick w)) := buffer file]> (files w))).
Proof.
  intros Hload Hmsg Hsave.
  unfold check_pdf, handler, check_pdf_body, try_catch, bind, await.
  rewrite Hload, Hmsg, generateSessionId_run, (saveTemporaryFile_string _ _ _ Hsave).
  reflexivity.
Qed.

(** X9.  Upload then process: when [/api/check-pdf] opens the upload and
    stores it, [/api/process-pdf] called with the session id of its answer
    extracts the text of the very bytes that were uploaded and answers 200
    with the parsed analysis; afterwards the session file is gone, so a
    store that had no such file before is left as it was found. *)
Theorem check_then_process {host : Host} (file : UploadedFile) (w : World)
    (ty : Json) (doc : PdfDoc) (extractedText analysisText : jsstring)
    (analysis : Json) :
  PDFDocument_load (buffer file) None = Normal doc ->
  session_disk_ok (session_id_at (tick w)) ->
  pdf (buffer file) = Normal extractedText ->
  model_answer ty extractedText = Normal analysisText ->
  parse_response analysisText = Normal analysis ->
  sent_field (fst (check_pdf (Some file) w)) "sessionId"
  = Some (JStr (session_id_at (tick w)))
  /\ process_pdf (session_request (JStr (session_id_at (tick w))) JUndefined ty)
       (snd (check_pdf (Some file) w))
     = (success_body analysis ty extractedText,
        with_files (ticked w)
          (delete (temp_path (session_id_at (tick w))) (files w)))
  /\ (files w !! temp_path (session_id_at (tick w)) = None ->
      files (snd (process_pdf
                    (session_request (JStr (session_id_at (tick w))) JUndefined ty)
                    (snd (check_pdf (Some file) w))))
      = files w).
Proof.
  intros Hload (Hsave & Hread & Hunlink) Hpdf Hmodel Hparse.
  rewrite (check_pdf_stores _ _ _ Hload Hsave). cbn [fst snd].
  set (id := session_id_at (tick w)).
  set (body := session_request (JStr id) JUndefined ty).
  assert (session_ready body
            (with_files (ticked w) (<[temp_path id := buffer file]> (files w)))
            id extractedText) as Hready.
  { split; [reflexivity|].
    exists (buffer file). repeat split; try assumption. apply lookup_insert_eq. }
  rewrite (process_pdf_run _ _ _ _ Hready).
  change (type body) with ty. rewrite Hmodel, Hparse.
  assert (consumed id
            (with_files (ticked w) (<[temp_path id := buffer file]> (files w)))
          = with_files (ticked w) (delete (temp_path id) (files w))) as ->.
  { unfold consumed, with_files. cbn. f_equal. apply delete_insert_eq. }
  split; [reflexivity|]. split; [reflexivity|].
  intros Hnone. cbn. apply delete_id, Hnone.
Qed.

Lemma session_id_truthy {host : Host} (t : nat) :
  truthy (JStr (session_id_at t)) = true.
Proof. reflexivity. Qed.

(** X10.  Upload, unlock, process: when the upload is refused as
    encrypted, then opened with the password and serialised again,
    [/api/process-pdf] called with the session id that [/api/unlock-pdf]
    answers works on the unlocked bytes and answers 200.  After the three
    calls the unlocked file is gone and the locked original is still in
    the store. *)
Theorem check_unlock_process {host : Host} (file : UploadedFile) (w : World)
    (pw ty : Json) (error : Error) (doc : PdfDoc)
    (unlockedPdfBytes : list Byte.byte) (extractedText analysisText : jsstring)
    (analysis : Json) :
  let id := session_id_at (tick w) in
  let id' := unlocked id in
  PDFDocument_load (buffer file) None = Throw error ->
  message_includes error "encrypted" = true ->
  truthy pw = true ->
  PDFDocument_load (buffer file) (Some pw) = Normal doc ->
  PdfDoc_save doc = Normal unlockedPdfBytes ->
  session_disk_ok id -> session_disk_ok id' ->
  temp_path id <> temp_path id' ->
  pdf unlockedPdfBytes = Normal extractedText ->
  model_answer ty extractedText = Normal analysisText ->
  parse_response analysisText = Normal analysis ->
  let w1 := snd (check_pdf (Some file) w) in
  let w2 := snd (unlock_pdf (session_request (JStr id) pw JUndefined) w1) in
  let end_ := process_pdf (session_request (JStr id') JUndefined ty) w2 in
  sent_field (fst (check_pdf (Some file) w)) "sessionId" = Some (JStr id)
  /\ sent_field (fst (unlock_pdf (session_request (JStr id) pw JUndefined) w1))
       "sessionId" = Some (JStr id')
  /\ fst end_ = success_body analysis ty extractedText
  /\ files (snd end_) !! temp_path id = Some (buffer file)
  /\ files (snd end_) !! temp_path id' = None.
Proof.
  intros id id' Hload Hmsg Hpw Hopen Hser (Hsave & Hread & _)
    (Hsave' & Hread' & Hunlink') Hneq Hpdf Hmodel Hparse w1 w2 end_.
  subst w1 w2 end_.
  rewrite (check_pdf_stores_encrypted _ _ _ Hload Hmsg Hsave). cbn [fst snd].
  fold id.
  set (w1 := with_files (ticked w) (<[temp_path id := buffer file]> (files w))).
  assert (unlock_pdf (session_request (JStr id) pw JUndefined) w1
          = (json 200 [("status", str "success");
                       ("message", str "PDF unlocked successfully! Processing...");
                       ("sessionId", JStr id')],
             with_files w1 (<[temp_path id' := unlockedPdfBytes]> (files w1)))) as Hunlock.
  { unfold unlock_pdf, handler, unlock_pdf_body.
    cbn [sessionId password session_request]. rewrite Hpw.
    change (truthy (JStr id)) with true. cbn [negb orb]. unfold bind at 1.
    rewrite (getTemporaryFile_present (JStr id) id w1 (buffer file) eq_refl Hread
               ltac:(apply lookup_insert_eq)).
    unfold try_catch, bind, await. rewrite Hopen, Hser.
    change (unlocked_id (JStr id)) with (Normal id'). cbn beta iota zeta.
    rewrite (saveTemporaryFile_string _ _ _ Hsave'). reflexivity. }
  rewrite Hunlock. cbn [fst snd].
  set (w2 := with_files w1 (<[temp_path id' := unlockedPdfBytes]> (files w1))).
  set (body := session_request (JStr id') JUndefined ty).
  assert (session_ready body w2 id' extractedText) as Hready.
  { split; [reflexivity|].
    exists unlockedPdfBytes. repeat split; try assumption. apply lookup_insert_eq. }
  rewrite (process_pdf_run _ _ _ _ Hready).
  change (type body) with ty. rewrite Hmodel, Hparse. cbn [fst snd].
  split; [reflexivity|]. split; [reflexivity|]. split; [reflexivity|].
  unfold consumed. subst body w2 w1.
  cbn [files with_files ticked sessionId session_request].
  split.
  - rewrite lookup_delete_ne by congruence.
    rewrite lookup_insert_ne by congruence. apply lookup_insert_eq.
  - apply lookup_delete_eq.
Qed.

(* ===================================================================== *)
(** ** The prompt builders on texts of every size *)
(* ===================================================================== *)

Lemma date_here_length (s : jsstring) : date_here s = true -> (10 <= length s)%nat.
Proof.
  do 10 (destruct s as [|? s]; [discriminate|]). intros _. simpl. lia.
Qed.

Lemma count_dates_from_bound (s : jsstring) (skip : nat) :
  0 <= count_dates_from skip s
  /\ 10 * count_dates_from skip s <= Z.max 0 (Z.of_nat (length s) - Z.of_nat skip).
Proof.
  revert skip. induction s as [|c s IH]; intros skip.
  - simpl. lia.
  - cbn [count_dates_from]. destruct skip as [|k].
    + destruct (date_here (c :: s)) eqn:D.
      * apply date_here_length in D. simpl in D.
        destruct (IH 9%nat) as [I0 I1]. cbn [length]. lia.
      * destruct (IH 0%nat) as [I0 I1]. cbn [length]. lia.
    + destruct (IH k) as [I0 I1]. cbn [length]. lia.
Qed.

(** X11.  The date expression finds at most one match per ten code units
    of the text.  A statement is told to list only its 50 largest
    transactions when it has more than 200 date matches or more than
    100000 code units, and to list all transactions otherwise, in which
    case the text is embedded whole; a text of at most 2000 code units is
    always of the second kind. *)
Theorem short_statement_lists_all_transactions (text : jsstring) :
  10 * count_dates text <= jslength text
  /\ (200 < count_dates text \/ 100000 < jslength text ->
      getBankStatementPrompt text
      = bank_template_1 ++ lit "Include ONLY the 50 largest transactions"
        ++ bank_template_2 ++ textToAnalyze text ++ bank_template_3)
  /\ (count_dates text <= 200 /\ jslength text <= 100000 \/ jslength text <= 2000 ->
      getBankStatementPrompt text
      = bank_template_1 ++ lit "Include ALL transactions" ++ bank_template_2
        ++ text ++ bank_template_3).
Proof.
  assert (10 * count_dates text <= jslength text) as Hc.
  { unfold count_dates, jslength.
    destruct (count_dates_from_bound text 0) as [_ H]. lia. }
  split; [exact Hc|]. split.
  - intros H. unfold getBankStatementPrompt.
    assert ((200 <? count_dates text) || (100000 <? jslength text) = true) as ->.
    { apply orb_true_iff. destruct H; [left | right]; lia. }
    reflexivity.
  - intros H. unfold getBankStatementPrompt.
    assert ((200 <? count_dates text) = false) as -> by lia.
    assert ((100000 <? jslength text) = false) as -> by lia.
    rewrite textToAnalyze_small by lia. reflexivity.
Qed.

(** X12.  A text of at most 500000 code units is embedded whole in both
    prompts of index.js, and whatever the size of the text the prompt
    stays below a fixed size: at most 3122 code units around the text for
    the bank prompt and 2108 for the credit-card prompt, and 203165
    respectively 202151 code units in all when the text is longer than
    500000. *)
Theorem prompt_size_is_bounded (text : jsstring) :
  (jslength text <= 500000 ->
   contains (getBankStatementPrompt text) text
   /\ getCreditCardPrompt text = credit_template_1 ++ text ++ credit_template_2
   /\ jslength (getBankStatementPrompt text) <= jslength text + 3122
   /\ jslength (getCreditCardPrompt text) = jslength text + 2108)
  /\ (500000 < jslength text ->
      jslength (getBankStatementPrompt text) = 203165
      /\ jslength (getCreditCardPrompt text) = 202151)
  /\ jslength (getBankStatementPrompt text) <= 503122
  /\ jslength (getCreditCardPrompt text) <= 502108.
Proof.
  destruct template_lengths as (L1 & L2 & L3 & L4 & L5 & L6 & L7).
  assert (jslength (lit "Include ALL transactions") = 24) as L8 by reflexivity.
  assert (forall b : bool,
             jslength (if b then lit "Include ONLY the 50 largest transactions"
                       else lit "Include ALL transactions") <= 40) as Hi
    by (intros []; lia).
  assert (jslength text <= 500000 ->
          contains (getBankStatementPrompt text) text
          /\ getCreditCardPrompt text = credit_template_1 ++ text ++ credit_template_2
          /\ jslength (getBankStatementPrompt text) <= jslength text + 3122
          /\ jslength (getCreditCardPrompt text) = jslength text + 2108) as Hsmall.
  { intros H. unfold getBankStatementPrompt, getCreditCardPrompt.
    rewrite textToAnalyze_small by lia.
    pose proof (Hi ((200 <? count_dates text) || (100000 <? jslength text))) as Hinstr.
    set (instr := if (200 <? count_dates text) || (100000 <? jslength text)
                  then lit "Include ONLY the 50 largest transactions"
                  else lit "Include ALL transactions") in *.
    split; [|split; [reflexivity|split]].
    - exists (bank_template_1 ++ instr ++ bank_template_2), bank_template_3.
      rewrite <- !app_assoc. reflexivity.
    - rewrite !jslength_app. lia.
    - rewrite !jslength_app. lia. }
  assert (500000 < jslength text ->
          jslength (getBankStatementPrompt text) = 203165
          /\ jslength (getCreditCardPrompt text) = 202151) as Hbig.
  { intros H. destruct (textToAnalyze_oversized text H) as [_ EL].
    unfold getBankStatementPrompt, getCreditCardPrompt.
    assert ((100000 <? jslength text) = true) as -> by lia.
    rewrite orb_true_r, !jslength_app. lia. }
  split; [exact Hsmall|]. split; [exact Hbig|].
  destruct (Z_le_gt_dec (jslength text) 500000) as [H|H].
  - destruct (Hsmall H) as (_ & _ & A & B). lia.
  - destruct (Hbig ltac:(lia)) as (A & B). lia.
Qed.

Lemma part001_template_lengths :
  jslength Part001.bank_template_1 = 2004 /\ jslength Part001.bank_template_2 = 3 /\
  jslength Part001.credit_template_1 = 1669 /\ jslength Part001.credit_template_2 = 3.
Proof. vm_compute. repeat split. Qed.

(** X13.  The prompt builders of the second sibling version keep 30000
    code units at each end of a text longer than 100000: the prompt
    contains the head window, the omission marker and the tail window, has
    62050 (bank) or 61715 (credit card) code units, and does not contain
    the text.  A text of at most 100000 code units is embedded whole. *)
Theorem part001_prompt_windows (text : jsstring) :
  (100000 < jslength text ->
   forall prompt before after,
     (prompt = Part001.getBankStatementPrompt text
      /\ before = Part001.bank_template_1 /\ after = Part001.bank_template_2)
     \/ (prompt = Part001.getCreditCardPrompt text
         /\ before = Part001.credit_template_1 /\ after = Part001.credit_template_2) ->
     prompt = before
              ++ (substring text 0 (Some 30000)
                  ++ (newline ++ omission_marker ++ newline)
                  ++ substring text (jslength text - 30000) None)
              ++ after
     /\ contains prompt (substring text 0 (Some 30000))
     /\ contains prompt omission_marker
     /\ contains prompt (substring text (jslength text - 30000) None)
     /\ jslength prompt = jslength before + 60043 + jslength after
     /\ ~ contains prompt text)
  /\ (jslength text <= 100000 ->
      Part001.getBankStatementPrompt text
      = Part001.bank_template_1 ++ text ++ Part001.bank_template_2
      /\ Part001.getCreditCardPrompt text
         = Part001.credit_template_1 ++ text ++ Part001.credit_template_2).
Proof.
  destruct part001_template_lengths as (P1 & P2 & P3 & P4).
  destruct template_lengths as (_ & _ & _ & _ & _ & _ & L7).
  split.
  - intros H.
    assert (Part001.textToAnalyze text
            = substring text 0 (Some 30000)
              ++ (newline ++ omission_marker ++ newline)
              ++ substring text (jslength text - 30000) None) as E.
    { unfold Part001.textToAnalyze.
      assert ((100000 <? jslength text) = true) as -> by lia. reflexivity. }
    assert (jslength (Part001.textToAnalyze text) = 60043) as EL.
    { rewrite E, substring_head, substring_tail by lia.
      rewrite !jslength_app, jslength_firstn, jslength_skipn by lia.
      rewrite !jslength_app in L7. lia. }
    assert (forall before after,
               let prompt := before ++ Part001.textToAnalyze text ++ after in
               jslength before + jslength after < 39000 ->
               prompt = before
                        ++ (substring text 0 (Some 30000)
                            ++ (newline ++ omission_marker ++ newline)
                            ++ substring text (jslength text - 30000) None)
                        ++ after
               /\ contains prompt (substring text 0 (Some 30000))
               /\ contains prompt omission_marker
               /\ contains prompt (substring text (jslength text - 30000) None)
               /\ jslength prompt = jslength before + 60043 + jslength after
               /\ ~ contains prompt text) as Hgen.
    { intros before after prompt Hlen. subst prompt.
      assert (jslength (before ++ Part001.textToAnalyze text ++ after)
              = jslength before + 60043 + jslength after) as Hl
        by (rewrite !jslength_app; lia).
      split; [rewrite E; reflexivity|].
      rewrite E in *.
      set (hd := substring text 0 (Some 30000)) in *.
      set (tl := substring text (jslength text - 30000) None) in *.
      repeat split.
      - exists before, ((newline ++ omission_marker ++ newline) ++ tl ++ after).
        rewrite <- !app_assoc. reflexivity.
      - exists (before ++ hd ++ newline), (newline ++ tl ++ after).
        rewrite <- !app_assoc. reflexivity.
      - exists (before ++ hd ++ newline ++ omission_marker ++ newline), after.
        rewrite <- !app_assoc. reflexivity.
      - exact Hl.
      - intros Hc. apply contains_length in Hc. lia. }
    intros prompt before after [(-> & -> & ->) | (-> & -> & ->)].
    + apply (Hgen Part001.bank_template_1 Part001.bank_template_2). lia.
    + apply (Hgen Part001.credit_template_1 Part001.credit_template_2). lia.
  - intros H. unfold Part001.getBankStatementPrompt, Part001.getCreditCardPrompt,
      Part001.textToAnalyze.
    assert ((100000 <? jslength text) = false) as -> by lia. split; reflexivity.
Qed.

(** X14.  The prompt builders of the first sibling version embed a text of
    at most 50000 code units whole, and for every text the prompt has at
    most 51990 (bank) or 51910 (credit card) code units. *)
Theorem part000_prompt_is_capped (text : jsstring) :
  (jslength text <= 50000 ->
   Part000.getBankStatementPrompt text
   = Part000.bank_template_1 ++ text ++ Part000.bank_template_2
   /\ Part000.getCreditCardPrompt text
      = Part000.credit_template_1 ++ text ++ Part000.credit_template_2)
  /\ jslength (Part000.getBankStatementPrompt text) <= 51990
  /\ jslength (Part000.getCreditCardPrompt text) <= 51910
  /\ (exists kept,
        Part000.getBankStatementPrompt text
        = Part000.bank_template_1 ++ kept ++ Part000.bank_template_2
        /\ Part000.getCreditCardPrompt text
           = Part000.credit_template_1 ++ kept ++ Part000.credit_template_2
        /\ exists dropped, text = kept ++ dropped /\ jslength kept <= 50000).
Proof.
  destruct part000_template_lengths as (P1 & P2 & P3 & P4).
  unfold Part000.getBankStatementPrompt, Part000.getCreditCardPrompt.
  rewrite substring_prefix by lia.
  assert (jslength (firstn (Z.to_nat 50000) text) <= 50000) as Hk
    by (unfold jslength; rewrite length_firstn; lia).
  split; [|split; [|split]].
  - intros H. rewrite firstn_all2 by (unfold jslength in H; lia). split; reflexivity.
  - rewrite !jslength_app. lia.
  - rewrite !jslength_app. lia.
  - exists (firstn (Z.to_nat 50000) text). split; [reflexivity|]. split; [reflexivity|].
    exists (skipn (Z.to_nat 50000) text). split; [|exact Hk].
    symmetry. apply firstn_skipn.
Qed.

(* ===================================================================== *)
(** ** What the parser is given *)
(* ===================================================================== *)

Lemma find_first_unfold (pat s : jsstring) :
  find_first pat s
  = if starts_with pat s then Some ([], skipn (length pat) s)
    else match s with
         | [] => None
         | c :: s' =>
             match find_first pat s' with
             | Some (pre, post) => Some (c :: pre, post)
             | None => None
             end
         end.
Proof. destruct s; reflexivity. Qed.

Lemma starts_with_head (pat s : jsstring) (c x : code_unit) :
  x <> c -> starts_with (c :: pat) (x :: s) = false.
Proof.
  intros H. cbn [starts_with]. destruct (N.eqb_spec c x) as [E|E]; [congruence|].
  reflexivity.
Qed.

Lemma find_first_fresh (c : code_unit) (pat pre post : jsstring) :
  c ∉ pre ->
  find_first (c :: pat) (pre ++ (c :: pat) ++ post) = Some (pre, post).
Proof.
  induction pre as [|x pre IH]; intros H.
  - rewrite find_first_unfold. cbn [app].
    assert (starts_with (c :: pat) (c :: pat ++ post) = true) as E
      by (apply starts_with_true; exists post; reflexivity).
    rewrite E. f_equal. f_equal.
    change (c :: pat ++ post) with ((c :: pat) ++ post).
    rewrite skipn_app, skipn_all, Nat.sub_diag. reflexivity.
  - apply not_elem_of_cons in H as [Hx H].
    rewrite find_first_unfold.
    change ((x :: pre) ++ (c :: pat) ++ post) with (x :: (pre ++ (c :: pat) ++ post)).
    rewrite starts_with_head by congruence. rewrite (IH H). reflexivity.
Qed.

Lemma find_first_absent (c : code_unit) (pat s : jsstring) :
  c ∉ s -> find_first (c :: pat) s = None.
Proof.
  induction s as [|x s IH]; intros H.
  - reflexivity.
  - apply not_elem_of_cons in H as [Hx H].
    rewrite find_first_unfold, starts_with_head by congruence.
    rewrite (IH H). reflexivity.
Qed.

Lemma not_elem_of_rev (c : code_unit) (s : jsstring) : c ∉ s -> c ∉ rev s.
Proof.
  intros H Hin. apply H. apply list_elem_of_In. apply in_rev.
  apply list_elem_of_In. exact Hin.
Qed.

Lemma find_last_fresh (c : code_unit) (pre post : jsstring) :
  c ∉ post -> find_last [c] (pre ++ [c] ++ post) = Some (pre, post).
Proof.
  intros H. unfold find_last.
  rewrite !rev_app_distr. cbn [rev app]. rewrite <- app_assoc.
  rewrite (find_first_fresh c [] (rev post) (rev pre) (not_elem_of_rev _ _ H)).
  rewrite !rev_involutive. reflexivity.
Qed.

Lemma trimStart_blank (ws s : jsstring) : blank ws -> trimStart (ws ++ s) = trimStart s.
Proof.
  induction 1 as [|c ws Hc _ IH]; [reflexivity|].
  cbn [app trimStart]. rewrite Hc. exact IH.
Qed.

Lemma blank_rev (ws : jsstring) : blank ws -> blank (rev ws).
Proof.
  unfold blank. rewrite !Forall_forall. intros H c Hin.
  apply H. apply list_elem_of_In. apply in_rev. apply list_elem_of_In. exact Hin.
Qed.

Lemma trim_padded (ws1 payload ws2 : jsstring) :
  blank ws1 -> blank ws2 -> tight payload -> trim (ws1 ++ payload ++ ws2) = payload.
Proof.
  intros H1 H2 Ht. unfold trim, tight in *.
  rewrite trimStart_blank by exact H1.
  destruct payload as [|a p]; [contradiction|].
  destruct (rev (a :: p)) as [|z q] eqn:Er; [contradiction|].
  destruct Ht as [Ha Hz].
  cbn [app trimStart]. rewrite Ha.
  change (a :: p ++ ws2) with ((a :: p) ++ ws2).
  rewrite rev_app_distr, trimStart_blank by (apply blank_rev; exact H2).
  rewrite Er. cbn [trimStart]. rewrite Hz, <- Er. apply rev_involutive.
Qed.

Lemma blank_no_backtick (ws : jsstring) : blank ws -> backtick ∉ ws.
Proof.
  unfold blank. rewrite Forall_forall. intros H Hin.
  specialize (H _ Hin). vm_compute in H. discriminate.
Qed.

(** X15.  A model answer that wraps a payload without backticks in a
    fenced block, after prose without backticks, gives the parser the
    payload itself: the white space around it is stripped and whatever
    follows the closing fence is ignored.  An answer without backticks
    that holds one object between the first [{] and the last [}] gives the
    parser that object, in index.js and in the first sibling version
    alike. *)
Theorem parser_is_given_the_payload {host : Host} (pre mid post : jsstring) :
  (forall ws1 ws2,
      backtick ∉ pre -> backtick ∉ mid -> blank ws1 -> blank ws2 -> tight mid ->
      parse_response (pre ++ fence_open ++ ws1 ++ mid ++ ws2 ++ fence_close ++ post)
      = JSON_parse mid)
  /\ (left_brace ∉ pre -> right_brace ∉ post ->
      (backtick ∉ pre ++ mid ++ post ->
       parse_response (pre ++ brace_open ++ mid ++ brace_close ++ post)
       = JSON_parse (brace_open ++ mid ++ brace_close))
      /\ Part000.parse_response (pre ++ brace_open ++ mid ++ brace_close ++ post)
         = JSON_parse (brace_open ++ mid ++ brace_close)).
Proof.
  split.
  - intros ws1 ws2 Hpre Hmid H1 H2 Ht.
    assert (backtick ∉ ws1 ++ mid ++ ws2) as Hcap.
    { rewrite !not_elem_of_app. auto using blank_no_backtick. }
    assert (match_fenced (pre ++ fence_open ++ ws1 ++ mid ++ ws2 ++ fence_close ++ post)
            = Some (ws1 ++ mid ++ ws2)) as E.
    { unfold match_fenced.
      change fence_open with (backtick :: lit "``json").
      rewrite (find_first_fresh backtick _ pre _ Hpre).
      change fence_close with (backtick :: lit "``").
      replace (ws1 ++ mid ++ ws2 ++ (backtick :: lit "``") ++ post)
        with ((ws1 ++ mid ++ ws2) ++ (backtick :: lit "``") ++ post)
        by (rewrite <- !app_assoc; reflexivity).
      rewrite (find_first_fresh backtick _ _ _ Hcap). reflexivity. }
    unfold parse_response. rewrite E.
    destruct (ws1 ++ mid ++ ws2) as [|c cap] eqn:Ec.
    + apply app_eq_nil in Ec as [_ Ec]. apply app_eq_nil in Ec as [Ec _].
      subst mid. contradiction.
    + rewrite <- Ec, trim_padded by assumption. reflexivity.
  - intros Hl Hr.
    assert (match_braces (pre ++ brace_open ++ mid ++ brace_close ++ post)
            = Some (brace_open ++ mid ++ brace_close)) as E.
    { unfold match_braces.
      change brace_open with [left_brace]. change brace_close with [right_brace].
      rewrite (find_first_fresh left_brace [] pre _ Hl).
      rewrite (find_last_fresh right_brace mid post Hr). reflexivity. }
    split.
    + intros Hb. unfold parse_response. rewrite E.
      assert (match_fenced (pre ++ brace_open ++ mid ++ brace_close ++ post) = None) as ->.
      { unfold match_fenced. change fence_open with (backtick :: lit "``json").
        rewrite find_first_absent; [reflexivity|].
        rewrite !not_elem_of_app in *. destruct Hb as (? & ? & ?).
        repeat split; try assumption; vm_compute; intros Hin;
          repeat (apply elem_of_cons in Hin as [Hin|Hin]; [discriminate|]);
          inversion Hin. }
      reflexivity.
    + unfold Part000.parse_response. rewrite E. reflexivity.
Qed.

(* ===================================================================== *)
(** ** POST /api/generate-report: every outcome *)
(* ===================================================================== *)



(* ===================================================================== *)
(** ** POST /api/check-pdf-url *)
(* ===================================================================== *)

Lemma check_pdf_url_body_downloaded {host : Host} {network : Network}
    (body : UrlBody) (w : World) (response : FetchResponse)
    (bytes : list Byte.byte) (name : jsstring) (size : Number) :
  truthy (pdfUrl body) = true ->
  fetch (pdfUrl body) = Normal response ->
  ok response = true ->
  arrayBuffer response = Normal bytes ->
  fileName body = JStr name ->
  fileSize body = JNum size ->
  check_pdf_url_body body w = check_pdf_body (Some (mkUploadedFile name size bytes)) w.
Proof.
  intros Hurl Hfetch Hok Hbytes Hname Hsize.
  unfold check_pdf_url_body, check_pdf_body. rewrite Hurl. cbn [negb].
  unfold bind at 1, await at 1. rewrite Hfetch, Hok. cbn [negb].
  unfold bind at 1, await at 1. rewrite Hbytes, Hname, Hsize. reflexivity.
Qed.

(** X17.  The URL route is the upload route after a download.  Without a
    URL it answers 400 and does nothing.  A [fetch] that throws, a
    response that is not [ok] and a body that cannot be read are each
    answered 500 ['Failed to check PDF'] with no file written.  After a
    download, the answer, the files and the clock are those of
    [/api/check-pdf] on an upload with the same bytes, name and size; the
    whole world is the same whenever the answer is 200. *)
Theorem check_pdf_url_is_check_pdf {host : Host} {network : Network}
    (body : UrlBody) (w : World) :
  (truthy (pdfUrl body) = false ->
   check_pdf_url body w = (json 400 [("error", str "No PDF URL provided")], w))
  /\ (truthy (pdfUrl body) = true ->
      let fails error :=
        check_pdf_url body w
        = (json 500 [("error", str "Failed to check PDF"); ("details", message_of error)],
           logged w "Error checking PDF from URL:" (LogError error)) in
      (forall error, fetch (pdfUrl body) = Throw error -> fails error)
      /\ (forall response,
             fetch (pdfUrl body) = Normal response ->
             (ok response = false ->
              fails (new_Error "Failed to download PDF from Firebase"))
             /\ (ok response = true ->
                 (forall error, arrayBuffer response = Throw error -> fails error)
                 /\ (forall bytes name size,
                        arrayBuffer response = Normal bytes ->
                        fileName body = JStr name ->
                        fileSize body = JNum size ->
                        let upload := check_pdf (Some (mkUploadedFile name size bytes)) w in
                        fst (check_pdf_url body w) = fst upload
                        /\ files (snd (check_pdf_url body w)) = files (snd upload)
                        /\ tick (snd (check_pdf_url body w)) = tick (snd upload)
                        /\ (statusCode (fst upload) = 200 ->
                            check_pdf_url body w = upload))))).
Proof.
  split.
  - intros Hurl. unfold check_pdf_url, handler, check_pdf_url_body.
    rewrite Hurl. reflexivity.
  - intros Hurl fails. unfold fails. split; [|intros response Hfetch; split; [|intros Hok; split]].
    + intros error Hfetch. unfold check_pdf_url, handler, check_pdf_url_body.
      rewrite Hurl. cbn [negb]. unfold bind at 1, await at 1. rewrite Hfetch.
      reflexivity.
    + intros Hok. unfold check_pdf_url, handler, check_pdf_url_body.
      rewrite Hurl. cbn [negb]. unfold bind at 1, await at 1. rewrite Hfetch, Hok.
      reflexivity.
    + intros error Hbytes. unfold check_pdf_url, handler, check_pdf_url_body.
      rewrite Hurl. cbn [negb]. unfold bind at 1, await at 1. rewrite Hfetch, Hok.
      cbn [negb]. unfold bind at 1, await at 1. rewrite Hbytes. reflexivity.
    + intros bytes name size Hbytes Hname Hsize. cbv zeta.
      unfold check_pdf_url, check_pdf, handler.
      rewrite (check_pdf_url_body_downloaded body w response bytes name size)
        by assumption.
      destruct (check_pdf_body (Some (mkUploadedFile name size bytes)) w) as [[r|e] w'].
      * repeat split.
      * repeat split. cbn. discriminate.
Qed.

(* ===================================================================== *)
(** ** The hourly sweep *)
(* ===================================================================== *)

Lemma sweep_files_cons {host : Host} {directory : Directory} (tempDir : jsstring)
    (now : Z) (file : jsstring) (rest : list jsstring) (w : World) :
  sweep_files tempDir now (file :: rest) w
  = match files w !! path_join tempDir file with
    | None => (Throw ENOENT, w)
    | Some _ =>
        match mtimeMs (path_join tempDir file) with
        | Throw e => (Throw e, w)
        | Normal mtime =>
            if 3600000 <? now - mtime then
              match disk_fault Unlink (path_join tempDir file) with
              | Some e => (Throw e, w)
              | None =>
                  sweep_files tempDir now rest
                    (with_files w (delete (path_join tempDir file) (files w)))
              end
            else sweep_files tempDir now rest w
        end
    end.
Proof.
  cbn [sweep_files]. unfold bind, fs_stat, fs_unlink, fs_call, ret, throw.
  destruct (files w !! path_join tempDir file) eqn:Ef; [|reflexivity].
  destruct (mtimeMs (path_join tempDir file)); [|reflexivity].
  destruct (3600000 <? now - a); [|reflexivity].
  destruct (disk_fault Unlink (path_join tempDir file)); [reflexivity|].
  rewrite Ef. reflexivity.
Qed.

Lemma sweep_files_app {host : Host} {directory : Directory} (tempDir : jsstring)
    (now : Z) (before after : list jsstring) (w : World) :
  sweep_files tempDir now (before ++ after) w
  = match sweep_files tempDir now before w with
    | (Normal _, w') => sweep_files tempDir now after w'
    | (Throw e, w') => (Throw e, w')
    end.
Proof.
  revert w. induction before as [|file before IH]; intros w; [reflexivity|].
  change ((file :: before) ++ after) with (file :: (before ++ after)).
  rewrite !sweep_files_cons.
  destruct (files w !! path_join tempDir file); [|reflexivity].
  destruct (mtimeMs (path_join tempDir file)); [|reflexivity].
  destruct (3600000 <? now - a); [|apply IH].
  destruct (disk_fault Unlink (path_join tempDir file)); [reflexivity|apply IH].
Qed.

Lemma sweep_files_footprint {host : Host} {directory : Directory} (tempDir : jsstring)
    (now : Z) (listing : list jsstring) (w : World) :
  errors_logged (snd (sweep_files tempDir now listing w)) = errors_logged w
  /\ tick (snd (sweep_files tempDir now listing w)) = tick w
  /\ forall p,
      files (snd (sweep_files tempDir now listing w)) !! p = files w !! p
      \/ (files (snd (sweep_files tempDir now listing w)) !! p = None
          /\ is_Some (files w !! p)
          /\ p ∈ listed tempDir listing
          /\ expired now p = true
          /\ disk_fault Unlink p = None).
Proof.
  revert w. induction listing as [|file rest IH]; intros w.
  - cbn. auto.
  - rewrite sweep_files_cons.
    destruct (files w !! path_join tempDir file) as [data|] eqn:Ef; [|cbn; auto].
    destruct (mtimeMs (path_join tempDir file)) as [mtime|e] eqn:Em; [|cbn; auto].
    destruct (3600000 <? now - mtime) eqn:Eo.
    + destruct (disk_fault Unlink (path_join tempDir file)) as [e|] eqn:Eu; [cbn; auto|].
      destruct (IH (with_files w (delete (path_join tempDir file) (files w))))
        as (IL & IT & IF).
      split; [exact IL|]. split; [exact IT|].
      intros p. cbn [files with_files] in IF.
      destruct (decide (p = path_join tempDir file)) as [->|Hne].
      * right. repeat split.
        -- destruct (IF (path_join tempDir file)) as [E|(E & _)]; [|exact E].
           rewrite E. apply lookup_delete_eq.
        -- rewrite Ef. eexists. reflexivity.
        -- unfold listed. cbn [List.map]. left.
        -- unfold expired. rewrite Em. exact Eo.
        -- exact Eu.
      * destruct (IF p) as [E|(E & Hs & Hl & He & Hu)].
        -- left. rewrite E. apply lookup_delete_ne. congruence.
        -- right. repeat split; try assumption.
           ++ rewrite lookup_delete_ne in Hs by congruence. exact Hs.
           ++ unfold listed in *. cbn [List.map]. right. exact Hl.
    + destruct (IH w) as (IL & IT & IF).
      split; [exact IL|]. split; [exact IT|].
      intros p. destruct (IF p) as [E|(E & Hs & Hl & He & Hu)]; [left; exact E|].
      right. repeat split; try assumption.
      unfold listed in *. cbn [List.map]. right. exact Hl.
Qed.

Lemma sweep_run {host : Host} {directory : Directory} (w : World) :
  sweep w
  = match sweep_files temp_dir (Date_now (tick w))
            (match readdir w temp_dir with Normal names => names | Throw _ => [] end)
            (ticked w) with
    | (Normal _, w') => (Normal tt, w')
    | (Throw e, w') => (Normal tt, logged w' "Cleanup error:" (LogError e))
    end.
Proof.
  unfold sweep, try_catch, bind, next_tick, console_error, temp_dir, ticked, logged.
  destruct (readdir w (path_join_dirname [lit "temp"])) as [names|e]; cbn [tick];
    match goal with
    | |- context [sweep_files ?d ?n ?l ?w0] =>
        destruct (sweep_files d n l w0) as [[[]|e'] w']
    end; reflexivity.
Qed.

(** X18.  The sweep never throws, whatever the directory and the disk
    do, and reads the clock once.  It writes no file and changes none: a
    file that is gone afterwards was listed by [readdir], was last written
    more than an hour (3600000 ms) before the clock reading, and its
    [unlink] was accepted.  It logs at most one ['Cleanup error:'].  When
    [readdir] rejects, nothing is deleted and nothing is logged. *)
Theorem sweep_deletes_only_expired_files {host : Host} {directory : Directory}
    (w : World) :
  fst (sweep w) = Normal tt
  /\ tick (snd (sweep w)) = S (tick w)
  /\ (errors_logged (snd (sweep w)) = errors_logged w
      \/ exists error,
          errors_logged (snd (sweep w))
          = errors_logged w ++ [(lit "Cleanup error:", LogError error)])
  /\ (forall p,
         files (snd (sweep w)) !! p = files w !! p
         \/ (files (snd (sweep w)) !! p = None
             /\ is_Some (files w !! p)
             /\ (exists listing, readdir w temp_dir = Normal listing
                                 /\ p ∈ listed temp_dir listing)
             /\ expired (Date_now (tick w)) p = true
             /\ disk_fault Unlink p = None))
  /\ (forall error, readdir w temp_dir = Throw error -> sweep w = (Normal tt, ticked w)).
Proof.
  rewrite sweep_run.
  set (listing := match readdir w temp_dir with Normal names => names | Throw _ => [] end).
  destruct (sweep_files_footprint temp_dir (Date_now (tick w)) listing (ticked w))
    as (HL & HT & HF).
  assert (forall p, p ∈ listed temp_dir listing ->
                    exists l, readdir w temp_dir = Normal l /\ p ∈ listed temp_dir l) as Hlist.
  { intros p Hp. subst listing. destruct (readdir w temp_dir) as [names|e].
    - exists names. split; [reflexivity | exact Hp].
    - cbn in Hp. inversion Hp. }
  assert (forall error, readdir w temp_dir = Throw error -> listing = []) as Hnone
    by (intros error E; subst listing; rewrite E; reflexivity).
  destruct (sweep_files temp_dir (Date_now (tick w)) listing (ticked w))
    as [[[]|e] w'] eqn:Es; cbn [fst snd logged files tick errors_logged] in *.
  - repeat split; [exact HT | left; exact HL | | ].
    + intros p. destruct (HF p) as [E|(E & Hs & Hl & He & Hu)]; [left; exact E|].
      right. repeat split; auto.
    + intros error E. rewrite (Hnone error E) in Es. cbn [sweep_files] in Es. unfold ret in Es.
      congruence.
  - repeat split; [exact HT | right; exists e; rewrite HL; reflexivity | | ].
    + intros p. destruct (HF p) as [E|(E & Hs & Hl & He & Hu)]; [left; exact E|].
      right. repeat split; auto.
    + intros error E. rewrite (Hnone error E) in Es. cbn [sweep_files] in Es. unfold ret in Es.
      congruence.
Qed.

Lemma sweep_files_ok {host : Host} {directory : Directory} (tempDir : jsstring)
    (now : Z) (listing : list jsstring) (w : World) :
  NoDup (listed tempDir listing) ->
  (forall p, p ∈ listed tempDir listing ->
             is_Some (files w !! p)
             /\ (exists mtime, mtimeMs p = Normal mtime)
             /\ disk_fault Unlink p = None) ->
  exists kept,
    sweep_files tempDir now listing w = (Normal tt, with_files w kept)
    /\ forall p,
        kept !! p
        = if bool_decide (p ∈ listed tempDir listing) && expired now p
          then None else files w !! p.
Proof.
  revert w. induction listing as [|file rest IH]; intros w Hnd Hok.
  - exists (files w). split; [destruct w; reflexivity|].
    intros p. cbn [listed List.map].
    rewrite bool_decide_eq_false_2 by (intros Hin; inversion Hin). reflexivity.
  - unfold listed in Hnd, Hok. cbn [List.map] in Hnd, Hok.
    apply NoDup_cons in Hnd as [Hfresh Hnd].
    destruct (Hok (path_join tempDir file)) as ([data Ef] & [mtime Em] & Eu); [left|].
    rewrite sweep_files_cons, Ef, Em, Eu.
    assert (forall p, (bool_decide (p ∈ listed tempDir (file :: rest)))
                      = bool_decide (p = path_join tempDir file)
                        || bool_decide (p ∈ listed tempDir rest)) as Hmem.
    { intros p. unfold listed. cbn [List.map].
      destruct (decide (p = path_join tempDir file)) as [->|Hne].
      - rewrite !bool_decide_eq_true_2 by (reflexivity || left). reflexivity.
      - rewrite (bool_decide_eq_false_2 (p = _)) by exact Hne. cbn [orb].
        apply bool_decide_ext. rewrite elem_of_cons. tauto. }
    destruct (3600000 <? now - mtime) eqn:Eo.
    + destruct (IH (with_files w (delete (path_join tempDir file) (files w))) Hnd)
        as (kept & Erun & Hkept).
      { intros p Hp. destruct (Hok p) as (Hs & Hm & Hu); [right; exact Hp|].
        repeat split; try assumption. cbn [files with_files].
        rewrite lookup_delete_ne; [exact Hs|]. intros Heq. subst p. exact (Hfresh Hp). }
      exists kept. split; [rewrite Erun; reflexivity|].
      intros p. rewrite Hkept, Hmem. cbn [files with_files].
      destruct (decide (p = path_join tempDir file)) as [->|Hne].
      * rewrite (bool_decide_eq_true_2 (_ = _)) by reflexivity.
        rewrite (bool_decide_eq_false_2 _ Hfresh). cbn [orb andb].
        unfold expired. rewrite Em, Eo. apply lookup_delete_eq.
      * rewrite (bool_decide_eq_false_2 (p = _)) by exact Hne. cbn [orb].
        rewrite lookup_delete_ne by congruence. reflexivity.
    + destruct (IH w Hnd) as (kept & Erun & Hkept).
      { intros p Hp. apply Hok. right. exact Hp. }
      exists kept. split; [exact Erun|].
      intros p. rewrite Hkept, Hmem.
      destruct (decide (p = path_join tempDir file)) as [->|Hne].
      * rewrite (bool_decide_eq_true_2 (_ = _)) by reflexivity.
        rewrite (bool_decide_eq_false_2 _ Hfresh). cbn [orb andb].
        unfold expired. rewrite Em, Eo. reflexivity.
      * rewrite (bool_decide_eq_false_2 (p = _)) by exact Hne. reflexivity.
Qed.

(** X19.  On a directory and a disk without faults the sweep deletes
    exactly the expired files: when [readdir] lists each file once, every
    listed file is there and its [stat] and [unlink] are accepted, the
    sweep logs nothing and leaves a store in which a path is gone when it
    is listed and was last written more than an hour before the clock
    reading, and is as it was otherwise. *)
Theorem sweep_deletes_every_expired_file {host : Host} {directory : Directory}
    (w : World) (listing : list jsstring) :
  readdir w temp_dir = Normal listing ->
  NoDup (listed temp_dir listing) ->
  (forall p, p ∈ listed temp_dir listing ->
             is_Some (files w !! p)
             /\ (exists mtime, mtimeMs p = Normal mtime)
             /\ disk_fault Unlink p = None) ->
  exists kept,
    sweep w = (Normal tt, with_files (ticked w) kept)
    /\ (forall p,
           kept !! p
           = if bool_decide (p ∈ listed temp_dir listing)
                && expired (Date_now (tick w)) p
             then None else files w !! p)
    /\ (forall p d, files w !! p = Some d -> expired (Date_now (tick w)) p = false ->
                    kept !! p = Some d).
Proof.
  intros Hdir Hnd Hok. rewrite sweep_run, Hdir.
  destruct (sweep_files_ok temp_dir (Date_now (tick w)) listing (ticked w) Hnd Hok)
    as (kept & Erun & Hkept).
  exists kept. rewrite Erun. split; [reflexivity|]. split; [exact Hkept|].
  intros p d Hp He. rewrite Hkept, He, andb_false_r. exact Hp.
Qed.

(** X20.  One fault ends the sweep.  When [readdir] lists a path the
    sweep cannot get past (the file is no longer there, its [stat]
    rejects, or it is expired and its [unlink] rejects), exactly one
    ['Cleanup error:'] is logged and every file that is not listed before
    that path is left as it was, expired or not. *)
Theorem sweep_stops_at_first_fault {host : Host} {directory : Directory}
    (w : World) (before after : list jsstring) (file : jsstring) :
  readdir w temp_dir = Normal (before ++ file :: after) ->
  blocks_sweep w (Date_now (tick w)) (path_join temp_dir file) ->
  (exists error,
      errors_logged (snd (sweep w))
      = errors_logged w ++ [(lit "Cleanup error:", LogError error)])
  /\ (forall p, p ∉ listed temp_dir before ->
                files (snd (sweep w)) !! p = files w !! p).
Proof.
  intros Hdir Hblock. rewrite sweep_run, Hdir, sweep_files_app.
  destruct (sweep_files_footprint temp_dir (Date_now (tick w)) before (ticked w))
    as (HL & HT & HF).
  assert (forall p, p ∉ listed temp_dir before ->
                    files (snd (sweep_files temp_dir (Date_now (tick w)) before (ticked w)))
                      !! p = files w !! p) as Hkeep.
  { intros p Hp. destruct (HF p) as [E|(_ & _ & Hin & _)]; [exact E | contradiction]. }
  destruct (sweep_files temp_dir (Date_now (tick w)) before (ticked w))
    as [[[]|e] w1]; cbn [fst snd files tick errors_logged ticked] in *.
  2:{ cbn [fst snd logged files errors_logged].
      split; [exists e; rewrite HL; reflexivity | exact Hkeep]. }
  assert (exists e, sweep_files temp_dir (Date_now (tick w)) (file :: after) w1
                    = (Throw e, w1)) as [e ->].
  { rewrite sweep_files_cons.
    destruct (files w1 !! path_join temp_dir file) as [data|] eqn:Ef;
      [|eexists; reflexivity].
    destruct Hblock as [Hgone | [[error Hstat] | [Hold [error Hunlink]]]].
    - destruct (HF (path_join temp_dir file)) as [E|(E & _)]; congruence.
    - rewrite Hstat. eexists. reflexivity.
    - unfold expired in Hold.
      destruct (mtimeMs (path_join temp_dir file)) as [mtime|e0]; [|discriminate].
      rewrite Hold, Hunlink. eexists. reflexivity. }
  cbn [fst snd logged files errors_logged].
  split; [exists e; rewrite HL; reflexivity | exact Hkeep].
Qed.

(* ===================================================================== *)
(** ** Which failures reach the 500 answer *)
(* ===================================================================== *)

Lemma getTemporaryFile_result {host : Host} (sessionId : Json) (w : World) :
  exists found, fst (getTemporaryFile sessionId w) = Normal found.
Proof.
  unfold getTemporaryFile. unfold_store. unfold cbind. unfold_js.
  cases; eexists; reflexivity.
Qed.

Lemma length_of_truthy {host : Host} (v : Json) :
  truthy v = true -> exists textLength, length_of v = Normal textLength.
Proof.
  destruct v; try discriminate; intros _; eexists; reflexivity.
Qed.

(** X21.  Which requests the analysis routes answer with 500.  A parse
    failure never does.  In index.js [/api/analyze-text] answers 500
    exactly when the text is truthy and one of its steps throws: the
    comparison of [text.length] with 150000, the printing of [text.length],
    the prompt builder, or the model call; for a text that is a string
    only the model call can, so the answer is 500 exactly when the text is
    not empty and the model call throws.  [/api/process-pdf] answers 500
    exactly when the stored file is read and the text extraction or the
    model call throws.  In the second sibling version [/api/analyze-text]
    answers 500 exactly when the text is truthy and the prompt builder
    throws, hence never for a text that is a string, and
    [/api/process-pdf] exactly when the text extraction throws. *)
Theorem failures_answered_500 {host : Host} (body : Body) (w : World) :
  (statusCode (fst (analyze_text body w)) = 500
   <-> truthy (text body) = true
       /\ exists error,
           longer_than (text body) 150000 = Throw error
           \/ (exists textLength,
                  length_of (text body) = Normal textLength
                  /\ ToString textLength = Throw error)
           \/ choose_prompt_js (documentType body) (text body) = Throw error
           \/ (exists large prompt,
                  longer_than (text body) 150000 = Normal large
                  /\ choose_prompt_js (documentType body) (text body) = Normal prompt
                  /\ generateContent (model_config large) prompt = Throw error))
  /\ (forall t,
        text body = JStr t ->
        statusCode (fst (analyze_text body w)) = 500
        <-> t <> [] /\ exists error, model_answer (documentType body) t = Throw error)
  /\ (statusCode (fst (process_pdf body w)) = 500
      <-> exists pdfBuffer,
           fst (getTemporaryFile (sessionId body) w) = Normal (Some pdfBuffer)
           /\ ((exists error, pdf pdfBuffer = Throw error)
               \/ exists t error,
                   pdf pdfBuffer = Normal t
                   /\ model_answer (type body) t = Throw error))
  /\ (statusCode (fst (Part001.analyze_text body w)) = 500
      <-> truthy (text body) = true
          /\ exists error,
              Part001.choose_prompt_js (documentType body) (text body) = Throw error)
  /\ (forall t,
        text body = JStr t -> statusCode (fst (Part001.analyze_text body w)) <> 500)
  /\ (statusCode (fst (Part001.process_pdf body w)) = 500
      <-> exists pdfBuffer error,
           fst (getTemporaryFile (sessionId body) w) = Normal (Some pdfBuffer)
           /\ pdf pdfBuffer = Throw error).
Proof.
  split; [|split; [|split; [|split; [|split]]]].
  - unfold analyze_text, handler, analyze_text_body. cbv zeta.
    destruct (truthy (text body)) eqn:Ht; cbn [negb].
    2:{ unfold ret. cbn [fst statusCode json].
        split; [discriminate | intros [H _]; discriminate]. }
    destruct (length_of_truthy _ Ht) as [textLength El].
    unfold bind, await. rewrite El.
    destruct (longer_than (text body) 150000) as [large|e1] eqn:E1.
    2:{ cbn [fst statusCode json]. split; [intros _ | reflexivity].
        split; [reflexivity|]. exists e1. left. reflexivity. }
    destruct (ToString textLength) as [printed|e2] eqn:E2.
    2:{ cbn [fst statusCode json]. split; [intros _ | reflexivity].
        split; [reflexivity|]. exists e2. right. left.
        exists textLength. split; [reflexivity | exact E2]. }
    destruct (choose_prompt_js (documentType body) (text body)) as [prompt|e3] eqn:E3.
    2:{ cbn [fst statusCode json]. split; [intros _ | reflexivity].
        split; [reflexivity|]. exists e3. right. right. left. reflexivity. }
    destruct (generateContent (model_config large) prompt) as [analysisText|e4] eqn:E4.
    2:{ cbn [fst statusCode json]. split; [intros _ | reflexivity].
        split; [reflexivity|]. exists e4. right. right. right.
        exists large, prompt. repeat split. exact E4. }
    unfold try_catch, log_parse_failure, console_error, bind, await, ret.
    destruct (parse_response analysisText) as [parsed|parseError];
      cbn [fst statusCode json];
      (split; [discriminate|]);
      intros (_ & error & [H | [(len & Hl & H) | [H | (large' & prompt' & Hl & Hp & Hg)]]]);
      congruence.
  - intros t Ht. destruct t as [|c rest].
    + unfold analyze_text, handler, analyze_text_body. rewrite Ht.
      cbn [truthy negb]. unfold ret. cbn [fst statusCode json].
      split; [discriminate | intros [H _]; congruence].
    + rewrite (analyze_text_run body w c rest Ht).
      destruct (model_answer (documentType body) (c :: rest)) as [analysisText|e] eqn:Em.
      * destruct (parse_response analysisText); cbn [fst statusCode json success_body];
          (split; [discriminate | intros (_ & error & H); discriminate]).
      * cbn [fst statusCode json]. split; [intros _ | reflexivity].
        split; [discriminate | exists e; reflexivity].
  - unfold process_pdf, handler, process_pdf_body, model_answer. unfold bind at 1.
    cbn beta.
    destruct (getTemporaryFile_result (sessionId body) w) as [found Ef].
    destruct (getTemporaryFile (sessionId body) w) as [c w1]. cbn [fst] in Ef. subst c.
    destruct found as [pdfBuffer|].
    2:{ unfold ret. cbn [fst statusCode json].
        split; [discriminate | intros (b & Hb & _); discriminate]. }
    unfold bind at 1, await at 1.
    destruct (pdf pdfBuffer) as [t|e] eqn:Ep.
    2:{ cbn [fst statusCode json]. split; [intros _ | reflexivity].
        exists pdfBuffer. split; [reflexivity | left; exists e; exact Ep]. }
    unfold bind at 1.
    destruct (deleteTemporaryFile (sessionId body) w1) as [[[]|e] w2] eqn:Ed.
    2:{ exfalso. revert Ed. unfold deleteTemporaryFile. unfold_store. unfold cbind.
        unfold_js. cases; discriminate. }
    unfold bind at 1, await at 1.
    destruct (generateContent _ _) as [analysisText|e] eqn:Eg.
    + unfold_js. destruct (parse_response analysisText) as [parsed|parseError];
        cbn [fst statusCode json];
        (split; [discriminate
                | intros (b & Hb & [[error He] | (t' & error & Ht & Hm)])]);
        injection Hb as <-; congruence.
    + cbn [fst statusCode json]. split; [intros _ | reflexivity].
      exists pdfBuffer.
      split; [reflexivity | right; exists t, e; split; [exact Ep | exact Eg]].
  - unfold Part001.analyze_text, handler, Part001.analyze_text_body. cbv zeta.
    destruct (truthy (text body)) eqn:Ht; cbn [negb].
    2:{ unfold ret. cbn [fst statusCode json].
        split; [discriminate | intros [H _]; discriminate]. }
    destruct (length_of_truthy _ Ht) as [textLength El].
    unfold bind at 1, await at 1. rewrite El. unfold bind at 1, await at 1.
    destruct (Part001.choose_prompt_js (documentType body) (text body))
      as [prompt|e] eqn:Ep.
    2:{ cbn [fst statusCode json]. split; [intros _ | reflexivity].
        split; [reflexivity | exists e; reflexivity]. }
    unfold_js. cases; cbn [fst statusCode json];
      (split; [discriminate | intros (_ & error & H); discriminate]).
  - intros t Ht. destruct t as [|c rest].
    + unfold Part001.analyze_text, handler, Part001.analyze_text_body. rewrite Ht.
      cbn [truthy negb]. unfold ret. cbn [fst statusCode json]. discriminate.
    + rewrite (part001_analyze_text_run body w c rest Ht).
      cases; cbn [fst statusCode json success_body]; discriminate.
  - unfold Part001.process_pdf, handler, Part001.process_pdf_body. unfold bind at 1.
    cbn beta.
    destruct (getTemporaryFile_result (sessionId body) w) as [found Ef].
    destruct (getTemporaryFile (sessionId body) w) as [c w1]. cbn [fst] in Ef. subst c.
    destruct found as [pdfBuffer|].
    2:{ unfold ret. cbn [fst statusCode json].
        split; [discriminate | intros (b & e & Hb & _); discriminate]. }
    unfold bind at 1, await at 1.
    destruct (pdf pdfBuffer) as [t|e] eqn:Ep.
    2:{ cbn [fst statusCode json]. split; [intros _ | reflexivity].
        exists pdfBuffer, e. split; [reflexivity | exact Ep]. }
    unfold bind at 1.
    destruct (deleteTemporaryFile (sessionId body) w1) as [[[]|e] w2] eqn:Ed.
    2:{ exfalso. revert Ed. unfold deleteTemporaryFile. unfold_store. unfold cbind.
        unfold_js. cases; discriminate. }
    unfold_js. cases; cbn [fst statusCode json];
      (split; [discriminate | intros (b & error & Hb & He)]);
      injection Hb as <-; congruence.
Qed.

(** A text that is no string can reach the 500 answer without any call of
    the model: an object whose [length] exceeds the threshold makes the
    prompt builder of the second sibling version call [text.substring],
    and any truthy text that is no string makes the bank prompt builder of
    index.js call [text.match]. *)
Example text_that_is_no_string_gets_500 :
  fst (@Part001.analyze_text echo_host
         (mkBody (obj [("length", JNum 100001)]) (str "bank") JUndefined JUndefined
            JUndefined JUndefined)
         empty_world)
  = json 500 [("error", str "Failed to analyze document");
              ("details", str "text.substring is not a function")]
  /\ fst (@analyze_text echo_host
            (mkBody (JBool true) (str "bank") JUndefined JUndefined JUndefined JUndefined)
            empty_world)
     = json 500 [("error", str "Failed to analyze document");
                 ("details", str "text.match is not a function")].
Proof. vm_compute. repeat split. Qed.

(* ===================================================================== *)
(** ** The theorems at sample inputs *)
(* ===================================================================== *)

(** X1 on the sample host: the sample PDF saved under [s1] in the empty
    world is the buffer loaded under [s1]. *)
Lemma saved_file_is_loaded_witness :
  (@saveTemporaryFile echo_host (str "s1") sample_pdf ;;
   @getTemporaryFile echo_host (str "s1")) empty_world
  = (Normal (Some sample_pdf),
     with_files empty_world
       (<[@temp_path echo_host (lit "s1") := sample_pdf]> (files empty_world))).
Proof.
  assert (@can_save echo_host (lit "s1")) as Hsave by (split; reflexivity).
  assert (@disk_fault echo_host ReadFile (@temp_path echo_host (lit "s1")) = None) as Hread
    by reflexivity.
  destruct (@saved_file_is_loaded echo_host (str "s1") (lit "s1") sample_pdf empty_world
              eq_refl Hsave Hread)
    as [H _].
  exact H.
Defined.

(** X2 on the sample host: deleting under [s2] leaves the file of [s1]. *)
Lemma store_touches_one_file_witness :
  files (snd (@deleteTemporaryFile echo_host (str "s2") world_with_s1))
    !! lit "/app/temp/s1.pdf"
  = files world_with_s1 !! lit "/app/temp/s1.pdf".
Proof.
  destruct (@store_touches_one_file echo_host (str "s2") sample_pdf world_with_s1)
    as [H _].
  apply (H (lit "/app/temp/s1.pdf")).
  intros name Hname. injection Hname as <-. vm_compute. discriminate.
Defined.

(** X3 in the world that holds [s1]: after the deletion the file is not
    found. *)
Lemma deleted_file_is_gone_witness :
  (@deleteTemporaryFile echo_host (str "s1") ;;
   @getTemporaryFile echo_host (str "s1")) world_with_s1
  = (Normal None,
     logged (with_files world_with_s1
               (delete (@temp_path echo_host (lit "s1")) (files world_with_s1)))
       "File not found:" (LogValue (str "s1"))).
Proof.
  assert (files world_with_s1 !! @temp_path echo_host (lit "s1") = Some sample_pdf)
    as Hfile by reflexivity.
  assert (@disk_fault echo_host Unlink (@temp_path echo_host (lit "s1")) = None) as Hunlink
    by reflexivity.
  destruct (@deleted_file_is_gone echo_host (str "s1") (lit "s1") world_with_s1 sample_pdf
              eq_refl Hfile Hunlink) as [H _].
  exact H.
Defined.

(** X6 in the world that holds [s1]: a request to process [s2] leaves the
    file of [s1], and a request to unlock [s1] leaves the locked file of
    [s1] with its bytes. *)
Lemma handlers_footprint_witness :
  files (snd (@process_pdf fenced_host (process_request "s2" (str "bank")) world_with_s1))
    !! lit "/app/temp/s1.pdf"
  = files world_with_s1 !! lit "/app/temp/s1.pdf"
  /\ files (snd (@unlock_pdf fenced_host
                   (session_request (str "s1") (str "secret") JUndefined) world_with_s1))
       !! lit "/app/temp/s1.pdf"
     = Some sample_pdf.
Proof.
  split.
  - destruct (@handlers_footprint fenced_host (process_request "s2" (str "bank")) None
                world_with_s1) as (_ & _ & _ & _ & _ & _ & H).
    apply (H (lit "/app/temp/s1.pdf")).
    intros name Hname. injection Hname as <-. vm_compute. discriminate.
  - destruct (@handlers_footprint fenced_host
                (session_request (str "s1") (str "secret") JUndefined) None
                world_with_s1) as (_ & _ & _ & _ & _ & H & _).
    apply (H (lit "s1") sample_pdf).
    + reflexivity.
    + vm_compute. discriminate.
    + reflexivity.
Defined.

(** X7 for the sample upload: the answer is 200 and the upload is stored. *)
Lemma check_pdf_200_means_stored_witness :
  statusCode (fst (@check_pdf echo_host (Some sample_upload) empty_world)) = 200
  /\ exists id,
      files (snd (@check_pdf echo_host (Some sample_upload) empty_world))
        !! @temp_path echo_host id = Some sample_pdf.
Proof.
  assert (statusCode (fst (@check_pdf echo_host (Some sample_upload) empty_world)) = 200)
    as H200 by reflexivity.
  split; [exact H200|].
  destruct (@check_pdf_200_means_stored echo_host sample_upload empty_world H200)
    as (id & required & _ & Hstored & _).
  exists id. exact Hstored.
Defined.

(** X8 on a host whose extractor rejects the file: the answer is 500 and
    the file of [s1] is still there. *)
Lemma process_pdf_early_failure_keeps_session_witness :
  @process_pdf broken_pdf_host (process_request "s1" (str "bank")) world_with_s1
  = (json 500 [("error", str "Failed to process PDF");
               ("details", str "Invalid PDF structure")],
     logged world_with_s1 "Error processing PDF:"
       (LogError (new_Error "Invalid PDF structure"))).
Proof.
  assert (files world_with_s1 !! @temp_path broken_pdf_host (lit "s1")
          = Some sample_pdf) as Hfile by reflexivity.
  destruct (@process_pdf_early_failure_keeps_session broken_pdf_host
              (process_request "s1" (str "bank")) (lit "s1") world_with_s1 sample_pdf
              eq_refl Hfile)
    as (_ & H & _).
  apply (H (new_Error "Invalid PDF structure")); reflexivity.
Defined.

(** X9 on a host whose model answers in a fenced block: the upload is
    checked, then processed under the id of the first answer. *)
Lemma check_then_process_witness :
  @process_pdf fenced_host
    (session_request (JStr (@session_id_at fenced_host 0)) JUndefined (str "bank"))
    (snd (@check_pdf fenced_host (Some sample_upload) empty_world))
  = (success_body (JObj []) (str "bank") (lit "01/02/2024 COFFEE 120"),
     with_files (ticked empty_world)
       (delete (@temp_path fenced_host (@session_id_at fenced_host 0))
          (files empty_world))).
Proof.
  assert (@parse_response fenced_host fenced_answer = Normal (JObj [])) as Hparse
    by (vm_compute; reflexivity).
  assert (@session_disk_ok fenced_host (@session_id_at fenced_host (tick empty_world)))
    as Hdisk by (repeat split).
  destruct (@check_then_process fenced_host sample_upload empty_world (str "bank")
              sample_pdf (lit "01/02/2024 COFFEE 120") fenced_answer (JObj [])
              eq_refl Hdisk eq_refl eq_refl Hparse) as (_ & H & _).
  exact H.
Defined.

(** X10 on a host whose library asks for a password: the three calls end
    with the analysis of the unlocked file. *)
Lemma check_unlock_process_witness :
  fst (@process_pdf locked_pdf_host
         (session_request
            (JStr (unlocked (@session_id_at locked_pdf_host 0)))
            JUndefined (str "bank"))
         (snd (@unlock_pdf locked_pdf_host
                 (session_request (JStr (@session_id_at locked_pdf_host 0))
                    (str "secret") JUndefined)
                 (snd (@check_pdf locked_pdf_host (Some sample_upload) empty_world)))))
  = success_body (JObj []) (str "bank") (lit "01/02/2024 COFFEE 120").
Proof.
  assert (@parse_response locked_pdf_host fenced_answer = Normal (JObj [])) as Hparse
    by (vm_compute; reflexivity).
  assert (message_includes encrypted_error "encrypted" = true) as Hmsg
    by (vm_compute; reflexivity).
  assert (@session_disk_ok locked_pdf_host
            (@session_id_at locked_pdf_host (tick empty_world))) as Hdisk
    by (repeat split).
  assert (@session_disk_ok locked_pdf_host
            (unlocked (@session_id_at locked_pdf_host (tick empty_world))))
    as Hdisk' by (repeat split).
  assert (@temp_path locked_pdf_host (@session_id_at locked_pdf_host (tick empty_world))
          <> @temp_path locked_pdf_host
               (unlocked (@session_id_at locked_pdf_host (tick empty_world))))
    as Hdiff by (vm_compute; discriminate).
  destruct (@check_unlock_process locked_pdf_host sample_upload empty_world
              (str "secret") (str "bank") encrypted_error sample_pdf sample_pdf
              (lit "01/02/2024 COFFEE 120") fenced_answer (JObj [])
              eq_refl Hmsg eq_refl eq_refl eq_refl Hdisk Hdisk' Hdiff
              eq_refl eq_refl Hparse) as (_ & _ & H & _).
  exact H.
Defined.

(** X11 for a statement of one line. *)
Lemma short_statement_lists_all_transactions_witness :
  getBankStatementPrompt (lit "01/02/2024 COFFEE 120")
  = bank_template_1 ++ lit "Include ALL transactions" ++ bank_template_2
    ++ lit "01/02/2024 COFFEE 120" ++ bank_template_3.
Proof.
  destruct (short_statement_lists_all_transactions (lit "01/02/2024 COFFEE 120"))
    as (_ & _ & H).
  apply H. right. vm_compute. discriminate.
Defined.

(** X12 for the sample text of 500001 code units and for a statement of
    one line. *)
Lemma prompt_size_is_bounded_witness :
  jslength (getBankStatementPrompt oversized_sample) = 203165
  /\ jslength (getCreditCardPrompt (lit "01/02/2024 COFFEE 120")) = 21 + 2108.
Proof.
  split.
  - destruct (prompt_size_is_bounded oversized_sample) as (_ & H & _).
    apply H. rewrite oversized_sample_length. lia.
  - destruct (prompt_size_is_bounded (lit "01/02/2024 COFFEE 120")) as (H & _).
    apply H. vm_compute. discriminate.
Defined.

(** X13 for the sample text of 500001 code units. *)
Lemma part001_prompt_windows_witness :
  100000 < jslength oversized_sample
  /\ contains (Part001.getBankStatementPrompt oversized_sample) omission_marker
  /\ jslength (Part001.getCreditCardPrompt oversized_sample)
     = jslength Part001.credit_template_1 + 60043 + jslength Part001.credit_template_2.
Proof.
  assert (100000 < jslength oversized_sample) as H
    by (rewrite oversized_sample_length; lia).
  split; [exact H|].
  destruct (part001_prompt_windows oversized_sample) as (W & _).
  split.
  - apply (W H _ _ _ (or_introl (conj eq_refl (conj eq_refl eq_refl)))).
  - apply (W H _ _ _ (or_intror (conj eq_refl (conj eq_refl eq_refl)))).
Defined.

(** X14 for a statement of one line. *)
Lemma part000_prompt_is_capped_witness :
  Part000.getBankStatementPrompt (lit "01/02/2024 COFFEE 120")
  = Part000.bank_template_1 ++ lit "01/02/2024 COFFEE 120" ++ Part000.bank_template_2.
Proof.
  destruct (part000_prompt_is_capped (lit "01/02/2024 COFFEE 120")) as (H & _).
  apply H. vm_compute. discriminate.
Defined.

(** X15 with the echo parser: the fenced answer of the sample hosts gives
    the parser [{}], and an object inside a sentence gives it the object. *)
Lemma parser_is_given_the_payload_witness :
  @parse_response echo_host fenced_answer = Normal (JStr (lit "{}"))
  /\ @parse_response echo_host (tpl "The analysis: {~summary~:{}} as asked.")
     = Normal (JStr (tpl "{~summary~:{}}")).
Proof.
  split.
  - destruct (@parser_is_given_the_payload echo_host (lit "Here it is: ") (lit "{}") [])
      as (H & _).
    apply (H newline newline).
    + decided.
    + decided.
    + repeat constructor.
    + repeat constructor.
    + vm_compute. split; reflexivity.
  - destruct (@parser_is_given_the_payload echo_host (lit "The analysis: ")
                (tpl "~summary~:{}") (lit " as asked.")) as (_ & H).
    assert (left_brace ∉ lit "The analysis: ") as Hl by decided.
    assert (right_brace ∉ lit " as asked.") as Hr by decided.
    destruct (H Hl Hr) as (Hjs & _).
    apply Hjs. decided.
Defined.


(** X17 on a network that delivers the sample PDF: the URL route answers
    as the upload route does for the sample upload. *)
Lemma check_pdf_url_is_check_pdf_witness :
  @check_pdf_url echo_host sample_network sample_url_body empty_world
  = @check_pdf echo_host (Some sample_upload) empty_world.
Proof.
  destruct (@check_pdf_url_is_check_pdf echo_host sample_network sample_url_body
              empty_world) as (_ & H).
  destruct (H eq_refl) as (_ & Hdown).
  destruct (Hdown (mkFetchResponse true (Normal sample_pdf)) eq_refl) as (_ & Hok).
  destruct (Hok eq_refl) as (_ & Hsame).
  destruct (Hsame sample_pdf (lit "statement.pdf") 4%float eq_refl eq_refl eq_refl)
    as (_ & _ & _ & H200).
  apply H200. reflexivity.
Defined.

(** X19 in a directory with an old and a new file: the old one is
    deleted, the new one is kept. *)
Lemma sweep_deletes_every_expired_file_witness :
  exists kept,
    @sweep echo_host (sample_directory [lit "old.pdf"; lit "new.pdf"]) world_with_two
    = (Normal tt, with_files (ticked world_with_two) kept)
    /\ kept !! lit "/app/temp/old.pdf" = None
    /\ kept !! lit "/app/temp/new.pdf" = Some sample_pdf.
Proof.
  destruct (@sweep_deletes_every_expired_file echo_host
              (sample_directory [lit "old.pdf"; lit "new.pdf"]) world_with_two
              [lit "old.pdf"; lit "new.pdf"] eq_refl) as (kept & E & Hk & Hyoung).
  - decided.
  - intros p Hp. apply list_elem_of_In in Hp.
    destruct Hp as [<-|[<-|[]]]; repeat split;
      try (eexists; vm_compute; reflexivity).
  - exists kept. split; [exact E|]. split.
    + rewrite Hk. vm_compute. reflexivity.
    + apply Hyoung; vm_compute; reflexivity.
Defined.

(** X20 with a listing that names a file that is gone before the old
    file: the old file is kept although it is expired. *)
Lemma sweep_stops_at_first_fault_witness :
  expired (directory := sample_directory [lit "gone.pdf"; lit "old.pdf"])
    (@Date_now echo_host 0) (lit "/app/temp/old.pdf") = true
  /\ files (snd (@sweep echo_host (sample_directory [lit "gone.pdf"; lit "old.pdf"])
                   world_with_two)) !! lit "/app/temp/old.pdf"
     = Some sample_pdf.
Proof.
  split; [reflexivity|].
  destruct (@sweep_stops_at_first_fault echo_host
              (sample_directory [lit "gone.pdf"; lit "old.pdf"]) world_with_two
              [] [lit "old.pdf"] (lit "gone.pdf") eq_refl) as (_ & H).
  - left. vm_compute. reflexivity.
  - rewrite (H (lit "/app/temp/old.pdf")); [reflexivity|].
    intros Hin. inversion Hin.
Defined.
